(** * SemaphoreGate: a shallow embedding of the Arduino sketch

    The sketch [SemaphoreGate.ino] counts visitors passing two infrared
    sensors, drives a red/green traffic light and a buzzer, and lets an
    operator edit the two counters with three buttons.  All of its state is
    a set of global variables that [loop()] reads and writes once per
    iteration.

    The embedding keeps the sketch's structure: one record field per global
    variable, one Rocq function per C++ function, each a state transformer.
    [unsigned long] is 32 bits wide on the AVR; values are integers in [Z]
    and every arithmetic operation of the sketch is followed by [wrap].
    [LOG_TO_SERIAL] is [false] and never assigned, so the [Serial] calls it
    guards are left out. *)

From Stdlib Require Import ZArith Bool List Lia.
From Stdlib Require Import String DecimalString DecimalN Decimal.
Import ListNotations.
Local Open Scope Z_scope.

(** ** Machine arithmetic *)

Definition ULONG_MODULUS : Z := 4294967296.

Definition wrap (z : Z) : Z := z mod ULONG_MODULUS.

(** [a - b], [a++] and [a--] on [unsigned long]. *)
Definition usub (a b : Z) : Z := wrap (a - b).

Definition uincr (a : Z) : Z := wrap (a + 1).

Definition udecr (a : Z) : Z := wrap (a - 1).

Definition in_range (z : Z) : Prop := 0 <= z < ULONG_MODULUS.

(** ** Pins *)

Inductive level : Type := LOW | HIGH.

Definition level_eqb (a b : level) : bool :=
  match a, b with
  | LOW, LOW | HIGH, HIGH => true
  | _, _ => false
  end.

Definition PORT_A0_SENSOR_IN : Z := 8.

Definition PORT_A1_SENSOR_OUT : Z := 9.

Definition PORT_A2_BUZZER : Z := 4.

Definition PORT_A3_RED_LIGHT : Z := 3.

Definition PORT_A4_GREEN_LIGHT : Z := 2.

Definition PORT_A5_BUTTON_RESET : Z := 7.

Definition PORT_A8_BUTTON_UP : Z := 6.

Definition PORT_A9_BUTTON_DOWN : Z := 5.

(** ** Timing constants *)

Definition SENSOR_DELAY_MS : Z := 1000.

Definition BUZZER_DURATION_MS : Z := 500.

Definition BUTTON_REPEAT_DELAY_MS : Z := 500.

Definition BUTTON_LONG_DELAY_MS : Z := 5000.

Definition BUTTON_ENTRANCE_MIN_MS : Z := 2000.

(** ** Call log

    The sketch keeps no record of which handler ran, while its
    specification speaks of handlers being called (one [enter()] call per
    accepted edge, the alert being triggered).  The embedding therefore
    carries a ghost log: each of the functions named below prepends its own
    name on entry and does nothing else with the log. *)
Inductive call : Type :=
  | Call_handleVisitorEntered
  | Call_handleVisitorLeft
  | Call_buzz
  | Call_handleReset
  | Call_handleButtonUp
  | Call_handleButtonDown
  | Call_initializeDisplay
  | Call_setDisplayText.

Definition call_eqb (a b : call) : bool :=
  match a, b with
  | Call_handleVisitorEntered, Call_handleVisitorEntered
  | Call_handleVisitorLeft, Call_handleVisitorLeft
  | Call_buzz, Call_buzz
  | Call_handleReset, Call_handleReset
  | Call_handleButtonUp, Call_handleButtonUp
  | Call_handleButtonDown, Call_handleButtonDown
  | Call_initializeDisplay, Call_initializeDisplay
  | Call_setDisplayText, Call_setDisplayText => true
  | _, _ => false
  end.

Fixpoint count_calls (c : call) (l : list call) : nat :=
  match l with
  | [] => O
  | x :: r => ((if call_eqb c x then 1 else 0) + count_calls c r)%nat
  end.

(** ** The global variables *)

Record state : Type := mkState {
  currentMillis : Z;
  previousMillis : Z;
  buttonResetTimestamp : Z;
  buttonUpTimestamp : Z;
  buttonDownTimestamp : Z;
  sensorInTimestamp : Z;
  sensorOutTimestamp : Z;
  buzzerTimestamp : Z;
  displayTimestamp : Z;
  keepRedTimestamp : Z;
  buttonResetBlocked : bool;
  buttonResetWasPressed : bool;
  buttonUpWasPressed : bool;
  buttonDownWasPressed : bool;
  sensorInWasActive : bool;
  sensorOutWasActive : bool;
  buzzerIsActive : bool;
  displayUpdated : bool;
  buttonResetNowPressed : bool;
  buttonUpNowPressed : bool;
  buttonDownNowPressed : bool;
  sensorInNowActive : bool;
  sensorOutNowActive : bool;
  visitorCount : Z;
  maxVisitorCount : Z;
  pinBuzzer : level;
  pinRedLight : level;
  pinGreenLight : level;
  calls : list call
}.

Definition set_currentMillis (v : Z) (s : state) : state :=
  mkState v (previousMillis s) (buttonResetTimestamp s) (buttonUpTimestamp s)
    (buttonDownTimestamp s) (sensorInTimestamp s) (sensorOutTimestamp s)
    (buzzerTimestamp s) (displayTimestamp s) (keepRedTimestamp s)
    (buttonResetBlocked s) (buttonResetWasPressed s) (buttonUpWasPressed s)
    (buttonDownWasPressed s) (sensorInWasActive s) (sensorOutWasActive s)
    (buzzerIsActive s) (displayUpdated s) (buttonResetNowPressed s)
    (buttonUpNowPressed s) (buttonDownNowPressed s) (sensorInNowActive s)
    (sensorOutNowActive s) (visitorCount s) (maxVisitorCount s) (pinBuzzer s)
    (pinRedLight s) (pinGreenLight s) (calls s).

Definition set_previousMillis (v : Z) (s : state) : state :=
  mkState (currentMillis s) v (buttonResetTimestamp s) (buttonUpTimestamp s)
    (buttonDownTimestamp s) (sensorInTimestamp s) (sensorOutTimestamp s)
    (buzzerTimestamp s) (displayTimestamp s) (keepRedTimestamp s)
    (buttonResetBlocked s) (buttonResetWasPressed s) (buttonUpWasPressed s)
    (buttonDownWasPressed s) (sensorInWasActive s) (sensorOutWasActive s)
    (buzzerIsActive s) (displayUpdated s) (buttonResetNowPressed s)
    (buttonUpNowPressed s) (buttonDownNowPressed s) (sensorInNowActive s)
    (sensorOutNowActive s) (visitorCount s) (maxVisitorCount s) (pinBuzzer s)
    (pinRedLight s) (pinGreenLight s) (calls s).

Definition set_buttonResetTimestamp (v : Z) (s : state) : state :=
  mkState (currentMillis s) (previousMillis s) v (buttonUpTimestamp s)
    (buttonDownTimestamp s) (sensorInTimestamp s) (sensorOutTimestamp s)
    (buzzerTimestamp s) (displayTimestamp s) (keepRedTimestamp s)
    (buttonResetBlocked s) (buttonResetWasPressed s) (buttonUpWasPressed s)
    (buttonDownWasPressed s) (sensorInWasActive s) (sensorOutWasActive s)
    (buzzerIsActive s) (displayUpdated s) (buttonResetNowPressed s)
    (buttonUpNowPressed s) (buttonDownNowPressed s) (sensorInNowActive s)
    (sensorOutNowActive s) (visitorCount s) (maxVisitorCount s) (pinBuzzer s)
    (pinRedLight s) (pinGreenLight s) (calls s).

Definition set_buttonUpTimestamp (v : Z) (s : state) : state :=
  mkState (currentMillis s) (previousMillis s) (buttonResetTimestamp s) v
    (buttonDownTimestamp s) (sensorInTimestamp s) (sensorOutTimestamp s)
    (buzzerTimestamp s) (displayTimestamp s) (keepRedTimestamp s)
    (buttonResetBlocked s) (buttonResetWasPressed s) (buttonUpWasPressed s)
    (buttonDownWasPressed s) (sensorInWasActive s) (sensorOutWasActive s)
    (buzzerIsActive s) (displayUpdated s) (buttonResetNowPressed s)
    (buttonUpNowPressed s) (buttonDownNowPressed s) (sensorInNowActive s)
    (sensorOutNowActive s) (visitorCount s) (maxVisitorCount s) (pinBuzzer s)
    (pinRedLight s) (pinGreenLight s) (calls s).

Definition set_buttonDownTimestamp (v : Z) (s : state) : state :=
  mkState (currentMillis s) (previousMillis s) (buttonResetTimestamp s)
    (buttonUpTimestamp s) v (sensorInTimestamp s) (sensorOutTimestamp s)
    (buzzerTimestamp s) (displayTimestamp s) (keepRedTimestamp s)
    (buttonResetBlocked s) (buttonResetWasPressed s) (buttonUpWasPressed s)
    (buttonDownWasPressed s) (sensorInWasActive s) (sensorOutWasActive s)
    (buzzerIsActive s) (displayUpdated s) (buttonResetNowPressed s)
    (buttonUpNowPressed s) (buttonDownNowPressed s) (sensorInNowActive s)
    (sensorOutNowActive s) (visitorCount s) (maxVisitorCount s) (pinBuzzer s)
    (pinRedLight s) (pinGreenLight s) (calls s).

Definition set_sensorInTimestamp (v : Z) (s : state) : state :=
  mkState (currentMillis s) (previousMillis s) (buttonResetTimestamp s)
    (buttonUpTimestamp s) (buttonDownTimestamp s) v (sensorOutTimestamp s)
    (buzzerTimestamp s) (displayTimestamp s) (keepRedTimestamp s)
    (buttonResetBlocked s) (buttonResetWasPressed s) (buttonUpWasPressed s)
    (buttonDownWasPressed s) (sensorInWasActive s) (sensorOutWasActive s)
    (buzzerIsActive s) (displayUpdated s) (buttonResetNowPressed s)
    (buttonUpNowPressed s) (buttonDownNowPressed s) (sensorInNowActive s)
    (sensorOutNowActive s) (visitorCount s) (maxVisitorCount s) (pinBuzzer s)
    (pinRedLight s) (pinGreenLight s) (calls s).

Definition set_sensorOutTimestamp (v : Z) (s : state) : state :=
  mkState (currentMillis s) (previousMillis s) (buttonResetTimestamp s)
    (buttonUpTimestamp s) (buttonDownTimestamp s) (sensorInTimestamp s) v
    (buzzerTimestamp s) (displayTimestamp s) (keepRedTimestamp s)
    (buttonResetBlocked s) (buttonResetWasPressed s) (buttonUpWasPressed s)
    (buttonDownWasPressed s) (sensorInWasActive s) (sensorOutWasActive s)
    (buzzerIsActive s) (displayUpdated s) (buttonResetNowPressed s)
    (buttonUpNowPressed s) (buttonDownNowPressed s) (sensorInNowActive s)
    (sensorOutNowActive s) (visitorCount s) (maxVisitorCount s) (pinBuzzer s)
    (pinRedLight s) (pinGreenLight s) (calls s).

Definition set_buzzerTimestamp (v : Z) (s : state) : state :=
  mkState (currentMillis s) (previousMillis s) (buttonResetTimestamp s)
    (buttonUpTimestamp s) (buttonDownTimestamp s) (sensorInTimestamp s)
    (sensorOutTimestamp s) v (displayTimestamp s) (keepRedTimestamp s)
    (buttonResetBlocked s) (buttonResetWasPressed s) (buttonUpWasPressed s)
    (buttonDownWasPressed s) (sensorInWasActive s) (sensorOutWasActive s)
    (buzzerIsActive s) (displayUpdated s) (buttonResetNowPressed s)
    (buttonUpNowPressed s) (buttonDownNowPressed s) (sensorInNowActive s)
    (sensorOutNowActive s) (visitorCount s) (maxVisitorCount s) (pinBuzzer s)
    (pinRedLight s) (pinGreenLight s) (calls s).

Definition set_displayTimestamp (v : Z) (s : state) : state :=
  mkState (currentMillis s) (previousMillis s) (buttonResetTimestamp s)
    (buttonUpTimestamp s) (buttonDownTimestamp s) (sensorInTimestamp s)
    (sensorOutTimestamp s) (buzzerTimestamp s) v (keepRedTimestamp s)
    (buttonResetBlocked s) (buttonResetWasPressed s) (buttonUpWasPressed s)
    (buttonDownWasPressed s) (sensorInWasActive s) (sensorOutWasActive s)
    (buzzerIsActive s) (displayUpdated s) (buttonResetNowPressed s)
    (buttonUpNowPressed s) (buttonDownNowPressed s) (sensorInNowActive s)
    (sensorOutNowActive s) (visitorCount s) (maxVisitorCount s) (pinBuzzer s)
    (pinRedLight s) (pinGreenLight s) (calls s).

Definition set_keepRedTimestamp (v : Z) (s : state) : state :=
  mkState (currentMillis s) (previousMillis s) (buttonResetTimestamp s)
    (buttonUpTimestamp s) (buttonDownTimestamp s) (sensorInTimestamp s)
    (sensorOutTimestamp s) (buzzerTimestamp s) (displayTimestamp s) v
    (buttonResetBlocked s) (buttonResetWasPressed s) (buttonUpWasPressed s)
    (buttonDownWasPressed s) (sensorInWasActive s) (sensorOutWasActive s)
    (buzzerIsActive s) (displayUpdated s) (buttonResetNowPressed s)
    (buttonUpNowPressed s) (buttonDownNowPressed s) (sensorInNowActive s)
    (sensorOutNowActive s) (visitorCount s) (maxVisitorCount s) (pinBuzzer s)
    (pinRedLight s) (pinGreenLight s) (calls s).

Definition set_buttonResetBlocked (v : bool) (s : state) : state :=
  mkState (currentMillis s) (previousMillis s) (buttonResetTimestamp s)
    (buttonUpTimestamp s) (buttonDownTimestamp s) (sensorInTimestamp s)
    (sensorOutTimestamp s) (buzzerTimestamp s) (displayTimestamp s)
    (keepRedTimestamp s) v (buttonResetWasPressed s) (buttonUpWasPressed s)
    (buttonDownWasPressed s) (sensorInWasActive s) (sensorOutWasActive s)
    (buzzerIsActive s) (displayUpdated s) (buttonResetNowPressed s)
    (buttonUpNowPressed s) (buttonDownNowPressed s) (sensorInNowActive s)
    (sensorOutNowActive s) (visitorCount s) (maxVisitorCount s) (pinBuzzer s)
    (pinRedLight s) (pinGreenLight s) (calls s).

Definition set_buttonResetWasPressed (v : bool) (s : state) : state :=
  mkState (currentMillis s) (previousMillis s) (buttonResetTimestamp s)
    (buttonUpTimestamp s) (buttonDownTimestamp s) (sensorInTimestamp s)
    (sensorOutTimestamp s) (buzzerTimestamp s) (displayTimestamp s)
    (keepRedTimestamp s) (buttonResetBlocked s) v (buttonUpWasPressed s)
    (buttonDownWasPressed s) (sensorInWasActive s) (sensorOutWasActive s)
    (buzzerIsActive s) (displayUpdated s) (buttonResetNowPressed s)
    (buttonUpNowPressed s) (buttonDownNowPressed s) (sensorInNowActive s)
    (sensorOutNowActive s) (visitorCount s) (maxVisitorCount s) (pinBuzzer s)
    (pinRedLight s) (pinGreenLight s) (calls s).

Definition set_buttonUpWasPressed (v : bool) (s : state) : state :=
  mkState (currentMillis s) (previousMillis s) (buttonResetTimestamp s)
    (buttonUpTimestamp s) (buttonDownTimestamp s) (sensorInTimestamp s)
    (sensorOutTimestamp s) (buzzerTimestamp s) (displayTimestamp s)
    (keepRedTimestamp s) (buttonResetBlocked s) (buttonResetWasPressed s) v
    (buttonDownWasPressed s) (sensorInWasActive s) (sensorOutWasActive s)
    (buzzerIsActive s) (displayUpdated s) (buttonResetNowPressed s)
    (buttonUpNowPressed s) (buttonDownNowPressed s) (sensorInNowActive s)
    (sensorOutNowActive s) (visitorCount s) (maxVisitorCount s) (pinBuzzer s)
    (pinRedLight s) (pinGreenLight s) (calls s).

Definition set_buttonDownWasPressed (v : bool) (s : state) : state :=
  mkState (currentMillis s) (previousMillis s) (buttonResetTimestamp s)
    (buttonUpTimestamp s) (buttonDownTimestamp s) (sensorInTimestamp s)
    (sensorOutTimestamp s) (buzzerTimestamp s) (displayTimestamp s)
    (keepRedTimestamp s) (buttonResetBlocked s) (buttonResetWasPressed s)
    (buttonUpWasPressed s) v (sensorInWasActive s) (sensorOutWasActive s)
    (buzzerIsActive s) (displayUpdated s) (buttonResetNowPressed s)
    (buttonUpNowPressed s) (buttonDownNowPressed s) (sensorInNowActive s)
    (sensorOutNowActive s) (visitorCount s) (maxVisitorCount s) (pinBuzzer s)
    (pinRedLight s) (pinGreenLight s) (calls s).

Definition set_sensorInWasActive (v : bool) (s : state) : state :=
  mkState (currentMillis s) (previousMillis s) (buttonResetTimestamp s)
    (buttonUpTimestamp s) (buttonDownTimestamp s) (sensorInTimestamp s)
    (sensorOutTimestamp s) (buzzerTimestamp s) (displayTimestamp s)
    (keepRedTimestamp s) (buttonResetBlocked s) (buttonResetWasPressed s)
    (buttonUpWasPressed s) (buttonDownWasPressed s) v (sensorOutWasActive s)
    (buzzerIsActive s) (displayUpdated s) (buttonResetNowPressed s)
    (buttonUpNowPressed s) (buttonDownNowPressed s) (sensorInNowActive s)
    (sensorOutNowActive s) (visitorCount s) (maxVisitorCount s) (pinBuzzer s)
    (pinRedLight s) (pinGreenLight s) (calls s).

Definition set_sensorOutWasActive (v : bool) (s : state) : state :=
  mkState (currentMillis s) (previousMillis s) (buttonResetTimestamp s)
    (buttonUpTimestamp s) (buttonDownTimestamp s) (sensorInTimestamp s)
    (sensorOutTimestamp s) (buzzerTimestamp s) (displayTimestamp s)
    (keepRedTimestamp s) (buttonResetBlocked s) (buttonResetWasPressed s)
    (buttonUpWasPressed s) (buttonDownWasPressed s) (sensorInWasActive s) v
    (buzzerIsActive s) (displayUpdated s) (buttonResetNowPressed s)
    (buttonUpNowPressed s) (buttonDownNowPressed s) (sensorInNowActive s)
    (sensorOutNowActive s) (visitorCount s) (maxVisitorCount s) (pinBuzzer s)
    (pinRedLight s) (pinGreenLight s) (calls s).

Definition set_buzzerIsActive (v : bool) (s : state) : state :=
  mkState (currentMillis s) (previousMillis s) (buttonResetTimestamp s)
    (buttonUpTimestamp s) (buttonDownTimestamp s) (sensorInTimestamp s)
    (sensorOutTimestamp s) (buzzerTimestamp s) (displayTimestamp s)
    (keepRedTimestamp s) (buttonResetBlocked s) (buttonResetWasPressed s)
    (buttonUpWasPressed s) (buttonDownWasPressed s) (sensorInWasActive s)
    (sensorOutWasActive s) v (displayUpdated s) (buttonResetNowPressed s)
    (buttonUpNowPressed s) (buttonDownNowPressed s) (sensorInNowActive s)
    (sensorOutNowActive s) (visitorCount s) (maxVisitorCount s) (pinBuzzer s)
    (pinRedLight s) (pinGreenLight s) (calls s).

Definition set_displayUpdated (v : bool) (s : state) : state :=
  mkState (currentMillis s) (previousMillis s) (buttonResetTimestamp s)
    (buttonUpTimestamp s) (buttonDownTimestamp s) (sensorInTimestamp s)
    (sensorOutTimestamp s) (buzzerTimestamp s) (displayTimestamp s)
    (keepRedTimestamp s) (buttonResetBlocked s) (buttonResetWasPressed s)
    (buttonUpWasPressed s) (buttonDownWasPressed s) (sensorInWasActive s)
    (sensorOutWasActive s) (buzzerIsActive s) v (buttonResetNowPressed s)
    (buttonUpNowPressed s) (buttonDownNowPressed s) (sensorInNowActive s)
    (sensorOutNowActive s) (visitorCount s) (maxVisitorCount s) (pinBuzzer s)
    (pinRedLight s) (pinGreenLight s) (calls s).

Definition set_buttonResetNowPressed (v : bool) (s : state) : state :=
  mkState (currentMillis s) (previousMillis s) (buttonResetTimestamp s)
    (buttonUpTimestamp s) (buttonDownTimestamp s) (sensorInTimestamp s)
    (sensorOutTimestamp s) (buzzerTimestamp s) (displayTimestamp s)
    (keepRedTimestamp s) (buttonResetBlocked s) (buttonResetWasPressed s)
    (buttonUpWasPressed s) (buttonDownWasPressed s) (sensorInWasActive s)
    (sensorOutWasActive s) (buzzerIsActive s) (displayUpdated s) v
    (buttonUpNowPressed s) (buttonDownNowPressed s) (sensorInNowActive s)
    (sensorOutNowActive s) (visitorCount s) (maxVisitorCount s) (pinBuzzer s)
    (pinRedLight s) (pinGreenLight s) (calls s).

Definition set_buttonUpNowPressed (v : bool) (s : state) : state :=
  mkState (currentMillis s) (previousMillis s) (buttonResetTimestamp s)
    (buttonUpTimestamp s) (buttonDownTimestamp s) (sensorInTimestamp s)
    (sensorOutTimestamp s) (buzzerTimestamp s) (displayTimestamp s)
    (keepRedTimestamp s) (buttonResetBlocked s) (buttonResetWasPressed s)
    (buttonUpWasPressed s) (buttonDownWasPressed s) (sensorInWasActive s)
    (sensorOutWasActive s) (buzzerIsActive s) (displayUpdated s)
    (buttonResetNowPressed s) v (buttonDownNowPressed s) (sensorInNowActive s)
    (sensorOutNowActive s) (visitorCount s) (maxVisitorCount s) (pinBuzzer s)
    (pinRedLight s) (pinGreenLight s) (calls s).

Definition set_buttonDownNowPressed (v : bool) (s : state) : state :=
  mkState (currentMillis s) (previousMillis s) (buttonResetTimestamp s)
    (buttonUpTimestamp s) (buttonDownTimestamp s) (sensorInTimestamp s)
    (sensorOutTimestamp s) (buzzerTimestamp s) (displayTimestamp s)
    (keepRedTimestamp s) (buttonResetBlocked s) (buttonResetWasPressed s)
    (buttonUpWasPressed s) (buttonDownWasPressed s) (sensorInWasActive s)
    (sensorOutWasActive s) (buzzerIsActive s) (displayUpdated s)
    (buttonResetNowPressed s) (buttonUpNowPressed s) v (sensorInNowActive s)
    (sensorOutNowActive s) (visitorCount s) (maxVisitorCount s) (pinBuzzer s)
    (pinRedLight s) (pinGreenLight s) (calls s).

Definition set_sensorInNowActive (v : bool) (s : state) : state :=
  mkState (currentMillis s) (previousMillis s) (buttonResetTimestamp s)
    (buttonUpTimestamp s) (buttonDownTimestamp s) (sensorInTimestamp s)
    (sensorOutTimestamp s) (buzzerTimestamp s) (displayTimestamp s)
    (keepRedTimestamp s) (buttonResetBlocked s) (buttonResetWasPressed s)
    (buttonUpWasPressed s) (buttonDownWasPressed s) (sensorInWasActive s)
    (sensorOutWasActive s) (buzzerIsActive s) (displayUpdated s)
    (buttonResetNowPressed s) (buttonUpNowPressed s) (buttonDownNowPressed s)
    v (sensorOutNowActive s) (visitorCount s) (maxVisitorCount s)
    (pinBuzzer s) (pinRedLight s) (pinGreenLight s) (calls s).

Definition set_sensorOutNowActive (v : bool) (s : state) : state :=
  mkState (currentMillis s) (previousMillis s) (buttonResetTimestamp s)
    (buttonUpTimestamp s) (buttonDownTimestamp s) (sensorInTimestamp s)
    (sensorOutTimestamp s) (buzzerTimestamp s) (displayTimestamp s)
    (keepRedTimestamp s) (buttonResetBlocked s) (buttonResetWasPressed s)
    (buttonUpWasPressed s) (buttonDownWasPressed s) (sensorInWasActive s)
    (sensorOutWasActive s) (buzzerIsActive s) (displayUpdated s)
    (buttonResetNowPressed s) (buttonUpNowPressed s) (buttonDownNowPressed s)
    (sensorInNowActive s) v (visitorCount s) (maxVisitorCount s) (pinBuzzer s)
    (pinRedLight s) (pinGreenLight s) (calls s).

Definition set_visitorCount (v : Z) (s : state) : state :=
  mkState (currentMillis s) (previousMillis s) (buttonResetTimestamp s)
    (buttonUpTimestamp s) (buttonDownTimestamp s) (sensorInTimestamp s)
    (sensorOutTimestamp s) (buzzerTimestamp s) (displayTimestamp s)
    (keepRedTimestamp s) (buttonResetBlocked s) (buttonResetWasPressed s)
    (buttonUpWasPressed s) (buttonDownWasPressed s) (sensorInWasActive s)
    (sensorOutWasActive s) (buzzerIsActive s) (displayUpdated s)
    (buttonResetNowPressed s) (buttonUpNowPressed s) (buttonDownNowPressed s)
    (sensorInNowActive s) (sensorOutNowActive s) v (maxVisitorCount s)
    (pinBuzzer s) (pinRedLight s) (pinGreenLight s) (calls s).

Definition set_maxVisitorCount (v : Z) (s : state) : state :=
  mkState (currentMillis s) (previousMillis s) (buttonResetTimestamp s)
    (buttonUpTimestamp s) (buttonDownTimestamp s) (sensorInTimestamp s)
    (sensorOutTimestamp s) (buzzerTimestamp s) (displayTimestamp s)
    (keepRedTimestamp s) (buttonResetBlocked s) (buttonResetWasPressed s)
    (buttonUpWasPressed s) (buttonDownWasPressed s) (sensorInWasActive s)
    (sensorOutWasActive s) (buzzerIsActive s) (displayUpdated s)
    (buttonResetNowPressed s) (buttonUpNowPressed s) (buttonDownNowPressed s)
    (sensorInNowActive s) (sensorOutNowActive s) (visitorCount s) v
    (pinBuzzer s) (pinRedLight s) (pinGreenLight s) (calls s).

Definition set_pinBuzzer (v : level) (s : state) : state :=
  mkState (currentMillis s) (previousMillis s) (buttonResetTimestamp s)
    (buttonUpTimestamp s) (buttonDownTimestamp s) (sensorInTimestamp s)
    (sensorOutTimestamp s) (buzzerTimestamp s) (displayTimestamp s)
    (keepRedTimestamp s) (buttonResetBlocked s) (buttonResetWasPressed s)
    (buttonUpWasPressed s) (buttonDownWasPressed s) (sensorInWasActive s)
    (sensorOutWasActive s) (buzzerIsActive s) (displayUpdated s)
    (buttonResetNowPressed s) (buttonUpNowPressed s) (buttonDownNowPressed s)
    (sensorInNowActive s) (sensorOutNowActive s) (visitorCount s)
    (maxVisitorCount s) v (pinRedLight s) (pinGreenLight s) (calls s).

Definition set_pinRedLight (v : level) (s : state) : state :=
  mkState (currentMillis s) (previousMillis s) (buttonResetTimestamp s)
    (buttonUpTimestamp s) (buttonDownTimestamp s) (sensorInTimestamp s)
    (sensorOutTimestamp s) (buzzerTimestamp s) (displayTimestamp s)
    (keepRedTimestamp s) (buttonResetBlocked s) (buttonResetWasPressed s)
    (buttonUpWasPressed s) (buttonDownWasPressed s) (sensorInWasActive s)
    (sensorOutWasActive s) (buzzerIsActive s) (displayUpdated s)
    (buttonResetNowPressed s) (buttonUpNowPressed s) (buttonDownNowPressed s)
    (sensorInNowActive s) (sensorOutNowActive s) (visitorCount s)
    (maxVisitorCount s) (pinBuzzer s) v (pinGreenLight s) (calls s).

Definition set_pinGreenLight (v : level) (s : state) : state :=
  mkState (currentMillis s) (previousMillis s) (buttonResetTimestamp s)
    (buttonUpTimestamp s) (buttonDownTimestamp s) (sensorInTimestamp s)
    (sensorOutTimestamp s) (buzzerTimestamp s) (displayTimestamp s)
    (keepRedTimestamp s) (buttonResetBlocked s) (buttonResetWasPressed s)
    (buttonUpWasPressed s) (buttonDownWasPressed s) (sensorInWasActive s)
    (sensorOutWasActive s) (buzzerIsActive s) (displayUpdated s)
    (buttonResetNowPressed s) (buttonUpNowPressed s) (buttonDownNowPressed s)
    (sensorInNowActive s) (sensorOutNowActive s) (visitorCount s)
    (maxVisitorCount s) (pinBuzzer s) (pinRedLight s) v (calls s).

Definition set_calls (v : list call) (s : state) : state :=
  mkState (currentMillis s) (previousMillis s) (buttonResetTimestamp s)
    (buttonUpTimestamp s) (buttonDownTimestamp s) (sensorInTimestamp s)
    (sensorOutTimestamp s) (buzzerTimestamp s) (displayTimestamp s)
    (keepRedTimestamp s) (buttonResetBlocked s) (buttonResetWasPressed s)
    (buttonUpWasPressed s) (buttonDownWasPressed s) (sensorInWasActive s)
    (sensorOutWasActive s) (buzzerIsActive s) (displayUpdated s)
    (buttonResetNowPressed s) (buttonUpNowPressed s) (buttonDownNowPressed s)
    (sensorInNowActive s) (sensorOutNowActive s) (visitorCount s)
    (maxVisitorCount s) (pinBuzzer s) (pinRedLight s) (pinGreenLight s) v.

(** Number of times handler [c] has run so far. *)
Definition ncalls (c : call) (s : state) : nat := count_calls c (calls s).

Definition log (c : call) (s : state) : state := set_calls (c :: calls s) s.

(** ** Digital I/O

    The three output pins keep the level last written to them.  The five
    input pins are sampled once per iteration; one [inputs] record holds
    what [millis()] and the five [digitalRead]s of that iteration return. *)
Definition digitalWrite (pin : Z) (l : level) (s : state) : state :=
  if pin =? PORT_A2_BUZZER then set_pinBuzzer l s
  else if pin =? PORT_A3_RED_LIGHT then set_pinRedLight l s
  else if pin =? PORT_A4_GREEN_LIGHT then set_pinGreenLight l s
  else s.

Record inputs : Type := mkInputs {
  millis : Z;
  readButtonReset : level;
  readButtonUp : level;
  readButtonDown : level;
  readSensorIn : level;
  readSensorOut : level
}.

Definition digitalRead (i : inputs) (pin : Z) : level :=
  if pin =? PORT_A5_BUTTON_RESET then readButtonReset i
  else if pin =? PORT_A8_BUTTON_UP then readButtonUp i
  else if pin =? PORT_A9_BUTTON_DOWN then readButtonDown i
  else if pin =? PORT_A0_SENSOR_IN then readSensorIn i
  else if pin =? PORT_A1_SENSOR_OUT then readSensorOut i
  else HIGH.

(** ** The sketch, function by function *)

(** The LCD driver is an external sink; only the calls are recorded. *)
Definition initializeDisplay (s : state) : state :=
  log Call_initializeDisplay s.

Definition setDisplayText (s : state) : state :=
  log Call_setDisplayText s.

Definition updateTimers (now : Z) (s : state) : state :=
  let s := set_currentMillis now s in
  let s :=
    if currentMillis s <? previousMillis s then
      set_keepRedTimestamp 0
        (set_displayTimestamp 0
          (set_buzzerTimestamp 0
            (set_sensorOutTimestamp 0
              (set_sensorInTimestamp 0
                (set_buttonDownTimestamp 0
                  (set_buttonUpTimestamp 0
                    (set_buttonResetTimestamp 0 s)))))))
    else s in
  set_previousMillis (currentMillis s) s.

Definition checkBuzzer (s : state) : state :=
  let s :=
    if buzzerIsActive s
       && (usub (currentMillis s) (buzzerTimestamp s) >? BUZZER_DURATION_MS)
    then set_buzzerTimestamp (currentMillis s) (set_buzzerIsActive false s)
    else s in
  digitalWrite PORT_A2_BUZZER (if buzzerIsActive s then LOW else HIGH) s.

Definition buzz (s : state) : state :=
  let s := log Call_buzz s in
  if buzzerIsActive s then s
  else
    let s := set_buzzerIsActive true s in
    let s := set_buzzerTimestamp (currentMillis s) s in
    digitalWrite PORT_A2_BUZZER HIGH s.

Definition handleVisitorEntered (s : state) : state :=
  let s := log Call_handleVisitorEntered s in
  let s := set_visitorCount (uincr (visitorCount s)) s in
  let s := set_displayUpdated false s in
  let s := buzz s in
  set_keepRedTimestamp (currentMillis s) s.

Definition handleVisitorLeft (s : state) : state :=
  let s := log Call_handleVisitorLeft s in
  let s := if visitorCount s =? maxVisitorCount s then buzz s else s in
  let s :=
    if visitorCount s >? 0
    then set_visitorCount (udecr (visitorCount s)) s
    else s in
  set_displayUpdated false s.

Definition checkSensorIn (s : state) : state :=
  if sensorInWasActive s && negb (sensorInNowActive s) then
    if usub (currentMillis s) (sensorInTimestamp s) >? SENSOR_DELAY_MS then
      let s := handleVisitorEntered s in
      set_sensorInTimestamp (currentMillis s) s
    else s
  else s.

Definition checkSensorOut (s : state) : state :=
  if sensorOutWasActive s && negb (sensorOutNowActive s) then
    if usub (currentMillis s) (sensorOutTimestamp s) >? SENSOR_DELAY_MS then
      let s := handleVisitorLeft s in
      set_sensorOutTimestamp (currentMillis s) s
    else s
  else s.

Definition handleReset (s : state) : state :=
  let s := log Call_handleReset s in
  let s := set_visitorCount 0 s in
  let s := set_maxVisitorCount 20 s in
  let s := set_displayUpdated false s in
  buzz s.

Definition handleButtonUp (s : state) : state :=
  let s := log Call_handleButtonUp s in
  let s := set_buttonUpTimestamp (currentMillis s) s in
  let s :=
    if buttonResetNowPressed s
    then set_visitorCount (uincr (visitorCount s)) s
    else set_maxVisitorCount (uincr (maxVisitorCount s)) s in
  set_displayUpdated false s.

Definition handleButtonDown (s : state) : state :=
  let s := log Call_handleButtonDown s in
  let s := set_buttonDownTimestamp (currentMillis s) s in
  let s :=
    if buttonResetNowPressed s then
      if visitorCount s >? 0
      then set_visitorCount (udecr (visitorCount s)) s
      else s
    else
      if maxVisitorCount s >? 0
      then set_maxVisitorCount (udecr (maxVisitorCount s)) s
      else s in
  set_displayUpdated false s.

(** The guard of the long-press branch, read after the first [if] of
    [checkButtons] has run. *)
Definition longPressed (s : state) : bool :=
  negb (buttonResetBlocked s) && buttonResetWasPressed s
  && buttonResetNowPressed s
  && (usub (currentMillis s) (buttonResetTimestamp s) >? BUTTON_LONG_DELAY_MS).

Definition upPressed (s : state) : bool :=
  buttonUpNowPressed s
  && (usub (currentMillis s) (buttonUpTimestamp s) >? BUTTON_REPEAT_DELAY_MS).

Definition downPressed (s : state) : bool :=
  buttonDownNowPressed s
  && (usub (currentMillis s) (buttonDownTimestamp s)
      >? BUTTON_REPEAT_DELAY_MS).

(** First statement of [checkButtons]: unblock on release, restart the
    hold timer on a fresh press. *)
Definition unblockReset (s : state) : state :=
  if negb (buttonResetNowPressed s) then set_buttonResetBlocked false s
  else if negb (buttonResetWasPressed s)
  then set_buttonResetTimestamp (currentMillis s) s
  else s.

Definition checkButtons (s : state) : state :=
  let s := unblockReset s in
  if longPressed s then
    let s := set_buttonResetBlocked true s in
    handleReset s
  else if upPressed s then
    let s := set_buttonResetBlocked (buttonResetNowPressed s) s in
    handleButtonUp s
  else if downPressed s then
    let s := set_buttonResetBlocked (buttonResetNowPressed s) s in
    handleButtonDown s
  else s.

Definition updateLights (s : state) : state :=
  let allow := visitorCount s <? maxVisitorCount s in
  let '(allow, s) :=
    if keepRedTimestamp s >? 0 then
      if usub (currentMillis s) (keepRedTimestamp s) >? BUTTON_ENTRANCE_MIN_MS
      then
        let s := set_keepRedTimestamp 0 s in
        (allow, if allow then buzz s else s)
      else (false, s)
    else (allow, s) in
  let s := digitalWrite PORT_A3_RED_LIGHT (if allow then LOW else HIGH) s in
  digitalWrite PORT_A4_GREEN_LIGHT (if allow then HIGH else LOW) s.

Definition updateDisplay (s : state) : state :=
  let s :=
    if usub (currentMillis s) (displayTimestamp s) >? 60000
    then initializeDisplay (set_displayUpdated false s)
    else s in
  let s := updateLights s in
  if displayUpdated s then s
  else
    let s := set_displayTimestamp (currentMillis s) s in
    let s := set_displayUpdated true s in
    setDisplayText s.

(** One iteration of [loop()]; [i] is what the hardware returns to this
    iteration's [millis()] and [digitalRead] calls. *)
Definition loop (i : inputs) (s : state) : state :=
  let s := set_buttonResetNowPressed
             (level_eqb (digitalRead i PORT_A5_BUTTON_RESET) LOW) s in
  let s := set_buttonUpNowPressed
             (level_eqb (digitalRead i PORT_A8_BUTTON_UP) LOW) s in
  let s := set_buttonDownNowPressed
             (level_eqb (digitalRead i PORT_A9_BUTTON_DOWN) LOW) s in
  let s := set_sensorInNowActive
             (level_eqb (digitalRead i PORT_A0_SENSOR_IN) LOW) s in
  let s := set_sensorOutNowActive
             (level_eqb (digitalRead i PORT_A1_SENSOR_OUT) LOW) s in
  let s := updateTimers (millis i) s in
  let s := checkBuzzer s in
  let s := checkSensorIn s in
  let s := checkSensorOut s in
  let s := checkButtons s in
  let s := updateDisplay s in
  let s := set_buttonResetWasPressed (buttonResetNowPressed s) s in
  let s := set_buttonUpWasPressed (buttonUpNowPressed s) s in
  let s := set_buttonDownWasPressed (buttonDownNowPressed s) s in
  let s := set_sensorInWasActive (sensorInNowActive s) s in
  set_sensorOutWasActive (sensorOutNowActive s) s.

(** The values of the globals after static initialisation.  Three of them
    are initialised with [millis()]; [boot] is what those calls return
    (they run back to back before the timer is started). *)
Definition globals (boot : Z) : state :=
  mkState boot boot 0 0 0 0 0 0 0 boot
    false false false false false false false false
    false false false false false
    0 5
    LOW LOW LOW
    [].

(** [setup()].  The [pinMode] calls are left out; the writes to the input
    pins switch on their pull-ups. *)
Definition setup (s : state) : state :=
  let s := digitalWrite PORT_A0_SENSOR_IN HIGH s in
  let s := digitalWrite PORT_A1_SENSOR_OUT HIGH s in
  let s := digitalWrite PORT_A5_BUTTON_RESET HIGH s in
  let s := digitalWrite PORT_A8_BUTTON_UP HIGH s in
  let s := digitalWrite PORT_A9_BUTTON_DOWN HIGH s in
  let s := handleReset s in
  initializeDisplay s.

(** The device after power-up. *)
Definition power_on : state := setup (globals 0).

(** Running [loop()] once per element of a list of samples. *)
Fixpoint run (ins : list inputs) (s : state) : state :=
  match ins with
  | [] => s
  | i :: rest => run rest (loop i s)
  end.

(** The states at the end of each iteration, in order. *)
Fixpoint states (ins : list inputs) (s : state) : list state :=
  match ins with
  | [] => []
  | i :: rest => loop i s :: states rest (loop i s)
  end.

(** States the device can be in at the end of [setup()] or of an iteration
    of [loop()], for clock readings that fit an [unsigned long]. *)
Inductive reachable : state -> Prop :=
  | reachable_setup : forall boot,
      in_range boot -> reachable (setup (globals boot))
  | reachable_loop : forall i s,
      reachable s -> in_range (millis i) -> reachable (loop i s).

(** A clock that does not wrap around while the samples [ins] are taken:
    readings never decrease, starting from [prev]. *)
Fixpoint clock_ok (prev : Z) (ins : list inputs) : Prop :=
  match ins with
  | [] => True
  | i :: rest => prev <= millis i < ULONG_MODULUS /\ clock_ok (millis i) rest
  end.

(** ** Samples

    A sample with every input idle (pull-ups read HIGH). *)
Definition idle (t : Z) : inputs := mkInputs t HIGH HIGH HIGH HIGH HIGH.

Definition with_sensorIn (l : level) (i : inputs) : inputs :=
  mkInputs (millis i) (readButtonReset i) (readButtonUp i)
    (readButtonDown i) l (readSensorOut i).

Definition with_reset (l : level) (i : inputs) : inputs :=
  mkInputs (millis i) l (readButtonUp i) (readButtonDown i)
    (readSensorIn i) (readSensorOut i).

(** A visitor passes the entrance sensor: the beam is broken shortly
    before [t] and free again at [t]. *)
Definition visitor_enters (t : Z) : list inputs :=
  [with_sensorIn LOW (idle (t - 100)); idle t].

(** Six visitors, 1500 ms apart. *)
Definition six_entries : list inputs :=
  visitor_enters 1500 ++ visitor_enters 3000 ++ visitor_enters 4500
  ++ visitor_enters 6000 ++ visitor_enters 7500 ++ visitor_enters 9000.

(** * Definitions used in the proofs *)

(** The two halves of [loop()] around the tasks: reading the inputs, and
    remembering them for the next iteration. *)
Definition sample (i : inputs) (s : state) : state :=
  set_sensorOutNowActive (level_eqb (readSensorOut i) LOW)
    (set_sensorInNowActive (level_eqb (readSensorIn i) LOW)
      (set_buttonDownNowPressed (level_eqb (readButtonDown i) LOW)
        (set_buttonUpNowPressed (level_eqb (readButtonUp i) LOW)
          (set_buttonResetNowPressed (level_eqb (readButtonReset i) LOW)
            s)))).

Definition commit (s : state) : state :=
  let s := set_buttonResetWasPressed (buttonResetNowPressed s) s in
  let s := set_buttonUpWasPressed (buttonUpNowPressed s) s in
  let s := set_buttonDownWasPressed (buttonDownNowPressed s) s in
  let s := set_sensorInWasActive (sensorInNowActive s) s in
  set_sensorOutWasActive (sensorOutNowActive s) s.

Definition tasks (s : state) : state :=
  updateDisplay (checkButtons (checkSensorOut (checkSensorIn (checkBuzzer s)))).

(** ** The entrance sensor *)

(** The fields the entrance debouncer reads and writes, and the number of
    entry events so far. *)
Record entrance : Type := mkEntrance {
  e_now : Z;
  e_prev : Z;
  e_last : Z;
  e_was : bool;
  e_active : bool;
  e_count : nat
}.

Definition entrance_of (s : state) : entrance :=
  mkEntrance (currentMillis s) (previousMillis s) (sensorInTimestamp s)
    (sensorInWasActive s) (sensorInNowActive s)
    (ncalls Call_handleVisitorEntered s).

Definition accepts (e : entrance) : bool :=
  e_was e && negb (e_active e)
  && (usub (e_now e) (e_last e) >? SENSOR_DELAY_MS).

Definition enter (e : entrance) : entrance :=
  if accepts e
  then mkEntrance (e_now e) (e_prev e) (e_now e) (e_was e) (e_active e)
         (S (e_count e))
  else e.

Definition latch (e : entrance) : entrance :=
  mkEntrance (e_now e) (e_prev e) (e_last e) (e_active e) (e_active e)
    (e_count e).

(** The debouncer as the specification words it: a falling edge of the
    entrance sensor is accepted when more than [SENSOR_DELAY_MS] have
    passed since the last accepted one (since clock zero, if there was
    none); [accepted_edges last was ins] counts the accepted edges among
    the samples [ins]. *)
Fixpoint accepted_edges (last : Z) (was : bool) (ins : list inputs) : nat :=
  match ins with
  | [] => O
  | i :: rest =>
      let active := level_eqb (readSensorIn i) LOW in
      if was && negb active && (millis i - last >? SENSOR_DELAY_MS)
      then S (accepted_edges (millis i) active rest)
      else accepted_edges last active rest
  end.

(** ** The hold-red window *)

(** The clock, the start of the hold window and the two lights. *)
Record hold : Type := mkHold {
  h_now : Z;
  h_prev : Z;
  h_keep : Z;
  h_red : level;
  h_green : level
}.

Definition hold_of (s : state) : hold :=
  mkHold (currentMillis s) (previousMillis s) (keepRedTimestamp s)
    (pinRedLight s) (pinGreenLight s).

(** [updateLights] on these fields; [allow] is [visitorCount <
    maxVisitorCount] at the moment of the call. *)
Definition relight (allow : bool) (h : hold) : hold :=
  let expired :=
    usub (h_now h) (h_keep h) >? BUTTON_ENTRANCE_MIN_MS in
  let allow' :=
    if h_keep h >? 0 then (if expired then allow else false) else allow in
  mkHold (h_now h) (h_prev h)
    (if (h_keep h >? 0) && expired then 0 else h_keep h)
    (if allow' then LOW else HIGH) (if allow' then HIGH else LOW).

Definition restart_hold (h : hold) : hold :=
  mkHold (h_now h) (h_prev h) (h_now h) (h_red h) (h_green h).


(** ** The reset button *)

(** The fields the long-press detector reads and writes, and the number of
    resets so far. *)
Record resetv : Type := mkResetv {
  r_now : Z;
  r_prev : Z;
  r_start : Z;
  r_blocked : bool;
  r_was : bool;
  r_pressed : bool;
  r_up : bool;
  r_down : bool;
  r_count : nat
}.

Definition reset_of (s : state) : resetv :=
  mkResetv (currentMillis s) (previousMillis s) (buttonResetTimestamp s)
    (buttonResetBlocked s) (buttonResetWasPressed s)
    (buttonResetNowPressed s) (buttonUpNowPressed s)
    (buttonDownNowPressed s) (ncalls Call_handleReset s).

(** [checkButtons] on these fields when neither up nor down is pressed. *)
Definition hold_reset (v : resetv) : resetv :=
  let v1 :=
    if negb (r_pressed v) then
      mkResetv (r_now v) (r_prev v) (r_start v) false (r_was v)
        (r_pressed v) (r_up v) (r_down v) (r_count v)
    else if negb (r_was v) then
      mkResetv (r_now v) (r_prev v) (r_now v) (r_blocked v) (r_was v)
        (r_pressed v) (r_up v) (r_down v) (r_count v)
    else v in
  if negb (r_blocked v1) && r_was v1 && r_pressed v1
     && (usub (r_now v1) (r_start v1) >? BUTTON_LONG_DELAY_MS)
  then mkResetv (r_now v1) (r_prev v1) (r_start v1) true (r_was v1)
         (r_pressed v1) (r_up v1) (r_down v1) (S (r_count v1))
  else v1.

Definition latch_reset (v : resetv) : resetv :=
  mkResetv (r_now v) (r_prev v) (r_start v) (r_blocked v) (r_pressed v)
    (r_pressed v) (r_up v) (r_down v) (r_count v).

(** A sample with reset pressed and up and down released. *)
Definition held (j : inputs) : Prop :=
  readButtonReset j = LOW /\ readButtonUp j = HIGH /\ readButtonDown j = HIGH.

(** The clock reading of the last sample, [d] if there is none. *)
Fixpoint last_reading (d : Z) (ins : list inputs) : Z :=
  match ins with
  | [] => d
  | j :: rest => last_reading (millis j) rest
  end.

(** ** The buzzer *)

Record buzzerv : Type := mkBuzzerv {
  b_now : Z;
  b_prev : Z;
  b_active : bool;
  b_start : Z
}.

Definition buzzer_of (s : state) : buzzerv :=
  mkBuzzerv (currentMillis s) (previousMillis s) (buzzerIsActive s)
    (buzzerTimestamp s).

(** [checkBuzzer] on these fields. *)
Definition silence (v : buzzerv) : buzzerv :=
  if b_active v && (usub (b_now v) (b_start v) >? BUZZER_DURATION_MS)
  then mkBuzzerv (b_now v) (b_prev v) false (b_now v)
  else v.

(** From [s] to [s'] the buzzer can only have come on through a new call
    of [buzz]. *)
Definition on_only_by_trigger (s s' : state) : Prop :=
  (ncalls Call_buzz s <= ncalls Call_buzz s')%nat
  /\ (buzzerIsActive s' = true ->
      buzzerIsActive s = true
      \/ (ncalls Call_buzz s < ncalls Call_buzz s')%nat).

(** ** Reachable states *)

(** From [s] to [s'] the clock field is unchanged and the timestamp [g] is
    either unchanged or set to the clock. *)
Definition stamped (g : state -> Z) (s s' : state) : Prop :=
  currentMillis s' = currentMillis s
  /\ (g s' = g s \/ g s' = currentMillis s).

(** What holds of the timers at the end of [setup()] and of every
    iteration: no stored timestamp lies in the future, and the long-press
    lockout is only set while the reset button is down. *)
Definition timers_ok (s : state) : Prop :=
  in_range (previousMillis s)
  /\ 0 <= sensorInTimestamp s <= previousMillis s
  /\ 0 <= keepRedTimestamp s <= previousMillis s
  /\ 0 <= buzzerTimestamp s <= previousMillis s
  /\ 0 <= buttonResetTimestamp s <= previousMillis s
  /\ (buttonResetWasPressed s = false -> buttonResetBlocked s = false).

(** * Further definitions: the rest of the sketch *)

(** ** The exit sensor *)

(** The fields the exit debouncer reads and writes, and the number of exit
    events so far. *)
Record exitv : Type := mkExitv {
  x_now : Z;
  x_prev : Z;
  x_last : Z;
  x_was : bool;
  x_active : bool;
  x_count : nat
}.

Definition exit_of (s : state) : exitv :=
  mkExitv (currentMillis s) (previousMillis s) (sensorOutTimestamp s)
    (sensorOutWasActive s) (sensorOutNowActive s)
    (ncalls Call_handleVisitorLeft s).

Definition accepts_exit (e : exitv) : bool :=
  x_was e && negb (x_active e)
  && (usub (x_now e) (x_last e) >? SENSOR_DELAY_MS).

Definition leave (e : exitv) : exitv :=
  if accepts_exit e
  then mkExitv (x_now e) (x_prev e) (x_now e) (x_was e) (x_active e)
         (S (x_count e))
  else e.

Definition latch_exit (e : exitv) : exitv :=
  mkExitv (x_now e) (x_prev e) (x_last e) (x_active e) (x_active e)
    (x_count e).

(** The exit debouncer in words: a falling edge of the exit sensor counts
    when more than [SENSOR_DELAY_MS] have passed since the last one that
    counted. *)
Fixpoint accepted_exits (last : Z) (was : bool) (ins : list inputs) : nat :=
  match ins with
  | [] => O
  | i :: rest =>
      let active := level_eqb (readSensorOut i) LOW in
      if was && negb active && (millis i - last >? SENSOR_DELAY_MS)
      then S (accepted_exits (millis i) active rest)
      else accepted_exits last active rest
  end.

Definition with_sensorOut (l : level) (i : inputs) : inputs :=
  mkInputs (millis i) (readButtonReset i) (readButtonUp i)
    (readButtonDown i) (readSensorIn i) l.

Definition with_up (l : level) (i : inputs) : inputs :=
  mkInputs (millis i) (readButtonReset i) l (readButtonDown i)
    (readSensorIn i) (readSensorOut i).

Definition with_down (l : level) (i : inputs) : inputs :=
  mkInputs (millis i) (readButtonReset i) (readButtonUp i) l
    (readSensorIn i) (readSensorOut i).

(** A visitor passes the exit sensor. *)
Definition visitor_leaves (t : Z) : list inputs :=
  [with_sensorOut LOW (idle (t - 100)); idle t].

(** ** One iteration seen from the sensors *)

(** Whether the iteration that reads [i] in state [s] accepts a falling
    edge of the entrance sensor, and of the exit sensor: the guards of
    [checkSensorIn] and [checkSensorOut] after [updateTimers]. *)
Definition entry_edge_accepted (i : inputs) (s : state) : bool :=
  sensorInWasActive s && negb (level_eqb (readSensorIn i) LOW)
  && (usub (millis i)
        (if millis i <? previousMillis s then 0 else sensorInTimestamp s)
      >? SENSOR_DELAY_MS).

Definition exit_edge_accepted (i : inputs) (s : state) : bool :=
  sensorOutWasActive s && negb (level_eqb (readSensorOut i) LOW)
  && (usub (millis i)
        (if millis i <? previousMillis s then 0 else sensorOutTimestamp s)
      >? SENSOR_DELAY_MS).

(** No button is down in the sample. *)
Definition buttons_released (i : inputs) : Prop :=
  readButtonReset i = HIGH /\ readButtonUp i = HIGH
  /\ readButtonDown i = HIGH.

(** ** The timers as a whole *)

(** At the end of [setup()] and of every iteration the clock field equals
    the last reading, and none of the eight stored timestamps lies in the
    future. *)
Definition all_timers_ok (s : state) : Prop :=
  in_range (previousMillis s)
  /\ currentMillis s = previousMillis s
  /\ 0 <= buttonResetTimestamp s <= previousMillis s
  /\ 0 <= buttonUpTimestamp s <= previousMillis s
  /\ 0 <= buttonDownTimestamp s <= previousMillis s
  /\ 0 <= sensorInTimestamp s <= previousMillis s
  /\ 0 <= sensorOutTimestamp s <= previousMillis s
  /\ 0 <= buzzerTimestamp s <= previousMillis s
  /\ 0 <= displayTimestamp s <= previousMillis s
  /\ 0 <= keepRedTimestamp s <= previousMillis s.

(** The eight subtractions of one iteration are exact in state [x]. *)
Definition subtractions_exact (x : state) : Prop :=
  usub (currentMillis x) (buttonResetTimestamp x)
  = currentMillis x - buttonResetTimestamp x
  /\ usub (currentMillis x) (buttonUpTimestamp x)
     = currentMillis x - buttonUpTimestamp x
  /\ usub (currentMillis x) (buttonDownTimestamp x)
     = currentMillis x - buttonDownTimestamp x
  /\ usub (currentMillis x) (sensorInTimestamp x)
     = currentMillis x - sensorInTimestamp x
  /\ usub (currentMillis x) (sensorOutTimestamp x)
     = currentMillis x - sensorOutTimestamp x
  /\ usub (currentMillis x) (buzzerTimestamp x)
     = currentMillis x - buzzerTimestamp x
  /\ usub (currentMillis x) (displayTimestamp x)
     = currentMillis x - displayTimestamp x
  /\ usub (currentMillis x) (keepRedTimestamp x)
     = currentMillis x - keepRedTimestamp x.

(** ** The buzzer pin *)

(** Whether a buzzer that is on in state [s] is still on after
    [checkBuzzer] on the iteration that reads [i]. *)
Definition still_sounding (i : inputs) (s : state) : bool :=
  buzzerIsActive s
  && negb (usub (millis i)
             (if millis i <? previousMillis s then 0 else buzzerTimestamp s)
           >? BUZZER_DURATION_MS).

(** ** The display flag *)

(** From [s] to [s'] either the display has been marked stale, or neither
    the flag nor the counters have changed. *)
Definition stale_or_same (s s' : state) : Prop :=
  displayUpdated s' = false
  \/ (displayUpdated s' = displayUpdated s
      /\ visitorCount s' = visitorCount s
      /\ maxVisitorCount s' = maxVisitorCount s).

(** ** The up button *)

(** The fields the up button reads and writes when it edits the maximum,
    and the number of its firings so far. *)
Record upv : Type := mkUpv {
  u_now : Z;
  u_prev : Z;
  u_last : Z;
  u_up : bool;
  u_down : bool;
  u_reset : bool;
  u_count : nat;
  u_max : Z
}.

Definition up_of (s : state) : upv :=
  mkUpv (currentMillis s) (previousMillis s) (buttonUpTimestamp s)
    (buttonUpNowPressed s) (buttonDownNowPressed s)
    (buttonResetNowPressed s) (ncalls Call_handleButtonUp s)
    (maxVisitorCount s).

(** [checkButtons] on these fields when reset and down are released. *)
Definition press_up (v : upv) : upv :=
  if u_up v && (usub (u_now v) (u_last v) >? BUTTON_REPEAT_DELAY_MS)
  then mkUpv (u_now v) (u_prev v) (u_now v) (u_up v) (u_down v) (u_reset v)
         (S (u_count v)) (uincr (u_max v))
  else v.

(** Auto-repeat in words: while the button is down it fires on each sample
    that reads more than [BUTTON_REPEAT_DELAY_MS] past its last firing. *)
Fixpoint accepted_repeats (last : Z) (ins : list inputs) : nat :=
  match ins with
  | [] => O
  | i :: rest =>
      if level_eqb (readButtonUp i) LOW
         && (millis i - last >? BUTTON_REPEAT_DELAY_MS)
      then S (accepted_repeats (millis i) rest)
      else accepted_repeats last rest
  end.

(** Reset and down are released in the sample. *)
Definition only_up (j : inputs) : Prop :=
  readButtonReset j = HIGH /\ readButtonDown j = HIGH.

(** ** The text on the display *)

(** What [setDisplayText] sends to the LCD driver.  [String(n)] of an
    [unsigned long] is its decimal numeral, without leading zeros. *)
Inductive lcd_op : Type :=
  | Lcd_home
  | Lcd_setCursor (col row : Z)
  | Lcd_print (text : string).

Definition String_ulong (v : Z) : string :=
  NilZero.string_of_uint (N.to_uint (Z.to_N v)).

Definition LCD_COLUMNS : nat := 16.

Definition current_line (s : state) : string :=
  ("Current : " ++ String_ulong (visitorCount s) ++ "      ")%string.

Definition maximum_line (s : state) : string :=
  ("Maximum : " ++ String_ulong (maxVisitorCount s) ++ "      ")%string.

Definition displayText (s : state) : list lcd_op :=
  [Lcd_home; Lcd_print (current_line s);
   Lcd_setCursor 0 1; Lcd_print (maximum_line s)].

(** Reading a number back from a printed line: drop the ten characters of
    the label and the six blanks at the end, and parse what is left. *)
Definition read_line (text : string) : option Z :=
  match
    NilZero.uint_of_string
      (String.substring 10 (String.length text - 16) text)
  with
  | Some d => Some (Z.of_N (N.of_uint d))
  | None => None
  end.

(** * Basic facts *)

Lemma wrap_small (z : Z) : in_range z -> wrap z = z.
Proof. unfold in_range, wrap. intros H. apply Z.mod_small. exact H. Qed.

Lemma wrap_in_range (z : Z) : in_range (wrap z).
Proof.
  unfold in_range, wrap, ULONG_MODULUS.
  apply Z.mod_pos_bound. reflexivity.
Qed.

Lemma usub_exact (a b : Z) :
  0 <= b -> b <= a -> a < ULONG_MODULUS -> usub a b = a - b.
Proof.
  intros Hb Hab Ha. unfold usub. apply wrap_small.
  unfold in_range. lia.
Qed.

Lemma uincr_exact (a : Z) :
  0 <= a -> a + 1 < ULONG_MODULUS -> uincr a = a + 1.
Proof.
  intros H0 H1. unfold uincr. apply wrap_small. unfold in_range. lia.
Qed.

Lemma udecr_exact (a : Z) :
  0 < a -> a <= ULONG_MODULUS -> udecr a = a - 1.
Proof.
  intros H0 H1. unfold udecr. apply wrap_small. unfold in_range. lia.
Qed.

(** Linear arithmetic with the constants of the sketch unfolded. *)
Ltac arith :=
  unfold in_range, ULONG_MODULUS, SENSOR_DELAY_MS, BUZZER_DURATION_MS,
    BUTTON_REPEAT_DELAY_MS, BUTTON_LONG_DELAY_MS, BUTTON_ENTRANCE_MIN_MS in *;
  lia.

(** ** The buzzer trigger *)

Lemma buzz_active (s : state) :
  buzzerIsActive s = true -> buzz s = log Call_buzz s.
Proof. intros H. unfold buzz. cbn. rewrite H. reflexivity. Qed.

Lemma buzz_sets_active (s : state) : buzzerIsActive (buzz s) = true.
Proof. unfold buzz. cbn. destruct (buzzerIsActive s) eqn:E; cbn; auto. Qed.

Lemma buzz_calls (s : state) : calls (buzz s) = Call_buzz :: calls s.
Proof. unfold buzz. cbn. destruct (buzzerIsActive s); reflexivity. Qed.

Lemma buzz_visitorCount (s : state) : visitorCount (buzz s) = visitorCount s.
Proof. unfold buzz. cbn. destruct (buzzerIsActive s); reflexivity. Qed.

Lemma buzz_maxVisitorCount (s : state) :
  maxVisitorCount (buzz s) = maxVisitorCount s.
Proof. unfold buzz. cbn. destruct (buzzerIsActive s); reflexivity. Qed.

(** * The occupancy counter *)

Lemma handleVisitorLeft_visitorCount (s : state) :
  visitorCount (handleVisitorLeft s) =
  if visitorCount s >? 0 then udecr (visitorCount s) else visitorCount s.
Proof.
  unfold handleVisitorLeft. cbn.
  destruct (visitorCount s =? maxVisitorCount s); cbn;
    rewrite ?buzz_visitorCount; cbn;
    destruct (visitorCount s >? 0); cbn;
    rewrite ?buzz_visitorCount; reflexivity.
Qed.

Lemma handleVisitorLeft_calls (s : state) :
  calls (handleVisitorLeft s) =
  if visitorCount s =? maxVisitorCount s
  then Call_buzz :: Call_handleVisitorLeft :: calls s
  else Call_handleVisitorLeft :: calls s.
Proof.
  unfold handleVisitorLeft. cbn.
  destruct (visitorCount s =? maxVisitorCount s); cbn;
    rewrite ?buzz_visitorCount; cbn;
    destruct (visitorCount s >? 0); cbn;
    rewrite ?buzz_calls; reflexivity.
Qed.

Lemma handleVisitorLeft_buzzerIsActive (s : state) :
  buzzerIsActive (handleVisitorLeft s) =
  if visitorCount s =? maxVisitorCount s then true else buzzerIsActive s.
Proof.
  unfold handleVisitorLeft. cbn.
  destruct (visitorCount s =? maxVisitorCount s); cbn;
    rewrite ?buzz_visitorCount; cbn;
    destruct (visitorCount s >? 0); cbn;
    rewrite ?buzz_sets_active; reflexivity.
Qed.

(** C3.  A leave event decrements [visitorCount] exactly when it is
    positive, and calls the buzzer trigger exactly when
    [visitorCount == maxVisitorCount] held on entry; from (3, 3) the count
    becomes 2 and the buzzer is sounding afterwards. *)
Theorem handleVisitorLeft_decrements_and_alerts (s : state) :
  in_range (visitorCount s) ->
  (0 < visitorCount s ->
   visitorCount (handleVisitorLeft s) = visitorCount s - 1)
  /\ (visitorCount s = 0 -> visitorCount (handleVisitorLeft s) = 0)
  /\ (visitorCount (handleVisitorLeft s) = visitorCount s - 1
      <-> 0 < visitorCount s)
  /\ (ncalls Call_buzz (handleVisitorLeft s) = S (ncalls Call_buzz s)
      <-> visitorCount s = maxVisitorCount s)
  /\ (ncalls Call_buzz (handleVisitorLeft s) = ncalls Call_buzz s
      <-> visitorCount s <> maxVisitorCount s)
  /\ (visitorCount s = maxVisitorCount s ->
      buzzerIsActive (handleVisitorLeft s) = true)
  /\ (visitorCount s = 3 -> maxVisitorCount s = 3 ->
      visitorCount (handleVisitorLeft s) = 2
      /\ buzzerIsActive (handleVisitorLeft s) = true
      /\ ncalls Call_buzz (handleVisitorLeft s) = S (ncalls Call_buzz s)).
Proof.
  intros Hr. unfold ncalls.
  rewrite handleVisitorLeft_visitorCount, handleVisitorLeft_calls,
    handleVisitorLeft_buzzerIsActive.
  destruct (Z.gtb_spec (visitorCount s) 0) as [Hpos | Hzero];
    destruct (Z.eqb_spec (visitorCount s) (maxVisitorCount s)) as [He | Hne];
    rewrite ?udecr_exact by arith; cbn [count_calls call_eqb Nat.add];
    repeat split; intros; try arith; try tauto; try congruence.
Qed.

Lemma handleVisitorLeft_decrements_and_alerts_witness :
  in_range (visitorCount (set_visitorCount 3 (set_maxVisitorCount 3 power_on)))
  /\ visitorCount
       (handleVisitorLeft (set_visitorCount 3 (set_maxVisitorCount 3 power_on)))
     = 2.
Proof.
  split; [ vm_compute; split; [ discriminate | reflexivity ] | ].
  apply (handleVisitorLeft_decrements_and_alerts
           (set_visitorCount 3 (set_maxVisitorCount 3 power_on)));
    [ vm_compute; split; [ discriminate | reflexivity ] | reflexivity
    | reflexivity ].
Defined.

(** C10.  With [visitorCount = maxVisitorCount = 0] a leave event calls the
    buzzer trigger, because the equality test comes first and does not look
    at the [visitorCount > 0] guard; the buzzer is sounding afterwards, and
    the count stays 0. *)
Theorem handleVisitorLeft_empty_room_alerts (s : state) :
  visitorCount s = 0 ->
  maxVisitorCount s = 0 ->
  visitorCount (handleVisitorLeft s) = 0
  /\ maxVisitorCount (handleVisitorLeft s) = 0
  /\ calls (handleVisitorLeft s)
     = Call_buzz :: Call_handleVisitorLeft :: calls s
  /\ buzzerIsActive (handleVisitorLeft s) = true
  /\ (buzzerIsActive s = false ->
      buzzerTimestamp (handleVisitorLeft s) = currentMillis s).
Proof.
  intros Hv Hm.
  rewrite handleVisitorLeft_visitorCount, handleVisitorLeft_calls,
    handleVisitorLeft_buzzerIsActive.
  rewrite Hv, Hm. cbn. repeat split.
  - unfold handleVisitorLeft. cbn. rewrite Hv, Hm. cbn.
    rewrite buzz_visitorCount. cbn. rewrite Hv. cbn.
    rewrite buzz_maxVisitorCount. cbn. exact Hm.
  - intros Hidle. unfold handleVisitorLeft. cbn. rewrite Hv, Hm. cbn.
    rewrite buzz_visitorCount. cbn. rewrite Hv. cbn.
    unfold buzz. cbn. rewrite Hidle. reflexivity.
Qed.

Lemma handleVisitorLeft_empty_room_alerts_witness :
  let s := set_buzzerIsActive false (set_maxVisitorCount 0 power_on) in
  visitorCount s = 0 /\ maxVisitorCount s = 0
  /\ buzzerIsActive (handleVisitorLeft s) = true
  /\ visitorCount (handleVisitorLeft s) = 0.
Proof.
  intros s.
  destruct (handleVisitorLeft_empty_room_alerts s eq_refl eq_refl)
    as (Hv & _ & _ & Ha & _).
  split; [ reflexivity | ].
  split; [ reflexivity | ].
  split; [ exact Ha | exact Hv ].
Defined.

Lemma handleVisitorEntered_visitorCount (s : state) :
  visitorCount (handleVisitorEntered s) = uincr (visitorCount s).
Proof.
  unfold handleVisitorEntered. cbn. rewrite buzz_visitorCount. reflexivity.
Qed.

Lemma handleVisitorEntered_maxVisitorCount (s : state) :
  maxVisitorCount (handleVisitorEntered s) = maxVisitorCount s.
Proof.
  unfold handleVisitorEntered. cbn. rewrite buzz_maxVisitorCount.
  reflexivity.
Qed.

Lemma handleVisitorEntered_calls (s : state) :
  calls (handleVisitorEntered s)
  = Call_buzz :: Call_handleVisitorEntered :: calls s.
Proof. unfold handleVisitorEntered. cbn. rewrite buzz_calls. reflexivity. Qed.

(** C4.  An entry event adds one to [visitorCount] whatever
    [maxVisitorCount] is (the addition is that of [unsigned long]; it is
    exact unless the counter is at its largest value); from (0, 5) six
    entry events give 6, both for six calls of the handler and for six
    passes of the sensor 1500 ms apart through [loop()]. *)
Theorem handleVisitorEntered_increments_unclamped (s : state) :
  visitorCount (handleVisitorEntered s) = uincr (visitorCount s)
  /\ maxVisitorCount (handleVisitorEntered s) = maxVisitorCount s
  /\ (0 <= visitorCount s -> visitorCount s + 1 < ULONG_MODULUS ->
      visitorCount (handleVisitorEntered s) = visitorCount s + 1)
  /\ (visitorCount s = 0 -> maxVisitorCount s = 5 ->
      visitorCount (Nat.iter 6 handleVisitorEntered s) = 6
      /\ maxVisitorCount (Nat.iter 6 handleVisitorEntered s) = 5)
  /\ (let s0 := set_maxVisitorCount 5 power_on in
      visitorCount s0 = 0 /\ maxVisitorCount s0 = 5
      /\ visitorCount (run six_entries s0) = 6
      /\ maxVisitorCount (run six_entries s0) = 5
      /\ ncalls Call_handleVisitorEntered (run six_entries s0) = 6%nat).
Proof.
  split; [ apply handleVisitorEntered_visitorCount | ].
  split; [ apply handleVisitorEntered_maxVisitorCount | ].
  split.
  { intros H0 H1. rewrite handleVisitorEntered_visitorCount.
    apply uincr_exact; assumption. }
  split.
  { intros Hv Hm. cbv [Nat.iter nat_rect].
    rewrite !handleVisitorEntered_visitorCount,
      !handleVisitorEntered_maxVisitorCount, Hv, Hm.
    split; reflexivity. }
  vm_compute. repeat split.
Qed.

Lemma handleVisitorEntered_increments_unclamped_witness :
  let s := set_visitorCount 7 (set_maxVisitorCount 5 power_on) in
  maxVisitorCount s < visitorCount s
  /\ visitorCount (handleVisitorEntered s) = visitorCount s + 1.
Proof.
  intros s. split; [ reflexivity | ].
  apply (handleVisitorEntered_increments_unclamped s).
  - discriminate.
  - reflexivity.
Defined.

(** * The parameter editor *)

Lemma unblockReset_frame (s : state) :
  buttonResetNowPressed (unblockReset s) = buttonResetNowPressed s
  /\ buttonResetWasPressed (unblockReset s) = buttonResetWasPressed s
  /\ upPressed (unblockReset s) = upPressed s
  /\ downPressed (unblockReset s) = downPressed s
  /\ currentMillis (unblockReset s) = currentMillis s
  /\ visitorCount (unblockReset s) = visitorCount s
  /\ maxVisitorCount (unblockReset s) = maxVisitorCount s
  /\ calls (unblockReset s) = calls s.
Proof.
  unfold unblockReset, upPressed, downPressed.
  destruct (buttonResetNowPressed s) eqn:En;
    destruct (buttonResetWasPressed s) eqn:Ew; cbn;
    rewrite ?En, ?Ew; repeat split; reflexivity.
Qed.

(** The four ways through [checkButtons]. *)
Lemma checkButtons_cases (s : state) :
  checkButtons s =
  let s1 := unblockReset s in
  if longPressed s1 then handleReset (set_buttonResetBlocked true s1)
  else if upPressed s then
    handleButtonUp (set_buttonResetBlocked (buttonResetNowPressed s) s1)
  else if downPressed s then
    handleButtonDown (set_buttonResetBlocked (buttonResetNowPressed s) s1)
  else s1.
Proof.
  unfold checkButtons. cbv zeta.
  destruct (unblockReset_frame s) as (En & _ & Eu & Ed & _).
  rewrite En, Eu, Ed. reflexivity.
Qed.

Lemma checkButtons_calls (s : state) :
  calls (checkButtons s) =
  if longPressed (unblockReset s)
  then Call_buzz :: Call_handleReset :: calls s
  else if upPressed s then Call_handleButtonUp :: calls s
  else if downPressed s then Call_handleButtonDown :: calls s
  else calls s.
Proof.
  rewrite checkButtons_cases. cbv zeta.
  destruct (unblockReset_frame s) as (_ & _ & _ & _ & _ & _ & _ & Ec).
  destruct (longPressed (unblockReset s)).
  - unfold handleReset. rewrite buzz_calls. cbn. rewrite Ec. reflexivity.
  - destruct (upPressed s).
    + unfold handleButtonUp. cbn.
      destruct (buttonResetNowPressed (unblockReset s)); cbn;
        rewrite Ec; reflexivity.
    + destruct (downPressed s); [ | exact Ec ].
      unfold handleButtonDown. cbn.
      destruct (buttonResetNowPressed (unblockReset s)); cbn;
        [ destruct (visitorCount (unblockReset s) >? 0)
        | destruct (maxVisitorCount (unblockReset s) >? 0) ];
        cbn; rewrite Ec; reflexivity.
Qed.

Lemma checkButtons_up (s : state) :
  longPressed (unblockReset s) = false ->
  upPressed s = true ->
  buttonUpTimestamp (checkButtons s) = currentMillis s
  /\ buttonResetBlocked (checkButtons s) = buttonResetNowPressed s
  /\ visitorCount (checkButtons s)
     = (if buttonResetNowPressed s then uincr (visitorCount s)
        else visitorCount s)
  /\ maxVisitorCount (checkButtons s)
     = (if buttonResetNowPressed s then maxVisitorCount s
        else uincr (maxVisitorCount s)).
Proof.
  intros Hl Hu. rewrite checkButtons_cases. cbv zeta. rewrite Hl, Hu.
  destruct (unblockReset_frame s) as (En & _ & _ & _ & Ecur & Ev & Em & _).
  unfold handleButtonUp. cbn. rewrite En, Ecur, Ev, Em.
  destruct (buttonResetNowPressed s); cbn; rewrite ?Ev, ?Em;
    repeat split; reflexivity.
Qed.

Lemma checkButtons_down (s : state) :
  longPressed (unblockReset s) = false ->
  upPressed s = false ->
  downPressed s = true ->
  buttonDownTimestamp (checkButtons s) = currentMillis s
  /\ buttonResetBlocked (checkButtons s) = buttonResetNowPressed s
  /\ visitorCount (checkButtons s)
     = (if buttonResetNowPressed s
        then if visitorCount s >? 0 then udecr (visitorCount s)
             else visitorCount s
        else visitorCount s)
  /\ maxVisitorCount (checkButtons s)
     = (if buttonResetNowPressed s then maxVisitorCount s
        else if maxVisitorCount s >? 0 then udecr (maxVisitorCount s)
             else maxVisitorCount s).
Proof.
  intros Hl Hu Hd. rewrite checkButtons_cases. cbv zeta. rewrite Hl, Hu, Hd.
  destruct (unblockReset_frame s) as (En & _ & _ & _ & Ecur & Ev & Em & _).
  unfold handleButtonDown. cbn. rewrite En, Ecur, Ev, Em.
  destruct (buttonResetNowPressed s); cbn;
    [ destruct (visitorCount s >? 0) | destruct (maxVisitorCount s >? 0) ];
    cbn; rewrite ?Ev, ?Em; repeat split; reflexivity.
Qed.

(** C7 (amended).  On an iteration where the long press does not fire:
    the up button fires exactly when it is pressed and more than
    [BUTTON_REPEAT_DELAY_MS] have passed since its last firing, a test that
    does not read the reset button; it then restarts its timer and adds one
    (in [unsigned long]) to [visitorCount] if reset is pressed and to
    [maxVisitorCount] otherwise, with no upper bound tested.  The down
    button fires under the same test on its own timer when up did not fire,
    and subtracts one from the same target only if that target is positive. *)
Theorem checkButtons_up_down_routing (s : state) :
  in_range (visitorCount s) ->
  in_range (maxVisitorCount s) ->
  longPressed (unblockReset s) = false ->
  (ncalls Call_handleButtonUp (checkButtons s)
     = S (ncalls Call_handleButtonUp s)
   <-> buttonUpNowPressed s = true
       /\ BUTTON_REPEAT_DELAY_MS
          < usub (currentMillis s) (buttonUpTimestamp s))
  /\ (ncalls Call_handleButtonDown (checkButtons s)
        = S (ncalls Call_handleButtonDown s)
      <-> upPressed s = false
          /\ buttonDownNowPressed s = true
          /\ BUTTON_REPEAT_DELAY_MS
             < usub (currentMillis s) (buttonDownTimestamp s))
  /\ (upPressed s = true ->
      buttonUpTimestamp (checkButtons s) = currentMillis s
      /\ (buttonResetNowPressed s = true ->
          visitorCount (checkButtons s) = uincr (visitorCount s)
          /\ maxVisitorCount (checkButtons s) = maxVisitorCount s)
      /\ (buttonResetNowPressed s = false ->
          maxVisitorCount (checkButtons s) = uincr (maxVisitorCount s)
          /\ visitorCount (checkButtons s) = visitorCount s)
      /\ (visitorCount s + 1 < ULONG_MODULUS ->
          uincr (visitorCount s) = visitorCount s + 1)
      /\ (maxVisitorCount s + 1 < ULONG_MODULUS ->
          uincr (maxVisitorCount s) = maxVisitorCount s + 1))
  /\ (upPressed s = false -> downPressed s = true ->
      buttonDownTimestamp (checkButtons s) = currentMillis s
      /\ (buttonResetNowPressed s = true ->
          visitorCount (checkButtons s)
          = (if visitorCount s >? 0 then visitorCount s - 1 else 0)
          /\ maxVisitorCount (checkButtons s) = maxVisitorCount s)
      /\ (buttonResetNowPressed s = false ->
          maxVisitorCount (checkButtons s)
          = (if maxVisitorCount s >? 0 then maxVisitorCount s - 1 else 0)
          /\ visitorCount (checkButtons s) = visitorCount s)).
Proof.
  intros Hv Hm Hl.
  assert (Hup : upPressed s = true <->
                buttonUpNowPressed s = true
                /\ BUTTON_REPEAT_DELAY_MS
                   < usub (currentMillis s) (buttonUpTimestamp s)).
  { unfold upPressed. rewrite andb_true_iff, Z.gtb_ltb, Z.ltb_lt. tauto. }
  assert (Hdn : downPressed s = true <->
                buttonDownNowPressed s = true
                /\ BUTTON_REPEAT_DELAY_MS
                   < usub (currentMillis s) (buttonDownTimestamp s)).
  { unfold downPressed. rewrite andb_true_iff, Z.gtb_ltb, Z.ltb_lt. tauto. }
  split; [ | split; [ | split ] ].
  - rewrite <- Hup. unfold ncalls. rewrite checkButtons_calls, Hl.
    destruct (upPressed s); [ | destruct (downPressed s) ]; cbn;
      split; intros; try reflexivity; try discriminate; lia.
  - rewrite <- Hdn. unfold ncalls. rewrite checkButtons_calls, Hl.
    destruct (upPressed s); [ | destruct (downPressed s) ]; cbn;
      split; intros; try tauto; try lia;
      destruct H; discriminate.
  - intros Hu. destruct (checkButtons_up s Hl Hu) as (Ht & _ & Ec & Ex).
    split; [ exact Ht | ].
    split; [ intros E; rewrite E in Ec, Ex; auto | ].
    split; [ intros E; rewrite E in Ec, Ex; auto | ].
    split; intros; apply uincr_exact; arith.
  - intros Hu Hd.
    destruct (checkButtons_down s Hl Hu Hd) as (Ht & _ & Ec & Ex).
    split; [ exact Ht | ].
    split; intros E; rewrite E in Ec, Ex; split; auto.
    + rewrite Ec. destruct (Z.gtb_spec (visitorCount s) 0);
        [ apply udecr_exact; arith | arith ].
    + rewrite Ex. destruct (Z.gtb_spec (maxVisitorCount s) 0);
        [ apply udecr_exact; arith | arith ].
Qed.

Lemma checkButtons_up_down_routing_witness :
  let s := set_buttonResetNowPressed true
             (set_buttonUpNowPressed true (set_currentMillis 1000 power_on)) in
  upPressed s = true
  /\ visitorCount (checkButtons s) = 1
  /\ maxVisitorCount (checkButtons s) = 20.
Proof.
  intros s. split; [ reflexivity | ].
  assert (Hv : in_range (visitorCount s))
    by (split; [ discriminate | reflexivity ]).
  assert (Hm : in_range (maxVisitorCount s))
    by (split; [ discriminate | reflexivity ]).
  destruct (checkButtons_up_down_routing s Hv Hm eq_refl)
    as (_ & _ & Hup & _).
  destruct (Hup eq_refl) as (_ & Hreset & _).
  destruct (Hreset eq_refl) as [Hc Hx].
  split; [ rewrite Hc; reflexivity | exact Hx ].
Defined.

(** The long-press branch of [checkButtons] returns before the up and down
    buttons are tested: on the iteration where it fires neither handler is
    called and the counters are those of [handleReset]. *)
Lemma checkButtons_long_press_first (s : state) :
  longPressed (unblockReset s) = true ->
  ncalls Call_handleButtonUp (checkButtons s) = ncalls Call_handleButtonUp s
  /\ ncalls Call_handleButtonDown (checkButtons s)
     = ncalls Call_handleButtonDown s
  /\ visitorCount (checkButtons s) = 0
  /\ maxVisitorCount (checkButtons s) = 20.
Proof.
  intros H. unfold ncalls. rewrite checkButtons_calls, H.
  rewrite checkButtons_cases. cbv zeta. rewrite H.
  unfold handleReset. rewrite buzz_visitorCount, buzz_maxVisitorCount.
  repeat split.
Qed.

(** C7, as stated, fails on the iteration where the long press fires.  Two
    visitors have entered; reset goes down at the reading 10000 and is
    still down at 15001, where up is down too.  In the state [x] that
    [checkButtons] receives on that iteration, up is pressed and more than
    [BUTTON_REPEAT_DELAY_MS] past its last firing, with reset pressed; yet
    [handleButtonUp] is not called, the up timer is not restarted and
    [visitorCount] goes from 2 to 0 instead of 3.  The same sample at the
    reading 12000, before the long press is due, calls [handleButtonUp] and
    gives 3. *)
Lemma up_press_dropped_on_long_press :
  let s := run (visitor_enters 2000 ++ visitor_enters 4000
                ++ [with_reset LOW (idle 10000)]) power_on in
  let i := with_up LOW (with_reset LOW (idle 15001)) in
  let x := checkSensorOut (checkSensorIn (checkBuzzer
             (updateTimers (millis i) (sample i s)))) in
  let i' := with_up LOW (with_reset LOW (idle 12000)) in
  visitorCount x = 2
  /\ maxVisitorCount x = 20
  /\ buttonResetNowPressed x = true
  /\ buttonUpNowPressed x = true
  /\ BUTTON_REPEAT_DELAY_MS < usub (currentMillis x) (buttonUpTimestamp x)
  /\ ncalls Call_handleButtonUp (checkButtons x) = ncalls Call_handleButtonUp x
  /\ visitorCount (checkButtons x) = 0
  /\ ncalls Call_handleButtonUp (loop i s) = ncalls Call_handleButtonUp s
  /\ buttonUpTimestamp (loop i s) = buttonUpTimestamp s
  /\ visitorCount (loop i s) = 0
  /\ maxVisitorCount (loop i s) = 20
  /\ ncalls Call_handleButtonUp (loop i' s)
     = S (ncalls Call_handleButtonUp s)
  /\ visitorCount (loop i' s) = 3.
Proof. vm_compute. repeat split; reflexivity. Qed.

(** * The buzzer pin *)

(** C5.  The level of the buzzer pin is not determined by [buzzerIsActive]:
    [buzz] writes HIGH when it starts the buzzer, [checkBuzzer] writes LOW
    while the buzzer is sounding.  Right after [setup()] the buzzer is
    sounding with the pin HIGH, one idle iteration later it is still
    sounding with the pin LOW; so whichever level counts as asserted, some
    reachable state breaks "asserted iff sounding". *)
Theorem buzzer_pin_not_function_of_state :
  reachable power_on
  /\ reachable (loop (idle 100) power_on)
  /\ buzzerIsActive power_on = true
  /\ pinBuzzer power_on = HIGH
  /\ buzzerIsActive (loop (idle 100) power_on) = true
  /\ pinBuzzer (loop (idle 100) power_on) = LOW
  /\ forall asserted : level,
       ~ (forall s, reachable s ->
            (pinBuzzer s = asserted <-> buzzerIsActive s = true)).
Proof.
  assert (R0 : reachable power_on).
  { apply reachable_setup. split; [ discriminate | reflexivity ]. }
  assert (R1 : reachable (loop (idle 100) power_on)).
  { apply reachable_loop; [ exact R0 | ].
    split; [ discriminate | reflexivity ]. }
  repeat (split; [ first [ exact R0 | exact R1 | reflexivity ] | ]).
  intros asserted H.
  pose proof (proj2 (H _ R0) eq_refl) as H0.
  pose proof (proj2 (H _ R1) eq_refl) as H1.
  vm_compute in H0, H1. congruence.
Qed.

(** * One iteration, stage by stage *)

(** Proofs about one stage go through its body guard by guard.  They are
    stated field by field, or on a small record of the fields a property
    depends on, and composed by rewriting. *)
Ltac unfold_sketch :=
  unfold checkBuzzer, checkSensorIn, checkSensorOut, checkButtons,
    unblockReset, longPressed, upPressed, downPressed, updateDisplay,
    updateLights, handleVisitorEntered, handleVisitorLeft, handleReset,
    handleButtonUp, handleButtonDown, initializeDisplay, setDisplayText,
    buzz, log, digitalWrite, ncalls.

Ltac step :=
  cbn; match goal with
       | |- context [if ?b then _ else _] => destruct b eqn:?
       end.

Ltac by_cases := unfold_sketch; repeat step; cbn; try reflexivity.

(** [loop()] is: sample the inputs, update the clock, run the tasks, commit
    the samples. *)
Lemma loop_stages (i : inputs) (s : state) :
  loop i s = commit (tasks (updateTimers (millis i) (sample i s))).
Proof.
  unfold loop, tasks, commit, sample, digitalRead.
  cbn [Z.eqb Pos.eqb PORT_A0_SENSOR_IN PORT_A1_SENSOR_OUT
       PORT_A5_BUTTON_RESET PORT_A8_BUTTON_UP PORT_A9_BUTTON_DOWN].
  reflexivity.
Qed.

(** * The entrance debouncer *)

Lemma checkSensorIn_cases (s : state) :
  checkSensorIn s =
  if accepts (entrance_of s)
  then set_sensorInTimestamp (currentMillis s) (handleVisitorEntered s)
  else s.
Proof.
  unfold checkSensorIn, accepts, entrance_of. cbn.
  destruct (sensorInWasActive s && negb (sensorInNowActive s)); cbn;
    [ | reflexivity ].
  destruct (usub (currentMillis s) (sensorInTimestamp s) >? SENSOR_DELAY_MS);
    [ | reflexivity ].
  cbv zeta. f_equal. unfold handleVisitorEntered. cbn.
  unfold buzz. cbn. destruct (buzzerIsActive s); reflexivity.
Qed.

Lemma checkBuzzer_entrance (s : state) :
  entrance_of (checkBuzzer s) = entrance_of s.
Proof. unfold entrance_of. f_equal; by_cases. Qed.

Lemma checkSensorOut_entrance (s : state) :
  entrance_of (checkSensorOut s) = entrance_of s.
Proof. unfold entrance_of. f_equal; by_cases. Qed.

Lemma checkButtons_entrance (s : state) :
  entrance_of (checkButtons s) = entrance_of s.
Proof. unfold entrance_of. f_equal; by_cases. Qed.

Lemma updateDisplay_entrance (s : state) :
  entrance_of (updateDisplay s) = entrance_of s.
Proof. unfold entrance_of. f_equal; by_cases. Qed.

Lemma checkSensorIn_entrance (s : state) :
  entrance_of (checkSensorIn s) = enter (entrance_of s).
Proof.
  rewrite checkSensorIn_cases. unfold enter.
  destruct (accepts (entrance_of s)); [ | reflexivity ].
  unfold entrance_of. cbn. f_equal; by_cases.
Qed.

Lemma tasks_entrance (s : state) :
  entrance_of (tasks s) = enter (entrance_of s).
Proof.
  unfold tasks.
  rewrite updateDisplay_entrance, checkButtons_entrance,
    checkSensorOut_entrance, checkSensorIn_entrance, checkBuzzer_entrance.
  reflexivity.
Qed.

Lemma timers_entrance (i : inputs) (s : state) :
  entrance_of (updateTimers (millis i) (sample i s)) =
  mkEntrance (millis i) (millis i)
    (if millis i <? previousMillis s then 0 else sensorInTimestamp s)
    (sensorInWasActive s) (level_eqb (readSensorIn i) LOW)
    (ncalls Call_handleVisitorEntered s).
Proof.
  unfold entrance_of, updateTimers, sample, ncalls.
  f_equal; cbn; destruct (millis i <? previousMillis s); reflexivity.
Qed.

Lemma commit_entrance (s : state) :
  entrance_of (commit s) = latch (entrance_of s).
Proof.
  unfold entrance_of, latch, commit, ncalls. f_equal; cbn; reflexivity.
Qed.

Lemma loop_entrance (i : inputs) (s : state) :
  entrance_of (loop i s) =
  latch (enter (mkEntrance (millis i) (millis i)
                  (if millis i <? previousMillis s then 0
                   else sensorInTimestamp s)
                  (sensorInWasActive s)
                  (level_eqb (readSensorIn i) LOW)
                  (ncalls Call_handleVisitorEntered s))).
Proof.
  rewrite loop_stages, commit_entrance, tasks_entrance, timers_entrance.
  reflexivity.
Qed.

Lemma entrance_fields (s : state) :
  previousMillis s = e_prev (entrance_of s)
  /\ sensorInTimestamp s = e_last (entrance_of s)
  /\ sensorInWasActive s = e_was (entrance_of s)
  /\ ncalls Call_handleVisitorEntered s = e_count (entrance_of s).
Proof. repeat split; reflexivity. Qed.

Lemma loop_entrance_nowrap (i : inputs) (s : state) :
  0 <= sensorInTimestamp s <= previousMillis s ->
  previousMillis s <= millis i < ULONG_MODULUS ->
  let g := sensorInWasActive s && negb (level_eqb (readSensorIn i) LOW)
           && (millis i - sensorInTimestamp s >? SENSOR_DELAY_MS) in
  previousMillis (loop i s) = millis i
  /\ sensorInTimestamp (loop i s)
     = (if g then millis i else sensorInTimestamp s)
  /\ sensorInWasActive (loop i s) = level_eqb (readSensorIn i) LOW
  /\ ncalls Call_handleVisitorEntered (loop i s)
     = (if g then S (ncalls Call_handleVisitorEntered s)
        else ncalls Call_handleVisitorEntered s).
Proof.
  intros Hts Hi g.
  destruct (entrance_fields (loop i s)) as (Ep & El & Ew & Ec).
  rewrite Ep, El, Ew, Ec, loop_entrance.
  destruct (Z.ltb_spec (millis i) (previousMillis s)) as [Hw | _];
    [ lia | ].
  unfold enter, accepts. cbn [e_was e_active e_now e_last].
  rewrite usub_exact by lia. fold g.
  destruct g; repeat split; reflexivity.
Qed.

Lemma run_counts_accepted_edges (ins : list inputs) :
  forall s,
    0 <= sensorInTimestamp s <= previousMillis s ->
    clock_ok (previousMillis s) ins ->
    ncalls Call_handleVisitorEntered (run ins s)
    = (ncalls Call_handleVisitorEntered s
       + accepted_edges (sensorInTimestamp s) (sensorInWasActive s) ins)%nat.
Proof.
  induction ins as [ | i rest IH ]; intros s Hts Hclock.
  - cbn [run accepted_edges]. lia.
  - cbn [run accepted_edges]. destruct Hclock as [Hi Hrest].
    destruct (loop_entrance_nowrap i s Hts Hi) as (Ep & El & Ew & Ec).
    rewrite IH; rewrite ?Ep, ?El, ?Ew, ?Ec; try assumption.
    + destruct (sensorInWasActive s && negb (level_eqb (readSensorIn i) LOW)
                && (millis i - sensorInTimestamp s >? SENSOR_DELAY_MS));
        lia.
    + destruct (sensorInWasActive s && negb (level_eqb (readSensorIn i) LOW)
                && (millis i - sensorInTimestamp s >? SENSOR_DELAY_MS));
        lia.
Qed.

(** Closing a goal about concrete readings. *)
Ltac closed :=
  vm_compute; repeat split; first [ reflexivity | discriminate ].

(** C1 (amended).  As long as the clock does not wrap: a falling edge of the
    entrance sensor produces exactly one call of [handleVisitorEntered] when
    the clock reads more than [SENSOR_DELAY_MS] past the reading of the last
    accepted edge (past 0 if none was accepted since power-up), and the
    edge is then the new last accepted one; any other falling edge, one at
    exactly 1000 ms included, produces no call and leaves the timestamp as
    it is; an iteration without a falling edge produces no call.  Over a
    whole sequence of samples the number of calls is the number of edges
    the debouncer of the specification accepts.  The hypothesis on the
    timestamp holds in every reachable state. *)
Theorem entrance_edges_debounced (s : state) :
  0 <= sensorInTimestamp s <= previousMillis s ->
  (forall ins,
     clock_ok (previousMillis s) ins ->
     ncalls Call_handleVisitorEntered (run ins s)
     = (ncalls Call_handleVisitorEntered s
        + accepted_edges (sensorInTimestamp s) (sensorInWasActive s) ins)%nat)
  /\ (forall i,
        previousMillis s <= millis i < ULONG_MODULUS ->
        sensorInWasActive s = true ->
        readSensorIn i = HIGH ->
        (SENSOR_DELAY_MS < millis i - sensorInTimestamp s ->
         ncalls Call_handleVisitorEntered (loop i s)
         = S (ncalls Call_handleVisitorEntered s)
         /\ sensorInTimestamp (loop i s) = millis i)
        /\ (millis i - sensorInTimestamp s <= SENSOR_DELAY_MS ->
            ncalls Call_handleVisitorEntered (loop i s)
            = ncalls Call_handleVisitorEntered s
            /\ sensorInTimestamp (loop i s) = sensorInTimestamp s))
  /\ (forall i,
        previousMillis s <= millis i < ULONG_MODULUS ->
        sensorInWasActive s = false \/ readSensorIn i = LOW ->
        ncalls Call_handleVisitorEntered (loop i s)
        = ncalls Call_handleVisitorEntered s).
Proof.
  intros Hts. split; [ | split ].
  - intros ins Hclock. apply run_counts_accepted_edges; assumption.
  - intros i Hi Hwas Hin.
    destruct (loop_entrance_nowrap i s Hts Hi) as (_ & El & _ & Ec).
    rewrite Hwas, Hin in El, Ec. cbn [level_eqb negb andb] in El, Ec.
    split; intros Hd.
    + destruct (Z.gtb_spec (millis i - sensorInTimestamp s) SENSOR_DELAY_MS);
        [ split; assumption | lia ].
    + destruct (Z.gtb_spec (millis i - sensorInTimestamp s) SENSOR_DELAY_MS);
        [ lia | split; assumption ].
  - intros i Hi Hno.
    destruct (loop_entrance_nowrap i s Hts Hi) as (_ & _ & _ & Ec).
    rewrite Ec.
    destruct Hno as [Hwas | Hin]; [ rewrite Hwas | rewrite Hin ];
      cbn [level_eqb negb andb]; rewrite ?andb_false_r; reflexivity.
Qed.

Lemma entrance_edges_debounced_witness :
  0 <= sensorInTimestamp power_on <= previousMillis power_on
  /\ ncalls Call_handleVisitorEntered
       (run (visitor_enters 2000 ++ visitor_enters 3500) power_on)
     = 2%nat.
Proof.
  assert (H : 0 <= sensorInTimestamp power_on <= previousMillis power_on)
    by closed.
  split; [ exact H | ].
  destruct (entrance_edges_debounced power_on H) as [Hrun _].
  rewrite Hrun; [ reflexivity | closed ].
Defined.

(** C1, as stated, fails: a visitor is accepted at 2000 ms; the next falling
    edge comes at 3000 ms, 1000 ms after the accepted one, and produces no
    call. *)
Lemma entrance_edge_after_1000ms_dropped :
  let s := run (visitor_enters 2000 ++ [with_sensorIn LOW (idle 2900)])
             power_on in
  let i := idle 3000 in
  ncalls Call_handleVisitorEntered s = 1%nat
  /\ sensorInTimestamp s = 2000
  /\ sensorInWasActive s = true
  /\ readSensorIn i = HIGH
  /\ SENSOR_DELAY_MS <= millis i - sensorInTimestamp s
  /\ ncalls Call_handleVisitorEntered (loop i s) = 1%nat.
Proof. closed. Qed.

(** * The hold-red window *)

Lemma hold_fields (s : state) :
  previousMillis s = h_prev (hold_of s)
  /\ keepRedTimestamp s = h_keep (hold_of s)
  /\ pinRedLight s = h_red (hold_of s)
  /\ pinGreenLight s = h_green (hold_of s).
Proof. repeat split; reflexivity. Qed.

Lemma checkBuzzer_hold (s : state) : hold_of (checkBuzzer s) = hold_of s.
Proof. unfold hold_of. f_equal; by_cases. Qed.

Lemma checkSensorOut_hold (s : state) :
  hold_of (checkSensorOut s) = hold_of s.
Proof. unfold hold_of. f_equal; by_cases. Qed.

Lemma checkButtons_hold (s : state) : hold_of (checkButtons s) = hold_of s.
Proof. unfold hold_of. f_equal; by_cases. Qed.

Lemma checkSensorIn_hold (s : state) :
  hold_of (checkSensorIn s) =
  if accepts (entrance_of s) then restart_hold (hold_of s) else hold_of s.
Proof.
  rewrite checkSensorIn_cases.
  destruct (accepts (entrance_of s)); [ | reflexivity ].
  unfold hold_of, restart_hold. cbn. f_equal; by_cases.
Qed.

Lemma updateLights_hold (s : state) :
  hold_of (updateLights s)
  = relight (visitorCount s <? maxVisitorCount s) (hold_of s).
Proof.
  unfold hold_of, relight, updateLights. cbn [h_now h_keep h_prev].
  destruct (keepRedTimestamp s >? 0);
    [ destruct (usub (currentMillis s) (keepRedTimestamp s)
                >? BUTTON_ENTRANCE_MIN_MS) | ];
    destruct (visitorCount s <? maxVisitorCount s);
    cbn [andb]; f_equal; by_cases.
Qed.

Lemma updateDisplay_hold (s : state) :
  hold_of (updateDisplay s)
  = relight (visitorCount s <? maxVisitorCount s) (hold_of s).
Proof.
  rewrite <- updateLights_hold.
  assert (F : forall x, hold_of (initializeDisplay (set_displayUpdated false x))
                        = hold_of x) by reflexivity.
  assert (G : forall x, hold_of (setDisplayText
                (set_displayUpdated true
                   (set_displayTimestamp (currentMillis x) x))) = hold_of x)
    by reflexivity.
  unfold updateDisplay.
  destruct (usub (currentMillis s) (displayTimestamp s) >? 60000).
  - set (x := initializeDisplay (set_displayUpdated false s)).
    destruct (displayUpdated (updateLights x)).
    + rewrite !updateLights_hold. subst x. rewrite F. cbn. reflexivity.
    + cbv zeta. rewrite G, !updateLights_hold. subst x. rewrite F. cbn.
      reflexivity.
  - destruct (displayUpdated (updateLights s)); [ reflexivity | ].
    cbv zeta. apply G.
Qed.

Lemma tasks_hold (s : state) :
  exists allow,
    hold_of (tasks s)
    = relight allow
        (if accepts (entrance_of s) then restart_hold (hold_of s)
         else hold_of s).
Proof.
  unfold tasks. eexists.
  rewrite updateDisplay_hold, checkButtons_hold, checkSensorOut_hold,
    checkSensorIn_hold, checkBuzzer_entrance, checkBuzzer_hold.
  reflexivity.
Qed.

Lemma timers_hold (i : inputs) (s : state) :
  hold_of (updateTimers (millis i) (sample i s)) =
  mkHold (millis i) (millis i)
    (if millis i <? previousMillis s then 0 else keepRedTimestamp s)
    (pinRedLight s) (pinGreenLight s).
Proof.
  unfold hold_of, updateTimers, sample.
  f_equal; cbn; destruct (millis i <? previousMillis s); reflexivity.
Qed.

Lemma commit_hold (s : state) : hold_of (commit s) = hold_of s.
Proof. reflexivity. Qed.

Lemma loop_hold (i : inputs) (s : state) :
  exists allow,
    hold_of (loop i s)
    = relight allow
        (if accepts (entrance_of (updateTimers (millis i) (sample i s)))
         then restart_hold (hold_of (updateTimers (millis i) (sample i s)))
         else hold_of (updateTimers (millis i) (sample i s))).
Proof.
  rewrite loop_stages, commit_hold. apply tasks_hold.
Qed.










(** * The long press on reset *)

Lemma reset_fields (s : state) :
  previousMillis s = r_prev (reset_of s)
  /\ buttonResetTimestamp s = r_start (reset_of s)
  /\ buttonResetBlocked s = r_blocked (reset_of s)
  /\ buttonResetWasPressed s = r_was (reset_of s)
  /\ ncalls Call_handleReset s = r_count (reset_of s).
Proof. repeat split; reflexivity. Qed.

Lemma reset_buttons (s : state) :
  buttonResetNowPressed s = r_pressed (reset_of s)
  /\ buttonUpNowPressed s = r_up (reset_of s)
  /\ buttonDownNowPressed s = r_down (reset_of s).
Proof. repeat split; reflexivity. Qed.

Lemma checkBuzzer_reset (s : state) : reset_of (checkBuzzer s) = reset_of s.
Proof. unfold reset_of. f_equal; by_cases. Qed.

Lemma checkSensorIn_reset (s : state) :
  reset_of (checkSensorIn s) = reset_of s.
Proof. unfold reset_of. f_equal; by_cases. Qed.

Lemma checkSensorOut_reset (s : state) :
  reset_of (checkSensorOut s) = reset_of s.
Proof. unfold reset_of. f_equal; by_cases. Qed.

Lemma updateDisplay_reset (s : state) :
  reset_of (updateDisplay s) = reset_of s.
Proof. unfold reset_of. f_equal; by_cases. Qed.

Lemma checkButtons_reset (s : state) :
  buttonUpNowPressed s = false ->
  buttonDownNowPressed s = false ->
  reset_of (checkButtons s) = hold_reset (reset_of s).
Proof.
  intros Hu Hd. rewrite checkButtons_cases. cbv zeta.
  unfold upPressed, downPressed. rewrite Hu, Hd. cbn [andb].
  unfold reset_of, hold_reset, longPressed, unblockReset.
  cbn [r_now r_prev r_start r_blocked r_was r_pressed r_up r_down r_count].
  destruct (buttonResetNowPressed s) eqn:En;
    destruct (buttonResetWasPressed s) eqn:Ew;
    destruct (buttonResetBlocked s) eqn:Eb;
    cbn; rewrite ?En, ?Ew, ?Eb, ?Hu, ?Hd; cbn;
    try reflexivity.
  all: destruct (usub (currentMillis s) (buttonResetTimestamp s)
              >? BUTTON_LONG_DELAY_MS);
    cbn; rewrite ?En, ?Ew, ?Eb, ?Hu, ?Hd; try reflexivity.
  all: f_equal; by_cases; assumption.
Qed.

Lemma tasks_reset (s : state) :
  buttonUpNowPressed s = false ->
  buttonDownNowPressed s = false ->
  reset_of (tasks s) = hold_reset (reset_of s).
Proof.
  intros Hu Hd. unfold tasks.
  pose proof (checkBuzzer_reset s) as E1.
  pose proof (checkSensorIn_reset (checkBuzzer s)) as E2.
  pose proof (checkSensorOut_reset (checkSensorIn (checkBuzzer s))) as E3.
  rewrite E2, E1 in E3.
  rewrite updateDisplay_reset, checkButtons_reset, E3; [ reflexivity | | ].
  - rewrite (proj1 (proj2 (reset_buttons _))), E3. exact Hu.
  - rewrite (proj2 (proj2 (reset_buttons _))), E3. exact Hd.
Qed.

Lemma timers_reset (i : inputs) (s : state) :
  reset_of (updateTimers (millis i) (sample i s)) =
  mkResetv (millis i) (millis i)
    (if millis i <? previousMillis s then 0 else buttonResetTimestamp s)
    (buttonResetBlocked s) (buttonResetWasPressed s)
    (level_eqb (readButtonReset i) LOW) (level_eqb (readButtonUp i) LOW)
    (level_eqb (readButtonDown i) LOW) (ncalls Call_handleReset s).
Proof.
  unfold reset_of, updateTimers, sample, ncalls.
  f_equal; cbn; destruct (millis i <? previousMillis s); reflexivity.
Qed.

Lemma commit_reset (s : state) :
  reset_of (commit s) = latch_reset (reset_of s).
Proof. unfold reset_of, latch_reset, commit, ncalls. f_equal. Qed.

Lemma loop_reset (i : inputs) (s : state) :
  readButtonUp i = HIGH ->
  readButtonDown i = HIGH ->
  reset_of (loop i s)
  = latch_reset
      (hold_reset (reset_of (updateTimers (millis i) (sample i s)))).
Proof.
  intros Hu Hd.
  rewrite loop_stages, commit_reset, tasks_reset; [ reflexivity | | ].
  - rewrite (proj1 (proj2 (reset_buttons _))), timers_reset.
    cbn [r_up]. rewrite Hu. reflexivity.
  - rewrite (proj2 (proj2 (reset_buttons _))), timers_reset.
    cbn [r_down]. rewrite Hd. reflexivity.
Qed.

Lemma clock_ok_last (ins : list inputs) :
  forall p, clock_ok p ins -> p <= last_reading p ins.
Proof.
  induction ins as [ | j rest IH ]; intros p H; cbn in *; [ lia | ].
  destruct H as [Hj Hrest]. specialize (IH _ Hrest). lia.
Qed.

(** One more iteration with the button still held since reading [T]. *)
Lemma held_tick (T : Z) (j : inputs) (s : state) :
  held j ->
  buttonResetWasPressed s = true ->
  buttonResetTimestamp s = T ->
  0 <= T <= previousMillis s ->
  previousMillis s <= millis j < ULONG_MODULUS ->
  buttonResetBlocked s = (previousMillis s - T >? BUTTON_LONG_DELAY_MS) ->
  buttonResetWasPressed (loop j s) = true
  /\ buttonResetTimestamp (loop j s) = T
  /\ previousMillis (loop j s) = millis j
  /\ buttonResetBlocked (loop j s) = (millis j - T >? BUTTON_LONG_DELAY_MS)
  /\ ncalls Call_handleReset (loop j s)
     = (ncalls Call_handleReset s
        + (if (millis j - T >? BUTTON_LONG_DELAY_MS)
              && negb (previousMillis s - T >? BUTTON_LONG_DELAY_MS)
           then 1 else 0))%nat.
Proof.
  intros (Hr & Hu & Hd) Hw Hs HT Hj Hb.
  destruct (reset_fields (loop j s)) as (Ep & Et & Ebl & Ewa & Ec).
  rewrite Ep, Et, Ebl, Ewa, Ec, (loop_reset j s Hu Hd), timers_reset.
  destruct (Z.ltb_spec (millis j) (previousMillis s)); [ lia | ].
  rewrite Hr, Hw, Hs, Hb. unfold hold_reset, latch_reset.
  cbn [level_eqb negb r_now r_prev r_start r_blocked r_was r_pressed r_up
       r_down r_count].
  rewrite usub_exact by lia.
  destruct (Z.gtb_spec (previousMillis s - T) BUTTON_LONG_DELAY_MS);
    destruct (Z.gtb_spec (millis j - T) BUTTON_LONG_DELAY_MS);
    cbn; repeat split; lia.
Qed.

(** The iteration on which the button goes down. *)
Lemma press_tick (j : inputs) (s : state) :
  held j ->
  buttonResetWasPressed s = false ->
  buttonResetBlocked s = false ->
  buttonResetWasPressed (loop j s) = true
  /\ buttonResetTimestamp (loop j s) = millis j
  /\ previousMillis (loop j s) = millis j
  /\ buttonResetBlocked (loop j s) = false
  /\ ncalls Call_handleReset (loop j s) = ncalls Call_handleReset s.
Proof.
  intros (Hr & Hu & Hd) Hw Hb.
  destruct (reset_fields (loop j s)) as (Ep & Et & Ebl & Ewa & Ec).
  rewrite Ep, Et, Ebl, Ewa, Ec, (loop_reset j s Hu Hd), timers_reset.
  rewrite Hr, Hw, Hb. unfold hold_reset, latch_reset.
  cbn [level_eqb negb andb r_now r_prev r_start r_blocked r_was r_pressed
       r_up r_down r_count].
  repeat split; reflexivity.
Qed.

Lemma held_run (T : Z) (ins : list inputs) :
  forall s,
    Forall held ins ->
    buttonResetWasPressed s = true ->
    buttonResetTimestamp s = T ->
    0 <= T <= previousMillis s ->
    clock_ok (previousMillis s) ins ->
    buttonResetBlocked s = (previousMillis s - T >? BUTTON_LONG_DELAY_MS) ->
    ncalls Call_handleReset (run ins s)
    = (ncalls Call_handleReset s
       + (if (last_reading (previousMillis s) ins - T
              >? BUTTON_LONG_DELAY_MS)
             && negb (previousMillis s - T >? BUTTON_LONG_DELAY_MS)
          then 1 else 0))%nat.
Proof.
  induction ins as [ | j rest IH ]; intros s Hh Hw Hs HT Hclock Hb.
  - cbn [run last_reading].
    destruct (previousMillis s - T >? BUTTON_LONG_DELAY_MS); cbn; lia.
  - cbn [run last_reading]. destruct Hclock as [Hj Hrest].
    inversion Hh as [ | ? ? Hhj Hhr ]; subst.
    destruct (held_tick _ j s Hhj Hw eq_refl HT Hj Hb)
      as (Ew & Et & Ep & Eb & Ec).
    rewrite (IH (loop j s)); try assumption;
      rewrite ?Ep; try assumption; try lia.
    rewrite Ec.
    pose proof (clock_ok_last rest _ Hrest) as Hlast.
    destruct (Z.gtb_spec (previousMillis s - buttonResetTimestamp s)
                BUTTON_LONG_DELAY_MS);
      destruct (Z.gtb_spec (millis j - buttonResetTimestamp s)
                  BUTTON_LONG_DELAY_MS);
      destruct (Z.gtb_spec (last_reading (millis j) rest
                            - buttonResetTimestamp s) BUTTON_LONG_DELAY_MS);
      cbn; lia.
Qed.

(** Case analysis that first uses a known flag [H]. *)
Ltac by_cases_using H :=
  unfold_sketch;
  repeat (cbn; repeat (rewrite H; cbn); rewrite ?andb_false_r; cbn;
          match goal with
          | |- context [if ?b then _ else _] => destruct b eqn:?
          end);
  cbn; repeat (rewrite H; cbn); try reflexivity;
  try (cbn in *; congruence).

Lemma checkButtons_released (s : state) :
  buttonResetNowPressed s = false ->
  buttonResetBlocked (checkButtons s) = false.
Proof. intros H. by_cases_using H. Qed.

Lemma checkButtons_pressed (s : state) :
  buttonResetNowPressed (checkButtons s) = buttonResetNowPressed s.
Proof. by_cases. Qed.

Lemma latch_reset_flags (v : resetv) :
  r_blocked (latch_reset v) = r_blocked v
  /\ r_was (latch_reset v) = r_pressed v.
Proof. split; reflexivity. Qed.

Lemma loop_released (j : inputs) (s : state) :
  readButtonReset j = HIGH ->
  buttonResetBlocked (loop j s) = false
  /\ buttonResetWasPressed (loop j s) = false.
Proof.
  intros Hr.
  destruct (reset_fields (loop j s)) as (_ & _ & Ebl & Ewa & _).
  rewrite Ebl, Ewa, loop_stages, commit_reset.
  rewrite (proj1 (latch_reset_flags _)), (proj2 (latch_reset_flags _)).
  unfold tasks. rewrite updateDisplay_reset.
  remember (checkSensorOut
              (checkSensorIn
                 (checkBuzzer (updateTimers (millis j) (sample j s)))))
    as z eqn:Ez.
  assert (Hp : buttonResetNowPressed z = false).
  { rewrite (proj1 (reset_buttons z)), Ez, checkSensorOut_reset,
      checkSensorIn_reset, checkBuzzer_reset, timers_reset.
    cbn [r_pressed]. rewrite Hr. reflexivity. }
  clear Ez. split.
  - rewrite <- (proj1 (proj2 (proj2 (reset_fields _)))).
    apply checkButtons_released. exact Hp.
  - rewrite <- (proj1 (reset_buttons _)), checkButtons_pressed. exact Hp.
Qed.

Lemma checkButtons_long (s : state) :
  longPressed (unblockReset s) = true ->
  visitorCount (checkButtons s) = 0
  /\ maxVisitorCount (checkButtons s) = 20
  /\ buttonResetBlocked (checkButtons s) = true
  /\ buzzerIsActive (checkButtons s) = true
  /\ calls (checkButtons s) = Call_buzz :: Call_handleReset :: calls s.
Proof.
  intros H. rewrite checkButtons_calls, H.
  rewrite checkButtons_cases. cbv zeta. rewrite H.
  unfold handleReset.
  rewrite buzz_visitorCount, buzz_maxVisitorCount, buzz_sets_active.
  repeat split. unfold buzz. cbn.
  destruct (buzzerIsActive (unblockReset s)); reflexivity.
Qed.

(** C6 (amended).  As long as the clock does not wrap: when reset goes down
    on an iteration and stays down on the following ones, with up and down
    released, [handleReset] is called exactly once if some iteration of the
    hold reads more than [BUTTON_LONG_DELAY_MS] past the reading of the
    iteration on which the button went down, and not at all otherwise (a
    hold of exactly 5000 ms included).  The call sets the counters to
    (0, 20), calls [buzz] and sets [buttonResetBlocked]; and any iteration
    that reads the button released leaves [buttonResetBlocked] false, so
    that the two hypotheses on the flags describe a released button. *)
Theorem long_press_resets_once
  (s : state) (i : inputs) (rest : list inputs) :
  0 <= previousMillis s ->
  buttonResetWasPressed s = false ->
  buttonResetBlocked s = false ->
  clock_ok (previousMillis s) (i :: rest) ->
  Forall held (i :: rest) ->
  ncalls Call_handleReset (run (i :: rest) s)
  = (ncalls Call_handleReset s
     + (if last_reading (millis i) rest - millis i >? BUTTON_LONG_DELAY_MS
        then 1 else 0))%nat
  /\ (forall x,
        longPressed (unblockReset x) = true ->
        visitorCount (checkButtons x) = 0
        /\ maxVisitorCount (checkButtons x) = 20
        /\ buttonResetBlocked (checkButtons x) = true
        /\ buzzerIsActive (checkButtons x) = true
        /\ calls (checkButtons x)
           = Call_buzz :: Call_handleReset :: calls x)
  /\ (forall x j,
        readButtonReset j = HIGH ->
        buttonResetBlocked (loop j x) = false
        /\ buttonResetWasPressed (loop j x) = false).
Proof.
  intros H0 Hw Hb [Hi Hclock] Hheld.
  inversion Hheld as [ | ? ? Hhi Hhr ]; subst.
  split; [ | split ].
  - cbn [run].
    destruct (press_tick i s Hhi Hw Hb) as (Ew & Et & Ep & Eb & Ec).
    rewrite (held_run (millis i) rest (loop i s)); try assumption.
    + rewrite Ep, Ec, Z.sub_diag.
      replace (0 >? BUTTON_LONG_DELAY_MS) with false by reflexivity.
      rewrite andb_true_r. reflexivity.
    + rewrite Ep. lia.
    + rewrite Ep. exact Hclock.
    + rewrite Ep, Eb, Z.sub_diag. reflexivity.
  - intros x. apply checkButtons_long.
  - intros x j. apply loop_released.
Qed.

Lemma long_press_resets_once_witness :
  let ins := [with_reset LOW (idle 3000); with_reset LOW (idle 6001);
              with_reset LOW (idle 9000)] in
  ncalls Call_handleReset (run (with_reset LOW (idle 1000) :: ins) power_on)
  = S (ncalls Call_handleReset power_on).
Proof.
  intros ins.
  destruct (long_press_resets_once power_on (with_reset LOW (idle 1000)) ins)
    as [Hrun _].
  - closed.
  - reflexivity.
  - reflexivity.
  - closed.
  - repeat (constructor; [ closed | ]). constructor.
  - rewrite Hrun. reflexivity.
Defined.

(** C6, as stated, fails: reset is released at the reading 999, down from
    the reading 1000 to the reading 6000, a hold of 5000 ms, and released
    at 6001; no reset is performed, the counters keep their values. *)
Lemma reset_held_5000ms_not_performed :
  let s := loop (idle 999)
             (set_visitorCount 3 (set_maxVisitorCount 5 power_on)) in
  let ins := [with_reset LOW (idle 1000); with_reset LOW (idle 3000);
              with_reset LOW (idle 6000)] in
  Forall held ins
  /\ buttonResetWasPressed s = false
  /\ BUTTON_LONG_DELAY_MS <= last_reading 0 ins - 1000
  /\ ncalls Call_handleReset (run (ins ++ [idle 6001]) s)
     = ncalls Call_handleReset s
  /\ visitorCount (run (ins ++ [idle 6001]) s) = 3
  /\ maxVisitorCount (run (ins ++ [idle 6001]) s) = 5.
Proof.
  split; [ repeat (constructor; [ closed | ]); constructor | closed ].
Qed.

(** * The buzzer timer *)

Lemma buzzer_fields (s : state) :
  previousMillis s = b_prev (buzzer_of s)
  /\ buzzerIsActive s = b_active (buzzer_of s)
  /\ buzzerTimestamp s = b_start (buzzer_of s).
Proof. repeat split; reflexivity. Qed.

Lemma checkBuzzer_buzzer (s : state) :
  buzzer_of (checkBuzzer s) = silence (buzzer_of s).
Proof.
  unfold buzzer_of, silence, checkBuzzer. cbn [b_active b_now b_start b_prev].
  destruct (buzzerIsActive s
            && (usub (currentMillis s) (buzzerTimestamp s)
                >? BUZZER_DURATION_MS)); reflexivity.
Qed.

Lemma checkSensorIn_buzzer (s : state) :
  buzzerIsActive s = true -> buzzer_of (checkSensorIn s) = buzzer_of s.
Proof. intros H. unfold buzzer_of. f_equal; by_cases_using H. Qed.

Lemma checkSensorOut_buzzer (s : state) :
  buzzerIsActive s = true -> buzzer_of (checkSensorOut s) = buzzer_of s.
Proof. intros H. unfold buzzer_of. f_equal; by_cases_using H. Qed.

Lemma checkButtons_buzzer (s : state) :
  buzzerIsActive s = true -> buzzer_of (checkButtons s) = buzzer_of s.
Proof. intros H. unfold buzzer_of. f_equal; by_cases_using H. Qed.

Lemma updateDisplay_buzzer (s : state) :
  buzzerIsActive s = true -> buzzer_of (updateDisplay s) = buzzer_of s.
Proof. intros H. unfold buzzer_of. f_equal; by_cases_using H. Qed.

Lemma timers_buzzer (i : inputs) (s : state) :
  buzzer_of (updateTimers (millis i) (sample i s)) =
  mkBuzzerv (millis i) (millis i) (buzzerIsActive s)
    (if millis i <? previousMillis s then 0 else buzzerTimestamp s).
Proof.
  unfold buzzer_of, updateTimers, sample.
  f_equal; cbn; destruct (millis i <? previousMillis s); reflexivity.
Qed.

Lemma commit_buzzer (s : state) : buzzer_of (commit s) = buzzer_of s.
Proof. reflexivity. Qed.

(** While the buzzer keeps sounding through [checkBuzzer], the other tasks
    leave it alone. *)
Lemma tasks_buzzer (s : state) :
  b_active (silence (buzzer_of s)) = true ->
  buzzer_of (tasks s) = silence (buzzer_of s).
Proof.
  intros H. rewrite <- checkBuzzer_buzzer in *. unfold tasks.
  remember (checkBuzzer s) as x eqn:Ex. clear Ex.
  rewrite <- (proj1 (proj2 (buzzer_fields x))) in H.
  assert (H1 : buzzerIsActive (checkSensorIn x) = true).
  { rewrite (proj1 (proj2 (buzzer_fields _))), checkSensorIn_buzzer by exact H.
    rewrite <- (proj1 (proj2 (buzzer_fields _))). exact H. }
  assert (H2 : buzzerIsActive (checkSensorOut (checkSensorIn x)) = true).
  { rewrite (proj1 (proj2 (buzzer_fields _))), checkSensorOut_buzzer
      by exact H1.
    rewrite <- (proj1 (proj2 (buzzer_fields _))). exact H1. }
  assert (H3 : buzzerIsActive
                 (checkButtons (checkSensorOut (checkSensorIn x))) = true).
  { rewrite (proj1 (proj2 (buzzer_fields _))), checkButtons_buzzer
      by exact H2.
    rewrite <- (proj1 (proj2 (buzzer_fields _))). exact H2. }
  rewrite updateDisplay_buzzer by exact H3.
  rewrite checkButtons_buzzer by exact H2.
  rewrite checkSensorOut_buzzer by exact H1.
  apply checkSensorIn_buzzer. exact H.
Qed.

Lemma loop_sounding (T : Z) (j : inputs) (s : state) :
  buzzerIsActive s = true ->
  buzzerTimestamp s = T ->
  0 <= T <= previousMillis s ->
  previousMillis s <= millis j < ULONG_MODULUS ->
  millis j <= T + BUZZER_DURATION_MS ->
  buzzerIsActive (loop j s) = true
  /\ buzzerTimestamp (loop j s) = T
  /\ previousMillis (loop j s) = millis j.
Proof.
  intros Ha Hs HT Hj Hw.
  destruct (buzzer_fields (loop j s)) as (Ep & Eact & Est).
  rewrite Ep, Eact, Est, loop_stages, commit_buzzer.
  assert (E : silence (buzzer_of (updateTimers (millis j) (sample j s)))
              = mkBuzzerv (millis j) (millis j) true T).
  { rewrite timers_buzzer.
    destruct (Z.ltb_spec (millis j) (previousMillis s)); [ lia | ].
    rewrite Ha, Hs. unfold silence. cbn [b_active b_now b_start andb].
    rewrite usub_exact by lia.
    destruct (Z.gtb_spec (millis j - T) BUZZER_DURATION_MS);
      [ lia | reflexivity ]. }
  rewrite tasks_buzzer; rewrite E; repeat split; reflexivity.
Qed.

Lemma sounding_run (T : Z) (ins : list inputs) :
  forall s,
    buzzerIsActive s = true ->
    buzzerTimestamp s = T ->
    0 <= T <= previousMillis s ->
    clock_ok (previousMillis s) ins ->
    Forall (fun j => millis j <= T + BUZZER_DURATION_MS) ins ->
    Forall (fun s' => buzzerIsActive s' = true /\ buzzerTimestamp s' = T)
      (states ins s).
Proof.
  induction ins as [ | j rest IH ]; intros s Ha Hs HT Hclock Hwin.
  - constructor.
  - cbn [states]. destruct Hclock as [Hj Hrest].
    inversion Hwin as [ | ? ? Hjw Hrw ]; subst.
    destruct (loop_sounding _ j s Ha eq_refl HT Hj Hjw) as (Ea & Et & Ep).
    constructor; [ split; assumption | ].
    apply IH; try assumption; rewrite ?Ep; try assumption; lia.
Qed.

Lemma on_only_by_trigger_trans (a b c : state) :
  on_only_by_trigger a b -> on_only_by_trigger b c ->
  on_only_by_trigger a c.
Proof.
  intros [H1 H2] [H3 H4]. split; [ lia | ].
  intros Hc. destruct (H4 Hc) as [Hb | Hlt]; [ | right; lia ].
  destruct (H2 Hb) as [Ha | Hlt]; [ left; exact Ha | right; lia ].
Qed.

Ltac trigger_cases :=
  unfold on_only_by_trigger; by_cases;
  (split; [ lia | intros; first [ left; congruence | right; lia ] ]).

Lemma checkSensorIn_trigger (s : state) :
  on_only_by_trigger s (checkSensorIn s).
Proof. trigger_cases. Qed.

Lemma checkSensorOut_trigger (s : state) :
  on_only_by_trigger s (checkSensorOut s).
Proof. trigger_cases. Qed.

Lemma checkButtons_trigger (s : state) :
  on_only_by_trigger s (checkButtons s).
Proof. trigger_cases. Qed.

Lemma updateDisplay_trigger (s : state) :
  on_only_by_trigger s (updateDisplay s).
Proof. trigger_cases. Qed.

Lemma commit_quiet (s : state) :
  buzzerIsActive (commit s) = buzzerIsActive s
  /\ ncalls Call_buzz (commit s) = ncalls Call_buzz s.
Proof. split; reflexivity. Qed.

Lemma prelude_ncalls (c : call) (j : inputs) (s : state) :
  ncalls c (checkBuzzer (updateTimers (millis j) (sample j s))) = ncalls c s.
Proof.
  unfold ncalls, checkBuzzer, updateTimers, sample, digitalWrite. cbn.
  destruct (millis j <? previousMillis s); cbn;
    match goal with
    | |- context [if ?b then _ else _] => destruct b
    end; cbn;
    destruct (buzzerIsActive s); reflexivity.
Qed.

Lemma loop_silenced (j : inputs) (s : state) :
  buzzerIsActive s = true ->
  0 <= buzzerTimestamp s <= previousMillis s ->
  previousMillis s <= millis j < ULONG_MODULUS ->
  buzzerTimestamp s + BUZZER_DURATION_MS < millis j ->
  buzzerIsActive (checkBuzzer (updateTimers (millis j) (sample j s))) = false
  /\ (buzzerIsActive (loop j s) = true ->
      (ncalls Call_buzz s < ncalls Call_buzz (loop j s))%nat).
Proof.
  intros Ha HT Hj Hlate.
  assert (Hoff : buzzerIsActive
                   (checkBuzzer (updateTimers (millis j) (sample j s)))
                 = false).
  { rewrite (proj1 (proj2 (buzzer_fields _))), checkBuzzer_buzzer,
      timers_buzzer.
    destruct (Z.ltb_spec (millis j) (previousMillis s)); [ lia | ].
    rewrite Ha. unfold silence. cbn [b_active b_now b_start andb].
    rewrite usub_exact by lia.
    destruct (Z.gtb_spec (millis j - buzzerTimestamp s) BUZZER_DURATION_MS);
      [ reflexivity | lia ]. }
  split; [ exact Hoff | ].
  rewrite loop_stages.
  rewrite (proj1 (commit_quiet _)), (proj2 (commit_quiet _)).
  rewrite <- (prelude_ncalls Call_buzz j s).
  unfold tasks.
  remember (checkBuzzer (updateTimers (millis j) (sample j s))) as y eqn:Ey.
  clear Ey.
  pose proof (on_only_by_trigger_trans _ _ _
                (on_only_by_trigger_trans _ _ _
                   (on_only_by_trigger_trans _ _ _
                      (checkSensorIn_trigger y)
                      (checkSensorOut_trigger _))
                   (checkButtons_trigger _))
                (updateDisplay_trigger _)) as [_ H].
  intros Hon. destruct (H Hon) as [Hy | Hlt]; [ congruence | exact Hlt ].
Qed.

(** C8 (amended).  While the buzzer is sounding, [buzz] changes nothing but
    the call log: flag, start timestamp and pin keep their values.  As long
    as the clock does not wrap, the buzzer then stays on, with the same
    start timestamp, through every iteration that reads at most
    [BUZZER_DURATION_MS] past the start, whatever triggers occur meanwhile;
    on the first iteration that reads more than that, [checkBuzzer] turns
    it off, and it is on at the end of that iteration only if [buzz] was
    called anew.  A call of [buzz] while the buzzer is off turns it on and
    records the current reading as the start.  The hypothesis on the
    timestamp holds in every reachable state. *)
Theorem buzz_noop_while_sounding (s : state) :
  buzzerIsActive s = true ->
  0 <= buzzerTimestamp s <= previousMillis s ->
  buzz s = log Call_buzz s
  /\ buzzerIsActive (buzz s) = true
  /\ buzzerTimestamp (buzz s) = buzzerTimestamp s
  /\ pinBuzzer (buzz s) = pinBuzzer s
  /\ (forall ins,
        clock_ok (previousMillis s) ins ->
        Forall (fun j => millis j <= buzzerTimestamp s + BUZZER_DURATION_MS)
          ins ->
        Forall (fun s' => buzzerIsActive s' = true
                          /\ buzzerTimestamp s' = buzzerTimestamp s)
          (states ins s))
  /\ (forall j,
        previousMillis s <= millis j < ULONG_MODULUS ->
        buzzerTimestamp s + BUZZER_DURATION_MS < millis j ->
        buzzerIsActive (checkBuzzer (updateTimers (millis j) (sample j s)))
        = false
        /\ (buzzerIsActive (loop j s) = true ->
            (ncalls Call_buzz s < ncalls Call_buzz (loop j s))%nat))
  /\ (forall x,
        buzzerIsActive x = false ->
        buzzerIsActive (buzz x) = true
        /\ buzzerTimestamp (buzz x) = currentMillis x).
Proof.
  intros Ha HT.
  pose proof (buzz_active s Ha) as E.
  split; [ exact E | ].
  split; [ apply buzz_sets_active | ].
  split; [ rewrite E; reflexivity | ].
  split; [ rewrite E; reflexivity | ].
  split; [ | split ].
  - intros ins Hclock Hwin. apply sounding_run; auto.
  - intros j Hj Hlate. apply loop_silenced; assumption.
  - intros x Hx. unfold buzz. cbn. rewrite Hx. split; reflexivity.
Qed.

Lemma buzz_noop_while_sounding_witness :
  let s := run (visitor_enters 2000) power_on in
  buzzerIsActive s = true
  /\ buzzerTimestamp s = 2000
  /\ Forall (fun s' => buzzerIsActive s' = true /\ buzzerTimestamp s' = 2000)
       (states [with_sensorIn LOW (idle 2200); idle 2500] s).
Proof.
  intros s. split; [ reflexivity | ]. split; [ reflexivity | ].
  assert (Ha : buzzerIsActive s = true) by reflexivity.
  assert (HT : 0 <= buzzerTimestamp s <= previousMillis s) by closed.
  destruct (buzz_noop_while_sounding s Ha HT)
    as (_ & _ & _ & _ & Hrun & _).
  apply (Hrun [with_sensorIn LOW (idle 2200); idle 2500]).
  - closed.
  - repeat (constructor; [ closed | ]). constructor.
Defined.

(** C8, as stated, fails when the clock wraps while the buzzer sounds: it
    is triggered 100 ms before the wrap; [updateTimers] puts its start back
    to 0 at the wrap; at the reading 450, which is 550 ms after the
    trigger, it is still on although [buzz] has not been called again. *)
Lemma buzzer_outlasts_duration_across_clock_wrap :
  let s := run [with_sensorIn LOW (idle 4294966000); idle 4294967196]
             power_on in
  let s' := run [idle 50; idle 450] s in
  buzzerIsActive s = true
  /\ buzzerTimestamp s = 4294967196
  /\ usub (currentMillis s') (buzzerTimestamp s) = 550
  /\ BUZZER_DURATION_MS < usub (currentMillis s') (buzzerTimestamp s)
  /\ buzzerIsActive s' = true
  /\ ncalls Call_buzz s' = ncalls Call_buzz s.
Proof. closed. Qed.

(** * Reachable states

    The hypotheses on timestamps that the theorems above make hold in every
    state the device can reach. *)

Lemma stamped_trans (g : state -> Z) (a b c : state) :
  stamped g a b -> stamped g b c -> stamped g a c.
Proof.
  intros [H1 H2] [H3 H4]. split; [ congruence | ].
  destruct H4 as [H4 | H4]; [ rewrite H4; exact H2 | right; congruence ].
Qed.

Ltac stamp_cases :=
  unfold stamped; by_cases;
  (split; [ reflexivity | first [ left; reflexivity | right; reflexivity ] ]).

Lemma checkBuzzer_stamps (s : state) :
  stamped buzzerTimestamp s (checkBuzzer s)
  /\ stamped buttonResetTimestamp s (checkBuzzer s).
Proof. split; stamp_cases. Qed.

Lemma checkSensorIn_stamps (s : state) :
  stamped buzzerTimestamp s (checkSensorIn s)
  /\ stamped buttonResetTimestamp s (checkSensorIn s).
Proof. split; stamp_cases. Qed.

Lemma checkSensorOut_stamps (s : state) :
  stamped buzzerTimestamp s (checkSensorOut s)
  /\ stamped buttonResetTimestamp s (checkSensorOut s).
Proof. split; stamp_cases. Qed.

Lemma checkButtons_stamps (s : state) :
  stamped buzzerTimestamp s (checkButtons s)
  /\ stamped buttonResetTimestamp s (checkButtons s).
Proof. split; stamp_cases. Qed.

Lemma updateDisplay_stamps (s : state) :
  stamped buzzerTimestamp s (updateDisplay s)
  /\ stamped buttonResetTimestamp s (updateDisplay s).
Proof. split; stamp_cases. Qed.

Lemma tasks_stamps (s : state) :
  stamped buzzerTimestamp s (tasks s)
  /\ stamped buttonResetTimestamp s (tasks s).
Proof.
  unfold tasks. split.
  - eapply stamped_trans; [ | apply updateDisplay_stamps ].
    eapply stamped_trans; [ | apply checkButtons_stamps ].
    eapply stamped_trans; [ | apply checkSensorOut_stamps ].
    eapply stamped_trans; [ apply checkBuzzer_stamps | ].
    apply checkSensorIn_stamps.
  - eapply stamped_trans; [ | apply updateDisplay_stamps ].
    eapply stamped_trans; [ | apply checkButtons_stamps ].
    eapply stamped_trans; [ | apply checkSensorOut_stamps ].
    eapply stamped_trans; [ apply checkBuzzer_stamps | ].
    apply checkSensorIn_stamps.
Qed.

Lemma commit_stamps (s : state) :
  buzzerTimestamp (commit s) = buzzerTimestamp s
  /\ buttonResetTimestamp (commit s) = buttonResetTimestamp s
  /\ buttonResetBlocked (commit s) = buttonResetBlocked s
  /\ buttonResetWasPressed (commit s) = buttonResetNowPressed s.
Proof. repeat split; reflexivity. Qed.

Lemma timers_stamps (i : inputs) (s : state) :
  let x := updateTimers (millis i) (sample i s) in
  currentMillis x = millis i
  /\ buzzerTimestamp x
     = (if millis i <? previousMillis s then 0 else buzzerTimestamp s)
  /\ buttonResetTimestamp x
     = (if millis i <? previousMillis s then 0 else buttonResetTimestamp s).
Proof.
  unfold updateTimers, sample. cbn.
  destruct (millis i <? previousMillis s); repeat split; reflexivity.
Qed.

Lemma loop_stamps (i : inputs) (s : state) :
  (buzzerTimestamp (loop i s)
   = (if millis i <? previousMillis s then 0 else buzzerTimestamp s)
   \/ buzzerTimestamp (loop i s) = millis i)
  /\ (buttonResetTimestamp (loop i s)
      = (if millis i <? previousMillis s then 0 else buttonResetTimestamp s)
      \/ buttonResetTimestamp (loop i s) = millis i).
Proof.
  rewrite loop_stages.
  rewrite (proj1 (commit_stamps _)), (proj1 (proj2 (commit_stamps _))).
  destruct (timers_stamps i s) as (Ec & Eb & Er).
  remember (updateTimers (millis i) (sample i s)) as x eqn:Ex. clear Ex.
  destruct (tasks_stamps x) as [[_ Hb] [_ Hr]].
  rewrite <- Eb, <- Er, <- Ec. split; assumption.
Qed.

Lemma loop_lockout (i : inputs) (s : state) :
  buttonResetWasPressed (loop i s) = false ->
  buttonResetBlocked (loop i s) = false.
Proof.
  intros Hw. destruct (readButtonReset i) eqn:Er.
  - exfalso. revert Hw. rewrite loop_stages.
    rewrite (proj2 (proj2 (proj2 (commit_stamps _)))).
    unfold tasks.
    rewrite (proj1 (reset_buttons _)), updateDisplay_reset,
      <- (proj1 (reset_buttons _)), checkButtons_pressed,
      (proj1 (reset_buttons _)), checkSensorOut_reset, checkSensorIn_reset,
      checkBuzzer_reset, timers_reset.
    cbn [r_pressed]. rewrite Er. discriminate.
  - destruct (loop_released i s Er) as [Hb _]. exact Hb.
Qed.

Lemma setup_timers_ok (boot : Z) :
  in_range boot -> timers_ok (setup (globals boot)).
Proof.
  intros [H0 H1]. unfold timers_ok, in_range. cbn.
  repeat split; try lia; try reflexivity.
Qed.

Lemma loop_timers_ok (i : inputs) (s : state) :
  timers_ok s -> in_range (millis i) -> timers_ok (loop i s).
Proof.
  intros (Hp & Hs & Hk & Hb & Hr & _) Hi. unfold in_range in *.
  assert (Ep : previousMillis (loop i s) = millis i).
  { rewrite (proj1 (entrance_fields _)), loop_entrance.
    unfold latch, enter. destruct (accepts _); reflexivity. }
  unfold timers_ok, in_range. rewrite Ep.
  split; [ exact Hi | ].
  split.
  { rewrite (proj1 (proj2 (entrance_fields _))), loop_entrance.
    unfold latch, enter.
    destruct (accepts _); cbn [e_last e_now];
      destruct (Z.ltb_spec (millis i) (previousMillis s)); lia. }
  split.
  { rewrite (proj1 (proj2 (hold_fields _))).
    destruct (loop_hold i s) as [allow E]. rewrite E, timers_hold.
    unfold relight, restart_hold.
    destruct (accepts _); cbn [h_keep h_now];
      repeat match goal with
             | |- context [if ?b then _ else _] => destruct b eqn:?
             end;
      try lia;
      destruct (Z.ltb_spec (millis i) (previousMillis s)); lia. }
  destruct (loop_stamps i s) as [Hbz Hrs].
  split; [ | split ].
  - destruct Hbz as [E | E]; rewrite E;
      [ destruct (Z.ltb_spec (millis i) (previousMillis s)) | ]; lia.
  - destruct Hrs as [E | E]; rewrite E;
      [ destruct (Z.ltb_spec (millis i) (previousMillis s)) | ]; lia.
  - apply loop_lockout.
Qed.

Lemma reachable_timers_ok (s : state) : reachable s -> timers_ok s.
Proof.
  induction 1 as [ boot Hboot | i s Hs IH Hi ].
  - apply setup_timers_ok. exact Hboot.
  - apply loop_timers_ok; assumption.
Qed.

(** * The display refresher *)

Lemma updateDisplay_display (s : state) :
  let forced := usub (currentMillis s) (displayTimestamp s) >? 60000 in
  let render := forced || negb (displayUpdated s) in
  ncalls Call_initializeDisplay (updateDisplay s)
  = (ncalls Call_initializeDisplay s + (if forced then 1 else 0))%nat
  /\ ncalls Call_setDisplayText (updateDisplay s)
     = (ncalls Call_setDisplayText s + (if render then 1 else 0))%nat
  /\ displayTimestamp (updateDisplay s)
     = (if render then currentMillis s else displayTimestamp s)
  /\ displayUpdated (updateDisplay s) = true.
Proof.
  cbv zeta.
  destruct (usub (currentMillis s) (displayTimestamp s) >? 60000) eqn:Ef;
    destruct (displayUpdated s) eqn:Ed; cbn [orb negb];
    repeat split; unfold_sketch;
    repeat (cbn; rewrite ?Ef, ?Ed; cbn;
            match goal with
            | |- context [if ?b then _ else _] => destruct b eqn:?
            end);
    cbn; rewrite ?Ef, ?Ed; try reflexivity; try lia;
    try (cbn in *; congruence).
Qed.

(** C9.  [updateDisplay] calls [setDisplayText] exactly when the display is
    marked stale or the reinitialisation is due, and calls
    [initializeDisplay] exactly when more than 60000 ms have passed since
    [displayTimestamp]; but every rendering restarts that timer, so the
    reinitialisation is not periodic: with a visitor every 30 s the display
    is rendered again and again during 150 s and never reinitialised. *)
Theorem display_reinit_postponed_by_renders :
  (forall s,
     let due := usub (currentMillis s) (displayTimestamp s) >? 60000 in
     let render := due || negb (displayUpdated s) in
     ncalls Call_initializeDisplay (updateDisplay s)
     = (ncalls Call_initializeDisplay s + (if due then 1 else 0))%nat
     /\ ncalls Call_setDisplayText (updateDisplay s)
        = (ncalls Call_setDisplayText s + (if render then 1 else 0))%nat
     /\ displayTimestamp (updateDisplay s)
        = (if render then currentMillis s else displayTimestamp s)
     /\ displayUpdated (updateDisplay s) = true)
  /\ (let ins := visitor_enters 30000 ++ visitor_enters 60000
                 ++ visitor_enters 90000 ++ visitor_enters 120000
                 ++ visitor_enters 150000 in
      clock_ok (previousMillis power_on) ins
      /\ last_reading 0 ins = 150000
      /\ ncalls Call_initializeDisplay (run ins power_on)
         = ncalls Call_initializeDisplay power_on
      /\ ncalls Call_setDisplayText (run ins power_on)
         = (ncalls Call_setDisplayText power_on + 6)%nat).
Proof.
  split; [ intros s; apply updateDisplay_display | closed ].
Qed.

(** * Further properties of the sketch *)

(** * The exit debouncer *)

Lemma exit_fields (s : state) :
  previousMillis s = x_prev (exit_of s)
  /\ sensorOutTimestamp s = x_last (exit_of s)
  /\ sensorOutWasActive s = x_was (exit_of s)
  /\ ncalls Call_handleVisitorLeft s = x_count (exit_of s).
Proof. repeat split; reflexivity. Qed.

Lemma checkSensorOut_cases (s : state) :
  checkSensorOut s =
  if accepts_exit (exit_of s)
  then set_sensorOutTimestamp (currentMillis s) (handleVisitorLeft s)
  else s.
Proof.
  unfold checkSensorOut, accepts_exit, exit_of. cbn.
  destruct (sensorOutWasActive s && negb (sensorOutNowActive s)); cbn;
    [ | reflexivity ].
  destruct (usub (currentMillis s) (sensorOutTimestamp s) >? SENSOR_DELAY_MS);
    [ | reflexivity ].
  cbv zeta. f_equal. by_cases.
Qed.

Lemma checkBuzzer_exit (s : state) : exit_of (checkBuzzer s) = exit_of s.
Proof. unfold exit_of. f_equal; by_cases. Qed.

Lemma checkSensorIn_exit (s : state) : exit_of (checkSensorIn s) = exit_of s.
Proof. unfold exit_of. f_equal; by_cases. Qed.

Lemma checkButtons_exit (s : state) : exit_of (checkButtons s) = exit_of s.
Proof. unfold exit_of. f_equal; by_cases. Qed.

Lemma updateDisplay_exit (s : state) : exit_of (updateDisplay s) = exit_of s.
Proof. unfold exit_of. f_equal; by_cases. Qed.

Lemma checkSensorOut_exit (s : state) :
  exit_of (checkSensorOut s) = leave (exit_of s).
Proof.
  rewrite checkSensorOut_cases. unfold leave.
  destruct (accepts_exit (exit_of s)); [ | reflexivity ].
  unfold exit_of. cbn. f_equal; by_cases.
Qed.

Lemma tasks_exit (s : state) : exit_of (tasks s) = leave (exit_of s).
Proof.
  unfold tasks.
  rewrite updateDisplay_exit, checkButtons_exit, checkSensorOut_exit,
    checkSensorIn_exit, checkBuzzer_exit.
  reflexivity.
Qed.

Lemma timers_exit (i : inputs) (s : state) :
  exit_of (updateTimers (millis i) (sample i s)) =
  mkExitv (millis i) (millis i)
    (if millis i <? previousMillis s then 0 else sensorOutTimestamp s)
    (sensorOutWasActive s) (level_eqb (readSensorOut i) LOW)
    (ncalls Call_handleVisitorLeft s).
Proof.
  unfold exit_of, updateTimers, sample, ncalls.
  f_equal; cbn; destruct (millis i <? previousMillis s); reflexivity.
Qed.

Lemma commit_exit (s : state) : exit_of (commit s) = latch_exit (exit_of s).
Proof.
  unfold exit_of, latch_exit, commit, ncalls. f_equal; cbn; reflexivity.
Qed.

Lemma loop_exit (i : inputs) (s : state) :
  exit_of (loop i s) =
  latch_exit
    (leave (mkExitv (millis i) (millis i)
              (if millis i <? previousMillis s then 0
               else sensorOutTimestamp s)
              (sensorOutWasActive s) (level_eqb (readSensorOut i) LOW)
              (ncalls Call_handleVisitorLeft s))).
Proof.
  rewrite loop_stages, commit_exit, tasks_exit, timers_exit. reflexivity.
Qed.

Lemma loop_exit_nowrap (i : inputs) (s : state) :
  0 <= sensorOutTimestamp s <= previousMillis s ->
  previousMillis s <= millis i < ULONG_MODULUS ->
  let g := sensorOutWasActive s && negb (level_eqb (readSensorOut i) LOW)
           && (millis i - sensorOutTimestamp s >? SENSOR_DELAY_MS) in
  previousMillis (loop i s) = millis i
  /\ sensorOutTimestamp (loop i s)
     = (if g then millis i else sensorOutTimestamp s)
  /\ sensorOutWasActive (loop i s) = level_eqb (readSensorOut i) LOW
  /\ ncalls Call_handleVisitorLeft (loop i s)
     = (if g then S (ncalls Call_handleVisitorLeft s)
        else ncalls Call_handleVisitorLeft s).
Proof.
  intros Hts Hi g.
  destruct (exit_fields (loop i s)) as (Ep & El & Ew & Ec).
  rewrite Ep, El, Ew, Ec, loop_exit.
  destruct (Z.ltb_spec (millis i) (previousMillis s)) as [Hw | _];
    [ lia | ].
  unfold leave, accepts_exit. cbn [x_was x_active x_now x_last].
  rewrite usub_exact by lia. fold g.
  destruct g; repeat split; reflexivity.
Qed.

(** X1.  As long as the clock does not wrap, the number of calls of
    [handleVisitorLeft] over a sequence of samples is the number of falling
    edges of the exit sensor that come more than [SENSOR_DELAY_MS] after
    the last counted one; a falling edge at most 1000 ms after it is
    dropped and leaves the timestamp alone. *)
Theorem exit_edges_debounced (s : state) :
  0 <= sensorOutTimestamp s <= previousMillis s ->
  (forall ins,
     clock_ok (previousMillis s) ins ->
     ncalls Call_handleVisitorLeft (run ins s)
     = (ncalls Call_handleVisitorLeft s
        + accepted_exits (sensorOutTimestamp s) (sensorOutWasActive s) ins)%nat)
  /\ (forall i,
        previousMillis s <= millis i < ULONG_MODULUS ->
        sensorOutWasActive s = true ->
        readSensorOut i = HIGH ->
        millis i - sensorOutTimestamp s <= SENSOR_DELAY_MS ->
        ncalls Call_handleVisitorLeft (loop i s)
        = ncalls Call_handleVisitorLeft s
        /\ sensorOutTimestamp (loop i s) = sensorOutTimestamp s).
Proof.
  intros Hts. split.
  - intros ins. revert s Hts.
    induction ins as [ | i rest IH ]; intros s Hts Hclock.
    + cbn [run accepted_exits]. lia.
    + cbn [run accepted_exits]. destruct Hclock as [Hi Hrest].
      destruct (loop_exit_nowrap i s Hts Hi) as (Ep & El & Ew & Ec).
      rewrite IH; rewrite ?Ep, ?El, ?Ew, ?Ec; try assumption;
        destruct (sensorOutWasActive s
                  && negb (level_eqb (readSensorOut i) LOW)
                  && (millis i - sensorOutTimestamp s >? SENSOR_DELAY_MS));
        lia.
  - intros i Hi Hwas Hout Hd.
    destruct (loop_exit_nowrap i s Hts Hi) as (_ & El & _ & Ec).
    rewrite Hwas, Hout in El, Ec. cbn [level_eqb negb andb] in El, Ec.
    destruct (Z.gtb_spec (millis i - sensorOutTimestamp s) SENSOR_DELAY_MS);
      [ lia | split; assumption ].
Qed.

Lemma exit_edges_debounced_witness :
  0 <= sensorOutTimestamp power_on <= previousMillis power_on
  /\ ncalls Call_handleVisitorLeft
       (run (visitor_leaves 2000 ++ visitor_leaves 2800
             ++ visitor_leaves 3500) power_on)
     = 2%nat.
Proof.
  assert (H : 0 <= sensorOutTimestamp power_on <= previousMillis power_on)
    by closed.
  split; [ exact H | ].
  destruct (exit_edges_debounced power_on H) as [Hrun _].
  rewrite Hrun; [ reflexivity | closed ].
Defined.

(** * The counters through one iteration *)

Lemma checkBuzzer_counts (s : state) :
  visitorCount (checkBuzzer s) = visitorCount s
  /\ maxVisitorCount (checkBuzzer s) = maxVisitorCount s.
Proof. split; by_cases. Qed.

Lemma updateDisplay_counts (s : state) :
  visitorCount (updateDisplay s) = visitorCount s
  /\ maxVisitorCount (updateDisplay s) = maxVisitorCount s.
Proof. split; by_cases. Qed.

Lemma commit_counts (s : state) :
  visitorCount (commit s) = visitorCount s
  /\ maxVisitorCount (commit s) = maxVisitorCount s.
Proof. split; reflexivity. Qed.

Lemma timers_counts (i : inputs) (s : state) :
  visitorCount (updateTimers (millis i) (sample i s)) = visitorCount s
  /\ maxVisitorCount (updateTimers (millis i) (sample i s))
     = maxVisitorCount s.
Proof.
  unfold updateTimers, sample. cbn.
  destruct (millis i <? previousMillis s); split; reflexivity.
Qed.

Lemma checkSensorIn_counts (s : state) :
  visitorCount (checkSensorIn s)
  = (if accepts (entrance_of s) then uincr (visitorCount s)
     else visitorCount s)
  /\ maxVisitorCount (checkSensorIn s) = maxVisitorCount s.
Proof.
  rewrite checkSensorIn_cases.
  destruct (accepts (entrance_of s)); [ | split; reflexivity ].
  split; by_cases.
Qed.

Lemma checkSensorOut_counts (s : state) :
  visitorCount (checkSensorOut s)
  = (if accepts_exit (exit_of s)
     then if visitorCount s >? 0 then udecr (visitorCount s)
          else visitorCount s
     else visitorCount s)
  /\ maxVisitorCount (checkSensorOut s) = maxVisitorCount s.
Proof.
  rewrite checkSensorOut_cases.
  destruct (accepts_exit (exit_of s)); [ | split; reflexivity ].
  split; [ | by_cases ].
  rewrite <- handleVisitorLeft_visitorCount. reflexivity.
Qed.

Lemma checkButtons_idle (s : state) :
  buttonResetNowPressed s = false ->
  buttonUpNowPressed s = false ->
  buttonDownNowPressed s = false ->
  visitorCount (checkButtons s) = visitorCount s
  /\ maxVisitorCount (checkButtons s) = maxVisitorCount s
  /\ calls (checkButtons s) = calls s.
Proof.
  intros Hr Hu Hd. rewrite checkButtons_calls, checkButtons_cases.
  cbv zeta. unfold longPressed, upPressed, downPressed.
  destruct (unblockReset_frame s) as (En & _ & _ & _ & _ & Ev & Em & _).
  rewrite En, Hr, Hu, Hd, !andb_false_r. cbn [andb].
  repeat split; assumption.
Qed.

Lemma entry_edge_accepted_eq (i : inputs) (s : state) :
  accepts (entrance_of (updateTimers (millis i) (sample i s)))
  = entry_edge_accepted i s.
Proof. rewrite timers_entrance. reflexivity. Qed.

Lemma exit_edge_accepted_eq (i : inputs) (s : state) :
  accepts_exit (exit_of (updateTimers (millis i) (sample i s)))
  = exit_edge_accepted i s.
Proof. rewrite timers_exit. reflexivity. Qed.

Lemma loop_counts_idle (i : inputs) (s : state) :
  buttons_released i ->
  visitorCount (loop i s)
  = (let v1 := if entry_edge_accepted i s then uincr (visitorCount s)
               else visitorCount s in
     if exit_edge_accepted i s
     then if v1 >? 0 then udecr v1 else v1
     else v1)
  /\ maxVisitorCount (loop i s) = maxVisitorCount s.
Proof.
  intros (Hr & Hu & Hd).
  rewrite loop_stages.
  rewrite (proj1 (commit_counts _)), (proj2 (commit_counts _)).
  rewrite <- entry_edge_accepted_eq, <- exit_edge_accepted_eq.
  rewrite <- (proj1 (timers_counts i s)), <- (proj2 (timers_counts i s)).
  assert (Hflags : reset_of (updateTimers (millis i) (sample i s))
                   = mkResetv (millis i) (millis i)
                       (if millis i <? previousMillis s then 0
                        else buttonResetTimestamp s)
                       (buttonResetBlocked s) (buttonResetWasPressed s)
                       false false false (ncalls Call_handleReset s)).
  { rewrite timers_reset, Hr, Hu, Hd. reflexivity. }
  remember (updateTimers (millis i) (sample i s)) as x eqn:Ex. clear Ex.
  unfold tasks.
  rewrite (proj1 (updateDisplay_counts _)), (proj2 (updateDisplay_counts _)).
  remember (checkSensorOut (checkSensorIn (checkBuzzer x))) as y eqn:Ey.
  assert (Hy : reset_of y = reset_of x).
  { rewrite Ey, checkSensorOut_reset, checkSensorIn_reset, checkBuzzer_reset.
    reflexivity. }
  destruct (checkButtons_idle y) as (Ev & Em & _).
  { rewrite (proj1 (reset_buttons y)), Hy, Hflags. reflexivity. }
  { rewrite (proj1 (proj2 (reset_buttons y))), Hy, Hflags. reflexivity. }
  { rewrite (proj2 (proj2 (reset_buttons y))), Hy, Hflags. reflexivity. }
  rewrite Ev, Em, Ey.
  rewrite (proj1 (checkSensorOut_counts _)), (proj2 (checkSensorOut_counts _)).
  rewrite checkSensorIn_exit, checkBuzzer_exit.
  rewrite (proj1 (checkSensorIn_counts _)), (proj2 (checkSensorIn_counts _)).
  rewrite checkBuzzer_entrance.
  rewrite (proj1 (checkBuzzer_counts _)), (proj2 (checkBuzzer_counts _)).
  split; reflexivity.
Qed.

(** X2.  On an iteration with no button down the two sensors are the only
    source of change of the counters, each judged on its own timestamp:
    [visitorCount] goes up by one if the entrance edge is accepted and
    then down by one, if positive, when the exit edge is accepted;
    [maxVisitorCount] stays as it is; the handlers are called once per
    accepted edge.  When both edges are accepted on the same iteration
    both handlers run and the count ends where it started. *)
Theorem counter_follows_sensor_events (i : inputs) (s : state) :
  buttons_released i ->
  visitorCount (loop i s)
  = (let v1 := if entry_edge_accepted i s then uincr (visitorCount s)
               else visitorCount s in
     if exit_edge_accepted i s
     then if v1 >? 0 then udecr v1 else v1
     else v1)
  /\ maxVisitorCount (loop i s) = maxVisitorCount s
  /\ ncalls Call_handleVisitorEntered (loop i s)
     = (ncalls Call_handleVisitorEntered s
        + (if entry_edge_accepted i s then 1 else 0))%nat
  /\ ncalls Call_handleVisitorLeft (loop i s)
     = (ncalls Call_handleVisitorLeft s
        + (if exit_edge_accepted i s then 1 else 0))%nat
  /\ (entry_edge_accepted i s = true ->
      exit_edge_accepted i s = true ->
      0 <= visitorCount s ->
      visitorCount s + 1 < ULONG_MODULUS ->
      visitorCount (loop i s) = visitorCount s).
Proof.
  intros Hb.
  destruct (loop_counts_idle i s Hb) as [Ev Em].
  assert (Hin : ncalls Call_handleVisitorEntered (loop i s)
                = (ncalls Call_handleVisitorEntered s
                   + (if entry_edge_accepted i s then 1 else 0))%nat).
  { rewrite (proj2 (proj2 (proj2 (entrance_fields _)))), loop_entrance.
    unfold latch, enter, entry_edge_accepted, accepts.
    cbn [e_was e_active e_now e_last].
    destruct (_ && _ && _); cbn [e_count]; lia. }
  assert (Hout : ncalls Call_handleVisitorLeft (loop i s)
                 = (ncalls Call_handleVisitorLeft s
                    + (if exit_edge_accepted i s then 1 else 0))%nat).
  { rewrite (proj2 (proj2 (proj2 (exit_fields _)))), loop_exit.
    unfold latch_exit, leave, exit_edge_accepted, accepts_exit.
    cbn [x_was x_active x_now x_last].
    destruct (_ && _ && _); cbn [x_count]; lia. }
  repeat (split; [ assumption | ]).
  intros E1 E2 H0 H1. rewrite Ev, E1, E2. cbv zeta.
  rewrite uincr_exact by lia.
  destruct (Z.gtb_spec (visitorCount s + 1) 0); [ | lia ].
  rewrite udecr_exact by (unfold ULONG_MODULUS in *; lia). lia.
Qed.

Lemma counter_follows_sensor_events_witness :
  let s := loop (with_sensorOut LOW (with_sensorIn LOW (idle 1400)))
             (set_visitorCount 3 power_on) in
  entry_edge_accepted (idle 1500) s = true
  /\ exit_edge_accepted (idle 1500) s = true
  /\ visitorCount (loop (idle 1500) s) = 3
  /\ ncalls Call_handleVisitorEntered (loop (idle 1500) s)
     = S (ncalls Call_handleVisitorEntered s)
  /\ ncalls Call_handleVisitorLeft (loop (idle 1500) s)
     = S (ncalls Call_handleVisitorLeft s).
Proof.
  intros s.
  assert (Hb : buttons_released (idle 1500)) by (repeat split).
  destruct (counter_follows_sensor_events (idle 1500) s Hb)
    as (_ & _ & Hin & Hout & Hboth).
  split; [ reflexivity | ]. split; [ reflexivity | ].
  split; [ | split ].
  - rewrite Hboth; [ reflexivity | reflexivity | reflexivity
                   | discriminate | reflexivity ].
  - rewrite Hin. reflexivity.
  - rewrite Hout. reflexivity.
Defined.

(** * The timers as a whole *)

Lemma checkBuzzer_stamps_more (s : state) :
  stamped buttonUpTimestamp s (checkBuzzer s)
  /\ stamped buttonDownTimestamp s (checkBuzzer s)
  /\ stamped displayTimestamp s (checkBuzzer s).
Proof. split; [ | split ]; stamp_cases. Qed.

Lemma checkSensorIn_stamps_more (s : state) :
  stamped buttonUpTimestamp s (checkSensorIn s)
  /\ stamped buttonDownTimestamp s (checkSensorIn s)
  /\ stamped displayTimestamp s (checkSensorIn s).
Proof. split; [ | split ]; stamp_cases. Qed.

Lemma checkSensorOut_stamps_more (s : state) :
  stamped buttonUpTimestamp s (checkSensorOut s)
  /\ stamped buttonDownTimestamp s (checkSensorOut s)
  /\ stamped displayTimestamp s (checkSensorOut s).
Proof. split; [ | split ]; stamp_cases. Qed.

Lemma checkButtons_stamps_more (s : state) :
  stamped buttonUpTimestamp s (checkButtons s)
  /\ stamped buttonDownTimestamp s (checkButtons s)
  /\ stamped displayTimestamp s (checkButtons s).
Proof. split; [ | split ]; stamp_cases. Qed.

Lemma updateDisplay_stamps_more (s : state) :
  stamped buttonUpTimestamp s (updateDisplay s)
  /\ stamped buttonDownTimestamp s (updateDisplay s)
  /\ stamped displayTimestamp s (updateDisplay s).
Proof. split; [ | split ]; stamp_cases. Qed.

Lemma tasks_stamped (g : state -> Z) (s : state) :
  (forall x, stamped g x (checkBuzzer x)) ->
  (forall x, stamped g x (checkSensorIn x)) ->
  (forall x, stamped g x (checkSensorOut x)) ->
  (forall x, stamped g x (checkButtons x)) ->
  (forall x, stamped g x (updateDisplay x)) ->
  stamped g s (tasks s).
Proof.
  intros H1 H2 H3 H4 H5. unfold tasks.
  eapply stamped_trans; [ | apply H5 ].
  eapply stamped_trans; [ | apply H4 ].
  eapply stamped_trans; [ | apply H3 ].
  eapply stamped_trans; [ apply H1 | apply H2 ].
Qed.

Lemma tasks_stamps_more (s : state) :
  stamped buttonUpTimestamp s (tasks s)
  /\ stamped buttonDownTimestamp s (tasks s)
  /\ stamped displayTimestamp s (tasks s).
Proof.
  split; [ | split ]; apply tasks_stamped; intros x.
  - apply checkBuzzer_stamps_more.
  - apply checkSensorIn_stamps_more.
  - apply checkSensorOut_stamps_more.
  - apply checkButtons_stamps_more.
  - apply updateDisplay_stamps_more.
  - apply checkBuzzer_stamps_more.
  - apply checkSensorIn_stamps_more.
  - apply checkSensorOut_stamps_more.
  - apply checkButtons_stamps_more.
  - apply updateDisplay_stamps_more.
  - apply checkBuzzer_stamps_more.
  - apply checkSensorIn_stamps_more.
  - apply checkSensorOut_stamps_more.
  - apply checkButtons_stamps_more.
  - apply updateDisplay_stamps_more.
Qed.

Lemma commit_stamps_more (s : state) :
  currentMillis (commit s) = currentMillis s
  /\ buttonUpTimestamp (commit s) = buttonUpTimestamp s
  /\ buttonDownTimestamp (commit s) = buttonDownTimestamp s
  /\ displayTimestamp (commit s) = displayTimestamp s.
Proof. repeat split; reflexivity. Qed.

(** [updateTimers] on the nine clock fields. *)
Lemma updateTimers_fields (now : Z) (s : state) :
  let x := updateTimers now s in
  let keep (t : Z) := if now <? previousMillis s then 0 else t in
  currentMillis x = now
  /\ previousMillis x = now
  /\ buttonResetTimestamp x = keep (buttonResetTimestamp s)
  /\ buttonUpTimestamp x = keep (buttonUpTimestamp s)
  /\ buttonDownTimestamp x = keep (buttonDownTimestamp s)
  /\ sensorInTimestamp x = keep (sensorInTimestamp s)
  /\ sensorOutTimestamp x = keep (sensorOutTimestamp s)
  /\ buzzerTimestamp x = keep (buzzerTimestamp s)
  /\ displayTimestamp x = keep (displayTimestamp s)
  /\ keepRedTimestamp x = keep (keepRedTimestamp s).
Proof.
  unfold updateTimers. cbn.
  destruct (now <? previousMillis s); repeat split; reflexivity.
Qed.

Lemma sample_fields (i : inputs) (s : state) :
  previousMillis (sample i s) = previousMillis s
  /\ buttonResetTimestamp (sample i s) = buttonResetTimestamp s
  /\ buttonUpTimestamp (sample i s) = buttonUpTimestamp s
  /\ buttonDownTimestamp (sample i s) = buttonDownTimestamp s
  /\ sensorInTimestamp (sample i s) = sensorInTimestamp s
  /\ sensorOutTimestamp (sample i s) = sensorOutTimestamp s
  /\ buzzerTimestamp (sample i s) = buzzerTimestamp s
  /\ displayTimestamp (sample i s) = displayTimestamp s
  /\ keepRedTimestamp (sample i s) = keepRedTimestamp s.
Proof. repeat split; reflexivity. Qed.

Lemma loop_stamps_more (i : inputs) (s : state) :
  let keep (t : Z) := if millis i <? previousMillis s then 0 else t in
  currentMillis (loop i s) = millis i
  /\ (buttonUpTimestamp (loop i s) = keep (buttonUpTimestamp s)
      \/ buttonUpTimestamp (loop i s) = millis i)
  /\ (buttonDownTimestamp (loop i s) = keep (buttonDownTimestamp s)
      \/ buttonDownTimestamp (loop i s) = millis i)
  /\ (displayTimestamp (loop i s) = keep (displayTimestamp s)
      \/ displayTimestamp (loop i s) = millis i).
Proof.
  cbv beta zeta. rewrite loop_stages.
  destruct (commit_stamps_more
              (tasks (updateTimers (millis i) (sample i s))))
    as (Ec & Eu & Ed & Edp).
  rewrite Ec, Eu, Ed, Edp.
  destruct (updateTimers_fields (millis i) (sample i s))
    as (Hc & _ & _ & Hu & Hd & _ & _ & _ & Hdp & _).
  cbv beta zeta in Hu, Hd, Hdp.
  destruct (sample_fields i s) as (Sp & _ & Su & Sd & _ & _ & _ & Sdp & _).
  rewrite Sp, Su in Hu. rewrite Sp, Sd in Hd. rewrite Sp, Sdp in Hdp.
  remember (updateTimers (millis i) (sample i s)) as x eqn:Ex. clear Ex.
  destruct (tasks_stamps_more x) as ([Tc Tu] & [_ Td] & [_ Tdp]).
  rewrite <- Hu, <- Hd, <- Hdp, <- Hc. repeat split; assumption.
Qed.

Lemma setup_all_timers_ok (boot : Z) :
  in_range boot -> all_timers_ok (setup (globals boot)).
Proof.
  intros [H0 H1]. unfold all_timers_ok, in_range. cbn.
  repeat split; try lia; try reflexivity.
Qed.

Lemma loop_all_timers_ok (i : inputs) (s : state) :
  all_timers_ok s -> in_range (millis i) -> all_timers_ok (loop i s).
Proof.
  intros (Hp & Hcur & Hr & Hu & Hd & Hsi & Hso & Hb & Hdp & Hk) Hi.
  unfold in_range in *.
  assert (Ep : previousMillis (loop i s) = millis i).
  { rewrite (proj1 (entrance_fields _)), loop_entrance.
    unfold latch, enter. destruct (accepts _); reflexivity. }
  destruct (loop_stamps_more i s) as (Ec & Tu & Td & Tdp).
  destruct (loop_stamps i s) as [Tb Tr].
  cbv beta zeta in Tu, Td, Tdp.
  unfold all_timers_ok, in_range. rewrite Ep.
  split; [ exact Hi | ].
  split; [ exact Ec | ].
  split.
  { destruct Tr as [E | E]; rewrite E;
      [ destruct (Z.ltb_spec (millis i) (previousMillis s)) | ]; lia. }
  split.
  { destruct Tu as [E | E]; rewrite E;
      [ destruct (Z.ltb_spec (millis i) (previousMillis s)) | ]; lia. }
  split.
  { destruct Td as [E | E]; rewrite E;
      [ destruct (Z.ltb_spec (millis i) (previousMillis s)) | ]; lia. }
  split.
  { rewrite (proj1 (proj2 (entrance_fields _))), loop_entrance.
    unfold latch, enter.
    destruct (accepts _); cbn [e_last e_now];
      destruct (Z.ltb_spec (millis i) (previousMillis s)); lia. }
  split.
  { rewrite (proj1 (proj2 (exit_fields _))), loop_exit.
    unfold latch_exit, leave.
    destruct (accepts_exit _); cbn [x_last x_now];
      destruct (Z.ltb_spec (millis i) (previousMillis s)); lia. }
  split.
  { destruct Tb as [E | E]; rewrite E;
      [ destruct (Z.ltb_spec (millis i) (previousMillis s)) | ]; lia. }
  split.
  { destruct Tdp as [E | E]; rewrite E;
      [ destruct (Z.ltb_spec (millis i) (previousMillis s)) | ]; lia. }
  rewrite (proj1 (proj2 (hold_fields _))).
  destruct (loop_hold i s) as [allow E]. rewrite E, timers_hold.
  unfold relight, restart_hold.
  destruct (accepts _); cbn [h_keep h_now];
    repeat match goal with
           | |- context [if ?b then _ else _] => destruct b eqn:?
           end;
    try lia;
    destruct (Z.ltb_spec (millis i) (previousMillis s)); lia.
Qed.

Lemma reachable_all_timers_ok (s : state) : reachable s -> all_timers_ok s.
Proof.
  induction 1 as [ boot Hboot | i s Hs IH Hi ].
  - apply setup_all_timers_ok. exact Hboot.
  - apply loop_all_timers_ok; assumption.
Qed.

(** X3.  In every reachable state the clock field equals the last reading
    and none of the eight stored timestamps lies in the future; and
    whatever the next reading is, a later one or a smaller one after the
    clock has wrapped, every timestamp is at most the clock once
    [updateTimers] has run, so that none of the eight unsigned subtractions
    of the iteration wraps around. *)
Theorem timestamps_never_in_the_future (s : state) :
  reachable s ->
  all_timers_ok s
  /\ (forall i,
        in_range (millis i) ->
        subtractions_exact (updateTimers (millis i) (sample i s))).
Proof.
  intros Hs. pose proof (reachable_all_timers_ok s Hs) as Hok.
  split; [ exact Hok | ].
  intros i Hi.
  destruct Hok as (Hp & Hcur & Hr & Hu & Hd & Hsi & Hso & Hb & Hdp & Hk).
  unfold in_range in *. unfold subtractions_exact.
  destruct (updateTimers_fields (millis i) (sample i s))
    as (Ec & _ & Er & Eu & Ed & Esi & Eso & Eb & Edp & Ek).
  cbv beta zeta in Er, Eu, Ed, Esi, Eso, Eb, Edp, Ek.
  destruct (sample_fields i s)
    as (Sp & Sr & Su & Sd & Ssi & Sso & Sb & Sdp & Sk).
  rewrite Sp, Sr in Er. rewrite Sp, Su in Eu. rewrite Sp, Sd in Ed.
  rewrite Sp, Ssi in Esi. rewrite Sp, Sso in Eso. rewrite Sp, Sb in Eb.
  rewrite Sp, Sdp in Edp. rewrite Sp, Sk in Ek.
  rewrite Ec, Er, Eu, Ed, Esi, Eso, Eb, Edp, Ek.
  destruct (Z.ltb_spec (millis i) (previousMillis s));
    repeat split; apply usub_exact; lia.
Qed.

Lemma timestamps_never_in_the_future_witness :
  reachable (run (visitor_enters 2000) power_on)
  /\ all_timers_ok (run (visitor_enters 2000) power_on).
Proof.
  assert (R : reachable (run (visitor_enters 2000) power_on)).
  { change (reachable
              (loop (idle 2000)
                 (loop (with_sensorIn LOW (idle (2000 - 100)))
                    (setup (globals 0))))).
    apply reachable_loop; [ apply reachable_loop | closed ];
      [ apply reachable_setup; closed | closed ]. }
  split; [ exact R | ].
  destruct (timestamps_never_in_the_future _ R) as [H _]. exact H.
Defined.

(** * The lights at the end of an iteration *)

Lemma relight_spec (allow : bool) (h : hold) :
  0 <= h_keep h ->
  ((h_red (relight allow h) = HIGH /\ h_green (relight allow h) = LOW)
   \/ (h_red (relight allow h) = LOW /\ h_green (relight allow h) = HIGH))
  /\ (h_green (relight allow h) = HIGH
      <-> allow = true /\ h_keep (relight allow h) = 0).
Proof.
  intros Hk. unfold relight. cbn [h_red h_green h_keep].
  destruct (Z.gtb_spec (h_keep h) 0) as [Hpos | Hnp];
    destruct (usub (h_now h) (h_keep h) >? BUTTON_ENTRANCE_MIN_MS);
    destruct allow; cbn [andb];
    (split;
     [ first [ left; split; reflexivity | right; split; reflexivity ]
     | split;
       [ intros Hg;
         first [ discriminate Hg | split; [ reflexivity | lia ] ]
       | intros [Ha Hz];
         first [ discriminate Ha | reflexivity | lia ] ] ]).
Qed.

(** X4.  At the end of every iteration exactly one of the two lights is on,
    and the green one is on precisely when [visitorCount <
    maxVisitorCount] and no hold window is pending. *)
Theorem lights_show_capacity_and_hold (i : inputs) (s : state) :
  0 <= keepRedTimestamp s ->
  0 <= millis i ->
  ((pinRedLight (loop i s) = HIGH /\ pinGreenLight (loop i s) = LOW)
   \/ (pinRedLight (loop i s) = LOW /\ pinGreenLight (loop i s) = HIGH))
  /\ (pinGreenLight (loop i s) = HIGH
      <-> visitorCount (loop i s) < maxVisitorCount (loop i s)
          /\ keepRedTimestamp (loop i s) = 0).
Proof.
  intros Hk Hi.
  destruct (hold_fields (loop i s)) as (_ & Ek & Er & Eg).
  rewrite Ek, Er, Eg, loop_stages, commit_hold.
  rewrite (proj1 (commit_counts _)), (proj2 (commit_counts _)).
  unfold tasks.
  rewrite updateDisplay_hold.
  rewrite (proj1 (updateDisplay_counts _)), (proj2 (updateDisplay_counts _)).
  remember (checkButtons
              (checkSensorOut
                 (checkSensorIn
                    (checkBuzzer (updateTimers (millis i) (sample i s))))))
    as y eqn:Ey.
  assert (Hy : 0 <= h_keep (hold_of y)).
  { rewrite Ey, checkButtons_hold, checkSensorOut_hold, checkSensorIn_hold,
      checkBuzzer_hold, timers_hold.
    destruct (accepts _); unfold restart_hold; cbn [h_keep h_now];
      [ exact Hi | ].
    destruct (millis i <? previousMillis s); lia. }
  clear Ey.
  destruct (relight_spec (visitorCount y <? maxVisitorCount y) (hold_of y) Hy)
    as [Hcompl Hgreen].
  split; [ exact Hcompl | ].
  rewrite Hgreen, Z.ltb_lt. reflexivity.
Qed.

Lemma lights_show_capacity_and_hold_witness :
  let s := run (visitor_enters 2000) power_on in
  pinGreenLight (loop (idle 3000) s) = LOW
  /\ pinGreenLight (loop (idle 4100) s) = HIGH.
Proof.
  intros s.
  assert (Hk : 0 <= keepRedTimestamp s) by closed.
  split.
  - destruct (lights_show_capacity_and_hold (idle 3000) s Hk) as [Hc Hg];
      [ closed | ].
    destruct Hc as [[_ H] | [_ H]]; [ exact H | ].
    apply Hg in H. destruct H as [_ H]. vm_compute in H. discriminate H.
  - destruct (lights_show_capacity_and_hold (idle 4100) s Hk) as [_ Hg];
      [ closed | ].
    apply Hg. closed.
Defined.

(** * The lockout under any input *)

Lemma checkButtons_locked (s : state) :
  buttonResetBlocked s = true ->
  buttonResetNowPressed s = true ->
  buttonResetBlocked (checkButtons s) = true
  /\ ncalls Call_handleReset (checkButtons s) = ncalls Call_handleReset s.
Proof.
  intros Hb Hn.
  assert (Hl : longPressed (unblockReset s) = false).
  { unfold longPressed, unblockReset. rewrite Hn. cbn [negb].
    destruct (buttonResetWasPressed s); cbn; rewrite Hb; reflexivity. }
  assert (Hub : buttonResetBlocked (unblockReset s) = true).
  { unfold unblockReset. rewrite Hn. cbn [negb].
    destruct (buttonResetWasPressed s); cbn; exact Hb. }
  split.
  - rewrite checkButtons_cases. cbv zeta. rewrite Hl, Hn.
    destruct (upPressed s); [ | destruct (downPressed s) ];
      [ | | exact Hub ].
    + unfold handleButtonUp. cbn.
      destruct (buttonResetNowPressed (unblockReset s)); reflexivity.
    + unfold handleButtonDown. cbn.
      destruct (buttonResetNowPressed (unblockReset s));
        [ destruct (visitorCount (unblockReset s) >? 0)
        | destruct (maxVisitorCount (unblockReset s) >? 0) ]; reflexivity.
  - unfold ncalls. rewrite checkButtons_calls, Hl.
    destruct (upPressed s); [ | destruct (downPressed s) ]; reflexivity.
Qed.

Lemma loop_locked (i : inputs) (s : state) :
  buttonResetBlocked s = true ->
  readButtonReset i = LOW ->
  buttonResetBlocked (loop i s) = true
  /\ ncalls Call_handleReset (loop i s) = ncalls Call_handleReset s.
Proof.
  intros Hb Hr.
  destruct (reset_fields (loop i s)) as (_ & _ & Ebl & _ & Ec).
  rewrite Ebl, Ec, loop_stages, commit_reset.
  assert (L : forall v, r_blocked (latch_reset v) = r_blocked v
                        /\ r_count (latch_reset v) = r_count v)
    by (intros v; split; reflexivity).
  rewrite (proj1 (L _)), (proj2 (L _)).
  unfold tasks. rewrite updateDisplay_reset.
  remember (checkSensorOut
              (checkSensorIn
                 (checkBuzzer (updateTimers (millis i) (sample i s)))))
    as y eqn:Ey.
  assert (Hy : reset_of y
               = reset_of (updateTimers (millis i) (sample i s))).
  { rewrite Ey, checkSensorOut_reset, checkSensorIn_reset, checkBuzzer_reset.
    reflexivity. }
  rewrite timers_reset in Hy. clear Ey.
  assert (Hyb : buttonResetBlocked y = true).
  { rewrite (proj1 (proj2 (proj2 (reset_fields y)))), Hy. exact Hb. }
  assert (Hyn : buttonResetNowPressed y = true).
  { rewrite (proj1 (reset_buttons y)), Hy. cbn [r_pressed].
    rewrite Hr. reflexivity. }
  assert (Hyc : ncalls Call_handleReset y = ncalls Call_handleReset s).
  { rewrite (proj2 (proj2 (proj2 (proj2 (reset_fields y))))), Hy.
    reflexivity. }
  destruct (checkButtons_locked y Hyb Hyn) as [E1 E2].
  rewrite <- (proj1 (proj2 (proj2 (reset_fields _)))).
  rewrite <- (proj2 (proj2 (proj2 (proj2 (reset_fields _))))).
  rewrite E1, E2, Hyc. split; reflexivity.
Qed.

(** X5.  Once the lockout flag is set it stays set for as long as every
    iteration reads the reset button down, whatever the other inputs and
    the clock do, and [handleReset] is not called; and, on an iteration
    where the long press does not fire, a firing of up or down with reset
    down sets the flag. *)
Theorem lockout_persists_while_reset_down (s : state) (ins : list inputs) :
  buttonResetBlocked s = true ->
  Forall (fun j => readButtonReset j = LOW) ins ->
  buttonResetBlocked (run ins s) = true
  /\ ncalls Call_handleReset (run ins s) = ncalls Call_handleReset s
  /\ (forall x,
        longPressed (unblockReset x) = false ->
        buttonResetNowPressed x = true ->
        upPressed x = true \/ downPressed x = true ->
        buttonResetBlocked (checkButtons x) = true).
Proof.
  intros Hb Hall.
  assert (Hrun : buttonResetBlocked (run ins s) = true
                 /\ ncalls Call_handleReset (run ins s)
                    = ncalls Call_handleReset s).
  { revert s Hb. induction Hall as [ | j rest Hj Hrest IH ]; intros s Hb.
    - split; [ exact Hb | reflexivity ].
    - cbn [run]. destruct (loop_locked j s Hb Hj) as [E1 E2].
      destruct (IH _ E1) as [E3 E4]. split; congruence. }
  destruct Hrun as [Hr1 Hr2].
  split; [ exact Hr1 | ]. split; [ exact Hr2 | ].
  intros x Hl Hn Hfire.
  destruct (upPressed x) eqn:Eu.
  - destruct (checkButtons_up x Hl Eu) as (_ & E & _). congruence.
  - destruct Hfire as [Hu | Hd]; [ discriminate Hu | ].
    destruct (checkButtons_down x Hl Eu Hd) as (_ & E & _). congruence.
Qed.

Lemma lockout_persists_while_reset_down_witness :
  let s := loop (with_up LOW (with_reset LOW (idle 1000))) power_on in
  let ins := [with_reset LOW (idle 3000); with_reset LOW (idle 7000);
              with_up LOW (with_reset LOW (idle 12000))] in
  visitorCount s = 1
  /\ ncalls Call_handleReset (run ins s) = ncalls Call_handleReset s.
Proof.
  intros s ins. split; [ reflexivity | ].
  destruct (lockout_persists_while_reset_down s ins) as (_ & H & _).
  - reflexivity.
  - repeat (constructor; [ reflexivity | ]). constructor.
  - exact H.
Defined.

(** * The buzzer pin at the end of an iteration *)

(** Case analysis from the innermost guard outwards, using a known
    flag [H]. *)
Ltac inner_guard :=
  match goal with
  | |- context [if ?b then _ else _] =>
      lazymatch b with
      | context [if _ then _ else _] => fail
      | _ => destruct b eqn:?
      end
  end.

Ltac pin_cases H :=
  unfold_sketch;
  repeat (cbn; repeat (rewrite H; cbn); inner_guard);
  cbn; repeat (rewrite H; cbn); try reflexivity;
  try (cbn in *; congruence).

Lemma checkSensorIn_pin (s : state) :
  (pinBuzzer s = HIGH -> pinBuzzer (checkSensorIn s) = HIGH)
  /\ (buzzerIsActive s = true -> pinBuzzer (checkSensorIn s) = pinBuzzer s).
Proof. split; intros H; pin_cases H. Qed.

Lemma checkSensorOut_pin (s : state) :
  (pinBuzzer s = HIGH -> pinBuzzer (checkSensorOut s) = HIGH)
  /\ (buzzerIsActive s = true -> pinBuzzer (checkSensorOut s) = pinBuzzer s).
Proof. split; intros H; pin_cases H. Qed.

Lemma checkButtons_pin (s : state) :
  (pinBuzzer s = HIGH -> pinBuzzer (checkButtons s) = HIGH)
  /\ (buzzerIsActive s = true -> pinBuzzer (checkButtons s) = pinBuzzer s).
Proof. split; intros H; pin_cases H. Qed.

Lemma updateDisplay_pin (s : state) :
  (pinBuzzer s = HIGH -> pinBuzzer (updateDisplay s) = HIGH)
  /\ (buzzerIsActive s = true -> pinBuzzer (updateDisplay s) = pinBuzzer s).
Proof. split; intros H; pin_cases H. Qed.

Lemma checkBuzzer_pin (s : state) :
  pinBuzzer (checkBuzzer s)
  = (if buzzerIsActive (checkBuzzer s) then LOW else HIGH).
Proof. by_cases. Qed.

Lemma commit_pin (s : state) : pinBuzzer (commit s) = pinBuzzer s.
Proof. reflexivity. Qed.

Lemma active_kept (f : state -> state) (s : state) :
  (forall x, buzzerIsActive x = true -> buzzer_of (f x) = buzzer_of x) ->
  buzzerIsActive s = true -> buzzerIsActive (f s) = true.
Proof.
  intros Hf Ha.
  rewrite (proj1 (proj2 (buzzer_fields (f s)))), Hf by exact Ha.
  rewrite <- (proj1 (proj2 (buzzer_fields s))). exact Ha.
Qed.

Lemma tasks_pin (s : state) :
  pinBuzzer (tasks s)
  = (if buzzerIsActive (checkBuzzer s) then LOW else HIGH).
Proof.
  unfold tasks. pose proof (checkBuzzer_pin s) as Hp.
  remember (checkBuzzer s) as x eqn:Ex. clear Ex.
  destruct (buzzerIsActive x) eqn:Ea.
  - assert (H1 : buzzerIsActive (checkSensorIn x) = true)
      by (apply (active_kept checkSensorIn);
          [ apply checkSensorIn_buzzer | exact Ea ]).
    assert (H2 : buzzerIsActive (checkSensorOut (checkSensorIn x)) = true)
      by (apply (active_kept checkSensorOut);
          [ apply checkSensorOut_buzzer | exact H1 ]).
    assert (H3 : buzzerIsActive
                   (checkButtons (checkSensorOut (checkSensorIn x))) = true)
      by (apply (active_kept checkButtons);
          [ apply checkButtons_buzzer | exact H2 ]).
    rewrite (proj2 (updateDisplay_pin _)) by exact H3.
    rewrite (proj2 (checkButtons_pin _)) by exact H2.
    rewrite (proj2 (checkSensorOut_pin _)) by exact H1.
    rewrite (proj2 (checkSensorIn_pin _)) by exact Ea.
    exact Hp.
  - apply (proj1 (updateDisplay_pin _)).
    apply (proj1 (checkButtons_pin _)).
    apply (proj1 (checkSensorOut_pin _)).
    apply (proj1 (checkSensorIn_pin _)). exact Hp.
Qed.

Lemma still_sounding_eq (i : inputs) (s : state) :
  buzzerIsActive (checkBuzzer (updateTimers (millis i) (sample i s)))
  = still_sounding i s.
Proof.
  rewrite (proj1 (proj2 (buzzer_fields _))), checkBuzzer_buzzer,
    timers_buzzer.
  unfold silence, still_sounding. cbn [b_active b_now b_start].
  destruct (buzzerIsActive s); cbn [andb]; [ | reflexivity ].
  destruct (usub _ _ >? BUZZER_DURATION_MS); reflexivity.
Qed.

(** X6.  At the end of an iteration the buzzer pin is LOW exactly when the
    buzzer was already on before the iteration and [checkBuzzer] has not
    timed it out; a buzzer switched on during the iteration ends it with
    the pin HIGH although [buzzerIsActive] is true, and reaches LOW only
    through [checkBuzzer] on a later iteration. *)
Theorem buzzer_pin_follows_checkBuzzer (i : inputs) (s : state) :
  pinBuzzer (loop i s) = (if still_sounding i s then LOW else HIGH)
  /\ (buzzerIsActive s = false -> pinBuzzer (loop i s) = HIGH)
  /\ (still_sounding i s = true -> buzzerIsActive (loop i s) = true).
Proof.
  assert (E : pinBuzzer (loop i s)
              = (if still_sounding i s then LOW else HIGH)).
  { rewrite loop_stages, commit_pin, tasks_pin, still_sounding_eq.
    reflexivity. }
  split; [ exact E | ]. split.
  - intros Ha. rewrite E. unfold still_sounding. rewrite Ha. reflexivity.
  - intros Hs. rewrite loop_stages.
    rewrite (proj1 (commit_quiet _)).
    rewrite (proj1 (proj2 (buzzer_fields _))), tasks_buzzer;
      rewrite <- checkBuzzer_buzzer, <- (proj1 (proj2 (buzzer_fields _))),
        still_sounding_eq; exact Hs.
Qed.

Lemma buzzer_pin_follows_checkBuzzer_witness :
  let s := loop (with_sensorIn LOW (idle 1900)) power_on in
  buzzerIsActive s = false
  /\ buzzerIsActive (loop (idle 2000) s) = true
  /\ pinBuzzer (loop (idle 2000) s) = HIGH
  /\ pinBuzzer (loop (idle 2100) (loop (idle 2000) s)) = LOW.
Proof.
  intros s. split; [ reflexivity | ]. split; [ reflexivity | ].
  split.
  - apply (proj1 (proj2 (buzzer_pin_follows_checkBuzzer (idle 2000) s))).
    reflexivity.
  - rewrite (proj1 (buzzer_pin_follows_checkBuzzer (idle 2100)
                      (loop (idle 2000) s))).
    reflexivity.
Defined.

(** * The display follows the counters *)

Lemma stale_or_same_refl (s : state) : stale_or_same s s.
Proof. right. repeat split; reflexivity. Qed.

Lemma stale_or_same_trans (a b c : state) :
  stale_or_same a b -> stale_or_same b c -> stale_or_same a c.
Proof.
  intros [Hb | (Hb1 & Hb2 & Hb3)] [Hc | (Hc1 & Hc2 & Hc3)].
  - left. exact Hc.
  - left. congruence.
  - left. exact Hc.
  - right. repeat split; congruence.
Qed.

Ltac stale_cases :=
  unfold stale_or_same; unfold_sketch;
  repeat (cbn; inner_guard);
  cbn;
  first [ left; reflexivity | right; repeat split; reflexivity ].

Lemma checkBuzzer_stale (s : state) : stale_or_same s (checkBuzzer s).
Proof. stale_cases. Qed.

Lemma checkSensorIn_stale (s : state) : stale_or_same s (checkSensorIn s).
Proof. stale_cases. Qed.

Lemma checkSensorOut_stale (s : state) : stale_or_same s (checkSensorOut s).
Proof. stale_cases. Qed.

Lemma checkButtons_stale (s : state) : stale_or_same s (checkButtons s).
Proof. stale_cases. Qed.

Lemma timers_stale (i : inputs) (s : state) :
  stale_or_same s (updateTimers (millis i) (sample i s)).
Proof.
  right. unfold updateTimers, sample. cbn.
  destruct (millis i <? previousMillis s); repeat split; reflexivity.
Qed.

Lemma before_display_stale (i : inputs) (s : state) :
  stale_or_same s
    (checkButtons
       (checkSensorOut
          (checkSensorIn
             (checkBuzzer (updateTimers (millis i) (sample i s)))))).
Proof.
  eapply stale_or_same_trans; [ | apply checkButtons_stale ].
  eapply stale_or_same_trans; [ | apply checkSensorOut_stale ].
  eapply stale_or_same_trans; [ | apply checkSensorIn_stale ].
  eapply stale_or_same_trans; [ apply timers_stale | ].
  apply checkBuzzer_stale.
Qed.

Lemma updateDisplay_stale_renders (s : state) :
  displayUpdated s = false ->
  ncalls Call_setDisplayText (updateDisplay s)
  = S (ncalls Call_setDisplayText s)
  /\ exists l, calls (updateDisplay s) = Call_setDisplayText :: l.
Proof.
  intros H. split.
  - destruct (updateDisplay_display s) as (_ & E & _). cbv zeta in E.
    rewrite E, H, orb_true_r. lia.
  - unfold_sketch;
      repeat (cbn; repeat (rewrite H; cbn); inner_guard);
      cbn; repeat (rewrite H; cbn);
      first [ eexists; reflexivity | cbn in *; congruence ].
Qed.

Lemma commit_display (c : call) (s : state) :
  calls (commit s) = calls s
  /\ displayUpdated (commit s) = displayUpdated s
  /\ ncalls c (commit s) = ncalls c s.
Proof. repeat split; reflexivity. Qed.

(** X7.  Every iteration ends with the display marked up to date and
    renders the text at most once.  If one of the counters has changed
    during the iteration, [setDisplayText] is called in that same
    iteration, and as its last call, after every change of the counters:
    what is on the display at the end of an iteration is never older than
    the counters. *)
Theorem display_rendered_when_counters_change (i : inputs) (s : state) :
  displayUpdated (loop i s) = true
  /\ (ncalls Call_setDisplayText (loop i s)
      <= S (ncalls Call_setDisplayText s))%nat
  /\ (visitorCount (loop i s) <> visitorCount s
      \/ maxVisitorCount (loop i s) <> maxVisitorCount s ->
      ncalls Call_setDisplayText (loop i s)
      = S (ncalls Call_setDisplayText s)
      /\ exists l, calls (loop i s) = Call_setDisplayText :: l).
Proof.
  pose proof (before_display_stale i s) as Hst.
  assert (Hpre : ncalls Call_setDisplayText
                   (checkButtons
                      (checkSensorOut
                         (checkSensorIn
                            (checkBuzzer
                               (updateTimers (millis i) (sample i s))))))
                 = ncalls Call_setDisplayText s).
  { transitivity
      (ncalls Call_setDisplayText
         (checkBuzzer (updateTimers (millis i) (sample i s))));
      [ | apply prelude_ncalls ].
    generalize (checkBuzzer (updateTimers (millis i) (sample i s))).
    intros x.
    transitivity (ncalls Call_setDisplayText (checkSensorIn x));
      [ | clear; by_cases ].
    generalize (checkSensorIn x). clear. intros x.
    transitivity (ncalls Call_setDisplayText (checkSensorOut x));
      [ | clear; by_cases ].
    generalize (checkSensorOut x). clear. intros x. by_cases. }
  rewrite loop_stages.
  destruct (commit_display Call_setDisplayText
              (tasks (updateTimers (millis i) (sample i s))))
    as (Cc & Cd & Cn).
  rewrite Cc, Cd, Cn.
  rewrite (proj1 (commit_counts _)), (proj2 (commit_counts _)).
  clear Cc Cd Cn. unfold tasks.
  rewrite (proj1 (updateDisplay_counts _)), (proj2 (updateDisplay_counts _)).
  remember (checkButtons
              (checkSensorOut
                 (checkSensorIn
                    (checkBuzzer (updateTimers (millis i) (sample i s))))))
    as y eqn:Ey. clear Ey.
  destruct (updateDisplay_display y) as (_ & Ecount & _ & Eflag).
  cbv zeta in Ecount.
  split; [ exact Eflag | ]. split.
  - rewrite Ecount, Hpre. destruct (_ || _); lia.
  - intros Hchanged.
    assert (Hy : displayUpdated y = false).
    { destruct Hst as [Hst | (_ & Hv & Hm)]; [ exact Hst | ].
      destruct Hchanged as [Hc | Hc]; contradiction. }
    destruct (updateDisplay_stale_renders y Hy) as [E1 E2].
    rewrite E1, Hpre. split; [ reflexivity | exact E2 ].
Qed.

Lemma display_rendered_when_counters_change_witness :
  let s := run [idle 100; with_up LOW (idle 400)] power_on in
  maxVisitorCount (loop (with_up LOW (idle 700)) s) <> maxVisitorCount s
  /\ ncalls Call_setDisplayText (loop (with_up LOW (idle 700)) s)
     = S (ncalls Call_setDisplayText s).
Proof.
  intros s.
  assert (H : maxVisitorCount (loop (with_up LOW (idle 700)) s)
              <> maxVisitorCount s) by (vm_compute; discriminate).
  split; [ exact H | ].
  destruct (display_rendered_when_counters_change (with_up LOW (idle 700)) s)
    as (_ & _ & Hr).
  destruct (Hr (or_intror H)) as [E _]. exact E.
Defined.

(** * The sensors across a clock wrap *)

Lemma usub_zero (a : Z) : in_range a -> usub a 0 = a.
Proof. intros [H0 H1]. rewrite usub_exact; lia. Qed.

(** X8.  On the iteration that sees the clock wrap, the sensor timestamps
    restart at 0: a falling edge read at most [SENSOR_DELAY_MS] after the
    wrap is dropped on either sensor, and one read later than that is
    accepted however short a time has passed since the last accepted
    edge. *)
Theorem sensors_across_clock_wrap (i : inputs) (s : state) :
  in_range (millis i) ->
  millis i < previousMillis s ->
  (millis i <= SENSOR_DELAY_MS ->
   ncalls Call_handleVisitorEntered (loop i s)
   = ncalls Call_handleVisitorEntered s
   /\ ncalls Call_handleVisitorLeft (loop i s)
      = ncalls Call_handleVisitorLeft s
   /\ sensorInTimestamp (loop i s) = 0
   /\ sensorOutTimestamp (loop i s) = 0)
  /\ (SENSOR_DELAY_MS < millis i ->
      (sensorInWasActive s = true -> readSensorIn i = HIGH ->
       ncalls Call_handleVisitorEntered (loop i s)
       = S (ncalls Call_handleVisitorEntered s))
      /\ (sensorOutWasActive s = true -> readSensorOut i = HIGH ->
          ncalls Call_handleVisitorLeft (loop i s)
          = S (ncalls Call_handleVisitorLeft s))).
Proof.
  intros Hi Hw.
  destruct (entrance_fields (loop i s)) as (_ & El & _ & Ec).
  destruct (exit_fields (loop i s)) as (_ & Xl & _ & Xc).
  rewrite El, Ec, Xl, Xc, loop_entrance, loop_exit.
  destruct (Z.ltb_spec (millis i) (previousMillis s)); [ | lia ].
  unfold latch, enter, accepts, latch_exit, leave, accepts_exit.
  cbn [e_was e_active e_now e_last x_was x_active x_now x_last].
  rewrite (usub_zero _ Hi).
  split.
  - intros Hd.
    destruct (Z.gtb_spec (millis i) SENSOR_DELAY_MS); [ lia | ].
    rewrite !andb_false_r. repeat split; reflexivity.
  - intros Hd.
    destruct (Z.gtb_spec (millis i) SENSOR_DELAY_MS); [ | lia ].
    split; intros Hwas Hr; rewrite Hwas, Hr; reflexivity.
Qed.

Lemma sensors_across_clock_wrap_witness :
  let s := run (visitor_enters 4294967000
                ++ [with_sensorIn LOW (idle 4294967100)]) power_on in
  sensorInTimestamp s = 4294967000
  /\ usub 1001 (sensorInTimestamp s) = 1297
  /\ ncalls Call_handleVisitorEntered (loop (idle 1001) s)
     = S (ncalls Call_handleVisitorEntered s).
Proof.
  intros s. split; [ reflexivity | ]. split; [ reflexivity | ].
  destruct (sensors_across_clock_wrap (idle 1001) s) as [_ H].
  - closed.
  - reflexivity.
  - destruct H as [H _]; [ reflexivity | ].
    apply H; reflexivity.
Defined.

(** * Auto-repeat of the up button *)

Lemma up_fields (s : state) :
  previousMillis s = u_prev (up_of s)
  /\ buttonUpTimestamp s = u_last (up_of s)
  /\ ncalls Call_handleButtonUp s = u_count (up_of s)
  /\ maxVisitorCount s = u_max (up_of s)
  /\ buttonDownNowPressed s = u_down (up_of s)
  /\ buttonResetNowPressed s = u_reset (up_of s).
Proof. repeat split; reflexivity. Qed.

Lemma checkBuzzer_up (s : state) : up_of (checkBuzzer s) = up_of s.
Proof. unfold up_of. f_equal; by_cases. Qed.

Lemma checkSensorIn_up (s : state) : up_of (checkSensorIn s) = up_of s.
Proof. unfold up_of. f_equal; by_cases. Qed.

Lemma checkSensorOut_up (s : state) : up_of (checkSensorOut s) = up_of s.
Proof. unfold up_of. f_equal; by_cases. Qed.

Lemma updateDisplay_up (s : state) : up_of (updateDisplay s) = up_of s.
Proof. unfold up_of. f_equal; by_cases. Qed.

Lemma commit_up (s : state) : up_of (commit s) = up_of s.
Proof. reflexivity. Qed.

Lemma checkButtons_press_up (s : state) :
  buttonResetNowPressed s = false ->
  buttonDownNowPressed s = false ->
  up_of (checkButtons s) = press_up (up_of s).
Proof.
  intros Hr Hd. rewrite checkButtons_cases. cbv zeta.
  assert (Hl : longPressed (unblockReset s) = false).
  { unfold longPressed.
    rewrite (proj1 (unblockReset_frame s)), Hr, andb_false_r.
    reflexivity. }
  rewrite Hl. unfold press_up, downPressed. rewrite Hd. cbn [andb].
  unfold up_of at 2 3 4. cbn [u_up u_now u_last].
  fold (upPressed s).
  destruct (upPressed s).
  - unfold up_of, handleButtonUp, unblockReset, log, ncalls.
    rewrite Hr. cbn. rewrite ?Hr. cbn. rewrite ?Hr. reflexivity.
  - unfold up_of, unblockReset, ncalls. rewrite Hr. cbn. rewrite ?Hr.
    reflexivity.
Qed.

Lemma timers_up (i : inputs) (s : state) :
  up_of (updateTimers (millis i) (sample i s)) =
  mkUpv (millis i) (millis i)
    (if millis i <? previousMillis s then 0 else buttonUpTimestamp s)
    (level_eqb (readButtonUp i) LOW) (level_eqb (readButtonDown i) LOW)
    (level_eqb (readButtonReset i) LOW) (ncalls Call_handleButtonUp s)
    (maxVisitorCount s).
Proof.
  unfold up_of, updateTimers, sample, ncalls.
  f_equal; cbn; destruct (millis i <? previousMillis s); reflexivity.
Qed.

Lemma loop_up (i : inputs) (s : state) :
  only_up i ->
  up_of (loop i s)
  = press_up (up_of (updateTimers (millis i) (sample i s))).
Proof.
  intros [Hr Hd].
  rewrite loop_stages, commit_up. unfold tasks.
  rewrite updateDisplay_up.
  remember (checkSensorOut
              (checkSensorIn
                 (checkBuzzer (updateTimers (millis i) (sample i s)))))
    as y eqn:Ey.
  assert (Hy : up_of y = up_of (updateTimers (millis i) (sample i s))).
  { rewrite Ey, checkSensorOut_up, checkSensorIn_up, checkBuzzer_up.
    reflexivity. }
  clear Ey.
  rewrite checkButtons_press_up, Hy; [ reflexivity | | ].
  - rewrite (proj2 (proj2 (proj2 (proj2 (proj2 (up_fields y)))))), Hy,
      timers_up.
    cbn [u_reset]. rewrite Hr. reflexivity.
  - rewrite (proj1 (proj2 (proj2 (proj2 (proj2 (up_fields y)))))), Hy,
      timers_up.
    cbn [u_down]. rewrite Hd. reflexivity.
Qed.

Lemma loop_up_nowrap (i : inputs) (s : state) :
  only_up i ->
  0 <= buttonUpTimestamp s <= previousMillis s ->
  previousMillis s <= millis i < ULONG_MODULUS ->
  let g := level_eqb (readButtonUp i) LOW
           && (millis i - buttonUpTimestamp s >? BUTTON_REPEAT_DELAY_MS) in
  previousMillis (loop i s) = millis i
  /\ buttonUpTimestamp (loop i s)
     = (if g then millis i else buttonUpTimestamp s)
  /\ ncalls Call_handleButtonUp (loop i s)
     = (if g then S (ncalls Call_handleButtonUp s)
        else ncalls Call_handleButtonUp s)
  /\ maxVisitorCount (loop i s)
     = (if g then uincr (maxVisitorCount s) else maxVisitorCount s).
Proof.
  intros Ho Hts Hi g.
  destruct (up_fields (loop i s)) as (Ep & El & Ec & Em & _).
  rewrite Ep, El, Ec, Em, (loop_up i s Ho), timers_up.
  destruct (Z.ltb_spec (millis i) (previousMillis s)); [ lia | ].
  unfold press_up. cbn [u_up u_now u_last].
  rewrite usub_exact by lia. fold g.
  destruct g; repeat split; reflexivity.
Qed.

Lemma iter_uincr_exact (n : nat) (m : Z) :
  0 <= m -> m + Z.of_nat n < ULONG_MODULUS ->
  Nat.iter n uincr m = m + Z.of_nat n.
Proof.
  induction n as [ | n IH ]; intros H0 H1.
  - cbn. lia.
  - cbn [Nat.iter nat_rect]. change (nat_rect _ m (fun _ => uincr) n)
      with (Nat.iter n uincr m).
    rewrite IH by lia. rewrite uincr_exact by lia. lia.
Qed.

(** X9.  As long as the clock does not wrap, and with reset and down
    released, holding the up button fires [handleButtonUp] once on each
    sample that reads more than [BUTTON_REPEAT_DELAY_MS] past its last
    firing, and never otherwise; [maxVisitorCount] has then been
    incremented once per firing, so it ends at its old value plus the
    number of firings when that fits an [unsigned long]. *)
Theorem up_button_auto_repeat (s : state) (ins : list inputs) :
  0 <= buttonUpTimestamp s <= previousMillis s ->
  clock_ok (previousMillis s) ins ->
  Forall only_up ins ->
  ncalls Call_handleButtonUp (run ins s)
  = (ncalls Call_handleButtonUp s
     + accepted_repeats (buttonUpTimestamp s) ins)%nat
  /\ maxVisitorCount (run ins s)
     = Nat.iter (accepted_repeats (buttonUpTimestamp s) ins) uincr
         (maxVisitorCount s)
  /\ (0 <= maxVisitorCount s ->
      maxVisitorCount s
      + Z.of_nat (accepted_repeats (buttonUpTimestamp s) ins)
      < ULONG_MODULUS ->
      maxVisitorCount (run ins s)
      = maxVisitorCount s
        + Z.of_nat (accepted_repeats (buttonUpTimestamp s) ins)).
Proof.
  intros Hts Hclock Hall.
  assert (H : ncalls Call_handleButtonUp (run ins s)
              = (ncalls Call_handleButtonUp s
                 + accepted_repeats (buttonUpTimestamp s) ins)%nat
              /\ maxVisitorCount (run ins s)
                 = Nat.iter (accepted_repeats (buttonUpTimestamp s) ins)
                     uincr (maxVisitorCount s)).
  { revert s Hts Hclock.
    induction Hall as [ | j rest Hj Hrest IH ]; intros s Hts Hclock.
    - cbn. split; [ lia | reflexivity ].
    - cbn [run accepted_repeats]. destruct Hclock as [Hi Hc].
      destruct (loop_up_nowrap j s Hj Hts Hi) as (Ep & El & Ec & Em).
      destruct (IH (loop j s)) as [I1 I2].
      { rewrite Ep, El.
        destruct (_ && _); lia. }
      { rewrite Ep. exact Hc. }
      rewrite I1, I2, El, Ec, Em.
      destruct (level_eqb (readButtonUp j) LOW
                && (millis j - buttonUpTimestamp s
                    >? BUTTON_REPEAT_DELAY_MS)).
      + split; [ lia | ]. rewrite Nat.iter_succ_r. reflexivity.
      + split; [ lia | reflexivity ]. }
  destruct H as [H1 H2].
  split; [ exact H1 | ]. split; [ exact H2 | ].
  intros H0 Hfit. rewrite H2. apply iter_uincr_exact; assumption.
Qed.

Lemma up_button_auto_repeat_witness :
  let ins := [with_up LOW (idle 600); with_up LOW (idle 900);
              with_up LOW (idle 1100); with_up LOW (idle 1101);
              with_up LOW (idle 1700)] in
  ncalls Call_handleButtonUp (run ins power_on) = 3%nat
  /\ maxVisitorCount (run ins power_on) = 23.
Proof.
  intros ins.
  destruct (up_button_auto_repeat power_on ins) as (H1 & _ & H3).
  - closed.
  - closed.
  - repeat (constructor; [ split; reflexivity | ]). constructor.
  - split; [ rewrite H1; reflexivity | ].
    rewrite H3; [ reflexivity | discriminate | reflexivity ].
Defined.

(** * The text on the display *)

Lemma length_append (a b : string) :
  String.length (a ++ b) = (String.length a + String.length b)%nat.
Proof.
  induction a as [ | c a IH ]; cbn; [ reflexivity | rewrite IH; reflexivity ].
Qed.

Lemma substring_prefix (b c : string) :
  String.substring 0 (String.length b) (b ++ c) = b.
Proof.
  induction b as [ | x b IH ]; cbn.
  - destruct c; reflexivity.
  - rewrite IH. reflexivity.
Qed.

Lemma N_to_uint_not_nil (n : N) : N.to_uint n <> Nil.
Proof.
  intros H. pose proof (Unsigned.of_to n) as E. rewrite H in E.
  cbn in E. subst n. discriminate H.
Qed.

Lemma string_of_uint_nonempty (d : uint) :
  (1 <= String.length (NilZero.string_of_uint d))%nat.
Proof. destruct d; cbn; lia. Qed.

Lemma read_labelled (label : string) (v : Z) :
  String.length label = 10%nat ->
  0 <= v ->
  read_line (label ++ String_ulong v ++ "      ") = Some v.
Proof.
  intros Hl Hv. unfold read_line.
  rewrite !length_append, Hl. cbn [String.length].
  replace (10 + (String.length (String_ulong v) + 6) - 16)%nat
    with (String.length (String_ulong v)) by lia.
  assert (E : String.substring 10 (String.length (String_ulong v))
                (label ++ String_ulong v ++ "      ")
              = String_ulong v).
  { do 11 (destruct label as [ | ? label ]; try discriminate Hl).
    cbn [append String.substring]. apply substring_prefix. }
  rewrite E. unfold String_ulong.
  rewrite NilZero.usu by apply N_to_uint_not_nil.
  rewrite Unsigned.of_to, Z2N.id by exact Hv. reflexivity.
Qed.

(** X10.  The two lines that [setDisplayText] prints carry the counters
    exactly: reading the number back from a line gives the counter it was
    printed from, so two states show the same text only if their counters
    agree.  Each line is longer than the [LCD_COLUMNS] columns of a row, so
    it overwrites the whole row and nothing of a longer, older number stays
    visible. *)
Theorem displayText_carries_the_counters (s : state) :
  in_range (visitorCount s) ->
  in_range (maxVisitorCount s) ->
  read_line (current_line s) = Some (visitorCount s)
  /\ read_line (maximum_line s) = Some (maxVisitorCount s)
  /\ (LCD_COLUMNS < String.length (current_line s))%nat
  /\ (LCD_COLUMNS < String.length (maximum_line s))%nat
  /\ (forall s',
        in_range (visitorCount s') ->
        in_range (maxVisitorCount s') ->
        displayText s' = displayText s ->
        visitorCount s' = visitorCount s
        /\ maxVisitorCount s' = maxVisitorCount s).
Proof.
  intros [Hv _] [Hm _].
  assert (Rc : forall x, 0 <= visitorCount x ->
                         read_line (current_line x) = Some (visitorCount x)).
  { intros x Hx. apply read_labelled; [ reflexivity | exact Hx ]. }
  assert (Rm : forall x, 0 <= maxVisitorCount x ->
                         read_line (maximum_line x)
                         = Some (maxVisitorCount x)).
  { intros x Hx. apply read_labelled; [ reflexivity | exact Hx ]. }
  split; [ apply Rc; exact Hv | ].
  split; [ apply Rm; exact Hm | ].
  split; [ | split ].
  - unfold current_line, LCD_COLUMNS. rewrite !length_append.
    pose proof (string_of_uint_nonempty
                  (N.to_uint (Z.to_N (visitorCount s)))) as H.
    unfold String_ulong. cbn [String.length]. lia.
  - unfold maximum_line, LCD_COLUMNS. rewrite !length_append.
    pose proof (string_of_uint_nonempty
                  (N.to_uint (Z.to_N (maxVisitorCount s)))) as H.
    unfold String_ulong. cbn [String.length]. lia.
  - intros s' [Hv' _] [Hm' _] E.
    pose (text := fun o => match o with
                           | Lcd_print t => t
                           | _ => EmptyString
                           end).
    assert (Ec : current_line s' = current_line s)
      by exact (f_equal (fun l => text (nth 1 l Lcd_home)) E).
    assert (Em : maximum_line s' = maximum_line s)
      by exact (f_equal (fun l => text (nth 3 l Lcd_home)) E).
    pose proof (Rc s' Hv') as A. rewrite Ec, (Rc s Hv) in A.
    pose proof (Rm s' Hm') as B. rewrite Em, (Rm s Hm) in B.
    split; congruence.
Qed.

Lemma displayText_carries_the_counters_witness :
  let s := set_visitorCount 17 power_on in
  displayText s
  = [Lcd_home; Lcd_print "Current : 17      ";
     Lcd_setCursor 0 1; Lcd_print "Maximum : 20      "]
  /\ read_line (current_line s) = Some 17.
Proof.
  intros s. split; [ reflexivity | ].
  destruct (displayText_carries_the_counters s) as [H _].
  - closed.
  - closed.
  - exact H.
Defined.
